(** * Cloud storage service: orchestrator, quota ledger and file coordinator

    A shallow embedding of the NestJS services of the repository
    (StorageService, UsersService, FilesService, StatsService and the
    AWS / GCP provider adapters) together with the properties the
    specification states about them.

    Conventions:
    - a JavaScript [Date] is its time value, the number of milliseconds
      since the epoch, as a [Z] without the range limit of the language
      (there is no Invalid Date); the local time zone is UTC (the service
      runs in the stock node image, which has no zone configured);
    - [async] code is sequential state passing over a [World] holding the
      database, the remote back ends, the clock and the log of calls made
      to the provider adapters; a thrown exception keeps the state changes
      made before it;
    - [bigint] columns and JS numbers holding byte counts are [Z]; the
      quota check, which reads the accumulated usage and the capacity
      through [Number(b)] and adds in doubles, rounds as the language
      does ([JsNumber]); the size of a file record and the bytes of a
      day, the [file.size] of uploads (at most 100 MiB each) and their
      sums, are read through [Number(b)] as they are. *)

From Stdlib Require Import ZArith List String Ascii Bool Lia Sorted.
From stdpp Require Import base option gmap strings list.
Import ListNotations.

Local Open Scope string_scope.
Local Open Scope Z_scope.

(* ===================================================================== *)
(** * The built-in Date object *)
(* ===================================================================== *)

Module JsDate.

Definition msPerSecond : Z := 1000.
Definition msPerMinute : Z := 60000.
Definition msPerHour : Z := 3600000.
Definition msPerDay : Z := 86400000.

(** Day number and time within the day of a time value. *)
Definition Day (t : Z) : Z := t / msPerDay.
Definition TimeWithinDay (t : Z) : Z := t mod msPerDay.

Definition isLeapYear (y : Z) : bool :=
  ((y mod 4 =? 0) && negb (y mod 100 =? 0)) || (y mod 400 =? 0).

(** Length of month [m] (0 = January) of year [y]: the calendar table. *)
Definition monthLength (y m : Z) : Z :=
  if m =? 1 then (if isLeapYear y then 29 else 28)
  else if (m =? 3) || (m =? 5) || (m =? 8) || (m =? 10) then 30
  else 31.

(** Day number of the civil date [y]-[m]-[d], with [m] in 1..12, in the
    proleptic Gregorian calendar; day 0 is 1970-01-01. *)
Definition days_from_civil (y m d : Z) : Z :=
  let y' := if m <=? 2 then y - 1 else y in
  let mp := if m <=? 2 then m + 9 else m - 3 in
  365 * y' + y' / 4 - y' / 100 + y' / 400 + (153 * mp + 2) / 5 + d - 1 - 719468.

(** The civil date (year, month 1..12, day) of a day number. *)
Definition civil_from_days (z : Z) : Z * Z * Z :=
  let z := z + 719468 in
  let era := z / 146097 in
  let doe := z - era * 146097 in
  let yoe := (doe - doe / 1460 + doe / 36524 - doe / 146096) / 365 in
  let doy := doe - (365 * yoe + yoe / 4 - yoe / 100) in
  let mp := (5 * doy + 2) / 153 in
  let d := doy - (153 * mp + 2) / 5 + 1 in
  let m := if mp <? 10 then mp + 3 else mp - 9 in
  let y := yoe + era * 400 in
  (if m <=? 2 then y + 1 else y, m, d).

Definition getFullYear (t : Z) : Z := fst (fst (civil_from_days (Day t))).
(** [getMonth] is 0-based. *)
Definition getMonth (t : Z) : Z := snd (fst (civil_from_days (Day t))) - 1.
Definition getDate (t : Z) : Z := snd (civil_from_days (Day t)).
Definition getHours (t : Z) : Z := TimeWithinDay t / msPerHour.
Definition getMinutes (t : Z) : Z := (TimeWithinDay t / msPerMinute) mod 60.
Definition getSeconds (t : Z) : Z := (TimeWithinDay t / msPerSecond) mod 60.
Definition getMilliseconds (t : Z) : Z := TimeWithinDay t mod 1000.

(** ECMAScript MakeDay: months outside 0..11 carry into the year, the
    day of the month is an offset from the first of the month. *)
Definition MakeDay (year month date : Z) : Z :=
  let ym := year + month / 12 in
  let mn := month mod 12 in
  days_from_civil ym (mn + 1) 1 + date - 1.

Definition MakeTime (hour min sec ms : Z) : Z :=
  hour * msPerHour + min * msPerMinute + sec * msPerSecond + ms.

(** A year argument in 0..99 given to the Date constructor means
    1900 + year. *)
Definition legacyYear (y : Z) : bool := (0 <=? y) && (y <=? 99).

(** The year the Date constructor takes a year argument to mean. *)
Definition constructorYear (y : Z) : Z := if legacyYear y then 1900 + y else y.

(** [new Date(year, month, date, hours, minutes, seconds, ms)]. *)
Definition newDate (year month date hours minutes seconds ms : Z) : Z :=
  let yr := constructorYear year in
  MakeDay yr month date * msPerDay + MakeTime hours minutes seconds ms.

(** [d.setHours(0, 0, 0, 0)]: the start of the day of [t]. *)
Definition setHours0 (t : Z) : Z := Day t * msPerDay.

(** A civil date of the calendar: month 1..12, day within the month. *)
Definition validCivil (y m d : Z) : Prop :=
  1 <= m <= 12 /\ 1 <= d <= monthLength y (m - 1).

(** Days before the March-based year [ys], and before the March-based
    month [mp] within it: the two summands of [days_from_civil]. *)
Definition yearDays (ys : Z) : Z := 365 * ys + ys / 4 - ys / 100 + ys / 400.
Definition monthDays (mp : Z) : Z := (153 * mp + 2) / 5.

End JsDate.

(* ===================================================================== *)
(** * Values shared by the services *)
(* ===================================================================== *)

(** A Node [Buffer]. *)
Definition Buffer : Type := list Byte.byte.

(** [buf.length], also the [size] of an upload. *)
Definition bufferLength (b : Buffer) : Z := Z.of_nat (length b).

(** The exceptions the services throw; [JsError] is a plain [Error] and
    any error raised by a client library. *)
Inductive Exn : Type :=
| BadRequestException (message : string)
| NotFoundException (message : string)
| ForbiddenException (message : string)
| ServiceUnavailableException (message : string)
| JsError (message : string).

(** The settlement of a promise. *)
Inductive Outcome (A : Type) : Type :=
| Returned (a : A)
| Thrown (e : Exn).
Arguments Returned {A} a.
Arguments Thrown {A} e.

Module JsString.

Definition lowerAscii (c : Ascii.ascii) : Ascii.ascii :=
  let n := Ascii.nat_of_ascii c in
  if (Nat.leb 65 n && Nat.leb n 90)%bool then Ascii.ascii_of_nat (n + 32) else c.

(** [s.toLowerCase()] on the ASCII range, which decides every comparison
    with the provider tags. *)
Fixpoint toLowerCase (s : string) : string :=
  match s with
  | EmptyString => EmptyString
  | String c rest => String (lowerAscii c) (toLowerCase rest)
  end.

(** [s.split(sep).pop()]: the text after the last [sep], the whole of
    [s] when it has none. *)
Fixpoint lastSegmentFrom (sep : Ascii.ascii) (acc s : string) : string :=
  match s with
  | EmptyString => acc
  | String c rest =>
      if Ascii.eqb c sep then lastSegmentFrom sep EmptyString rest
      else lastSegmentFrom sep (acc ++ String c EmptyString)%string rest
  end.

Definition splitPop (sep : Ascii.ascii) (s : string) : string :=
  lastSegmentFrom sep EmptyString s.

(** [a || b] on strings: the empty string is falsy. *)
Definition orElse (a b : string) : string :=
  match a with EmptyString => b | _ => a end.

End JsString.

(** JavaScript numbers holding integers.  A [number] is an IEEE 754
    double; one that holds an integer is that integer as a [Z].  The
    byte counts read from 64-bit [bigint] columns are far below the
    largest double, so no conversion or sum overflows to [Infinity]. *)
Module JsNumber.

(** [Number.MAX_SAFE_INTEGER], 2^53 - 1. *)
Definition MAX_SAFE_INTEGER : Z := 2 ^ 53 - 1.

(** [Number.isSafeInteger]. *)
Definition isSafeInteger (z : Z) : Prop :=
  - MAX_SAFE_INTEGER <= z <= MAX_SAFE_INTEGER.

(** The distance between neighbouring doubles at a magnitude [m]: 1 up
    to 2^53, then doubling with every power of two. *)
Definition ulp (m : Z) : Z := 2 ^ Z.max 0 (Z.log2 m - 52).

(** The double nearest to an integer [m >= 0], a tie going to the one
    with the even significand. *)
Definition nearest (m : Z) : Z :=
  let u := ulp m in
  let q := m / u in
  let r := m mod u in
  if 2 * r <? u then q * u
  else if u <? 2 * r then (q + 1) * u
  else if Z.even q then q * u else (q + 1) * u.

(** Round to nearest, ties to even: the rounding of every conversion
    and of every arithmetic operation. *)
Definition roundTiesToEven (z : Z) : Z := Z.sgn z * nearest (Z.abs z).

(** [Number(b)] of a [bigint]. *)
Definition ofBigInt (b : Z) : Z := roundTiesToEven b.

(** [a + b] on numbers that hold integers: the exact sum, rounded. *)
Definition add (a b : Z) : Z := roundTiesToEven (a + b).

End JsNumber.

(* ===================================================================== *)
(** * storage/interfaces/storage.interface.ts *)
(* ===================================================================== *)

Record FileUploadResult : Type := mkFileUploadResult {
  provider : string;
  location : string;
  key : string;
  size : Z
}.

Record FileDownloadResult : Type := mkFileDownloadResult {
  stream : Buffer;
  mimetype : string;
  dl_size : Z;
  fileName : string
}.

(** The class of a provider object, which [instanceof] inspects. *)
Inductive ProviderClass : Type :=
| AwsS3ProviderClass
| GcpStorageProviderClass
| OtherProviderClass.

(** [interface StorageProvider].  An implementation acts on the remote
    back ends [Cloud] alone and may throw from any method. *)
Record StorageProvider (Cloud : Type) : Type := mkStorageProvider {
  instanceOf : ProviderClass;
  uploadFile : Buffer -> string -> string -> Cloud -> Outcome FileUploadResult * Cloud;
  downloadFile : string -> Cloud -> Outcome FileDownloadResult * Cloud;
  deleteFile : string -> Cloud -> Outcome bool * Cloud;
  isAvailable : Cloud -> Outcome bool * Cloud
}.
Arguments mkStorageProvider {Cloud}.
Arguments instanceOf {Cloud}.
Arguments uploadFile {Cloud}.
Arguments downloadFile {Cloud}.
Arguments deleteFile {Cloud}.
Arguments isAvailable {Cloud}.

(** One call made to a provider adapter, with its settlement. *)
Inductive Call (Cloud : Type) : Type :=
| CallIsAvailable (p : StorageProvider Cloud) (r : Outcome bool)
| CallUploadFile (p : StorageProvider Cloud) (file : Buffer) (key mimetype : string)
    (r : Outcome FileUploadResult)
| CallDownloadFile (p : StorageProvider Cloud) (key : string)
    (r : Outcome FileDownloadResult)
| CallDeleteFile (p : StorageProvider Cloud) (key : string) (r : Outcome bool).
Arguments CallIsAvailable {Cloud}.
Arguments CallUploadFile {Cloud}.
Arguments CallDownloadFile {Cloud}.
Arguments CallDeleteFile {Cloud}.

(* ===================================================================== *)
(** * The database (Prisma models used by the services) *)
(* ===================================================================== *)

(** Modelled from the spec: the Prisma schema (the [User] model) is not
    among the sources.  The record holds the attributes of UserQuotaState,
    "accumulated usage in bytes for the current cycle, the timestamp at
    which the current cycle ends, the fixed maximum capacity in bytes",
    with the name and the admin flag, under the column names the services
    select.  The reset date may be null, as [checkAndResetQuotaIfNeeded]
    expects. *)
Record User : Type := mkUser {
  user_id : string;
  username : string;
  isAdmin : bool;
  monthlyUsage : Z;
  nextQuotaResetDate : option Z;
  maxStorageCapacity : Z
}.

(** Modelled from the spec: the Prisma schema (the [File] model) is not
    among the sources.  The record holds the attributes of FileRecord,
    "storage key, original client-supplied name, byte size, content type,
    owning user id, the provider identifier that currently holds the
    bytes, creation timestamp", under the column names the services
    write. *)
Record FileRecord : Type := mkFileRecord {
  file_id : string;
  name : string;
  originalName : string;
  file_size : Z;
  mimeType : string;
  cloudProvider : string;
  cloudPath : string;
  userId : string;
  uploadedAt : Z
}.

(** Modelled from the spec: the Prisma schema (the [UsageHistory] model)
    is not among the sources.  The record holds the attributes of
    DailyUsageEntry, the user id, the day and the "total bytes added that
    day", under the column names the services write. *)
Record UsageHistory : Type := mkUsageHistory {
  uh_id : string;
  uh_userId : string;
  date : Z;
  usageBytes : Z
}.

(** Tables keyed by their primary key; the usage history keeps its rows in
    insertion order, which [findFirst] follows. *)
Record Database : Type := mkDatabase {
  users : gmap string User;
  files : gmap string FileRecord;
  usageHistory : list UsageHistory
}.

(* ===================================================================== *)
(** * The world and the monad of the services *)
(* ===================================================================== *)

(** [clock n] is what the [n]-th evaluation of [new Date()] returns and
    [uuids n] the [n]-th identifier generated (by [uuidv4()] or by the
    database); [calls] logs, oldest first, the calls made to providers. *)
Record World (Cloud : Type) : Type := mkWorld {
  db : Database;
  cloud : Cloud;
  clock : nat -> Z;
  clockReads : nat;
  uuids : nat -> string;
  uuidCount : nat;
  env_API_URL : string;
  calls : list (Call Cloud)
}.
Arguments mkWorld {Cloud}.
Arguments db {Cloud}.
Arguments cloud {Cloud}.
Arguments clock {Cloud}.
Arguments clockReads {Cloud}.
Arguments uuids {Cloud}.
Arguments uuidCount {Cloud}.
Arguments env_API_URL {Cloud}.
Arguments calls {Cloud}.

Module Effects.
Section WithCloud.
Context {Cloud : Type}.

Definition M (A : Type) : Type := World Cloud -> Outcome A * World Cloud.

Definition ret {A} (a : A) : M A := fun w => (Returned a, w).

Definition throw {A} (e : Exn) : M A := fun w => (Thrown e, w).

Definition bind {A B} (m : M A) (k : A -> M B) : M B :=
  fun w =>
    match m w with
    | (Returned a, w') => k a w'
    | (Thrown e, w') => (Thrown e, w')
    end.

(** [try { m } catch (error) { handler }]. *)
Definition tryCatch {A} (m : M A) (handler : Exn -> M A) : M A :=
  fun w =>
    match m w with
    | (Returned a, w') => (Returned a, w')
    | (Thrown e, w') => handler e w'
    end.

Definition setDb (d : Database) (w : World Cloud) : World Cloud :=
  mkWorld d (cloud w) (clock w) (clockReads w) (uuids w) (uuidCount w)
    (env_API_URL w) (calls w).

Definition getDb : M Database := fun w => (Returned (db w), w).

Definition putDb (d : Database) : M unit := fun w => (Returned tt, setDb d w).

(** The world after one more reading of the clock. *)
Definition tick (w : World Cloud) : World Cloud :=
  mkWorld (db w) (cloud w) (clock w) (S (clockReads w)) (uuids w)
    (uuidCount w) (env_API_URL w) (calls w).

(** [new Date()]. *)
Definition newDateNow : M Z :=
  fun w => (Returned (clock w (clockReads w)), tick w).

(** The time the database stamps a new row with. *)
Definition dbNow : M Z := fun w => (Returned (clock w (clockReads w)), w).

(** [uuidv4()] and database-generated identifiers. *)
Definition freshId : M string :=
  fun w =>
    (Returned (uuids w (uuidCount w)),
     mkWorld (db w) (cloud w) (clock w) (clockReads w) (uuids w)
       (S (uuidCount w)) (env_API_URL w) (calls w)).

Definition getApiUrl : M string := fun w => (Returned (env_API_URL w), w).

(** Run a provider method on the back ends and log the call. *)
Definition callProvider {A} (call : Cloud -> Outcome A * Cloud)
    (entry : Outcome A -> Call Cloud) : M A :=
  fun w =>
    let '(r, c') := call (cloud w) in
    (r, mkWorld (db w) c' (clock w) (clockReads w) (uuids w) (uuidCount w)
          (env_API_URL w) (calls w ++ [entry r])).

End WithCloud.

Declare Scope eff_scope.
Delimit Scope eff_scope with eff.
Notation "'let*' x ':=' m 'in' k" := (bind m (fun x => k))
  (at level 10, x name, m at level 100, k at level 200) : eff_scope.
Notation "'run' m 'then' k" := (bind m (fun _ => k))
  (at level 10, m at level 100, k at level 200) : eff_scope.
End Effects.

Import Effects.
Local Open Scope eff_scope.

(* ===================================================================== *)
(** * storage/providers/aws-s3.provider.ts *)
(* ===================================================================== *)

Module AwsS3Provider.

Inductive S3Command : Type :=
| PutObjectCommand (Bucket Key : string) (Body : Buffer) (ContentType : string)
| GetObjectCommand (Bucket Key : string)
| DeleteObjectCommand (Bucket Key : string)
| HeadBucketCommand (Bucket : string).

Record S3Output : Type := mkS3Output {
  Body : option Buffer;
  ContentType : option string;
  ContentLength : option Z
}.

(** The SDK client: [send] performs one request against the back end
    and throws when the request fails. *)
Record S3Client (Cloud : Type) : Type := mkS3Client {
  send : S3Command -> Cloud -> Outcome S3Output * Cloud
}.
Arguments mkS3Client {Cloud}.
Arguments send {Cloud}.

Section WithClient.
Context {Cloud : Type}.
Variable s3Client : S3Client Cloud.
Variable bucketName : string.
Variable region : string.

Definition uploadFile (file : Buffer) (key mimetype : string)
    (c : Cloud) : Outcome FileUploadResult * Cloud :=
  match send s3Client (PutObjectCommand bucketName key file mimetype) c with
  | (Thrown e, c') => (Thrown e, c')
  | (Returned _, c') =>
      let location :=
        ("https://" ++ bucketName ++ ".s3." ++ region ++ ".amazonaws.com/" ++ key)%string in
      (Returned (mkFileUploadResult "aws" location key (bufferLength file)), c')
  end.

Definition downloadFile (key : string) (c : Cloud)
    : Outcome FileDownloadResult * Cloud :=
  match send s3Client (GetObjectCommand bucketName key) c with
  | (Thrown e, c') => (Thrown e, c')
  | (Returned response, c') =>
      (Returned (mkFileDownloadResult
         (default [] (Body response))
         (JsString.orElse (default "" (ContentType response)) "application/octet-stream")
         (default 0 (ContentLength response))
         (JsString.orElse (JsString.splitPop "/"%char key) "download")), c')
  end.

Definition deleteFile (key : string) (c : Cloud) : Outcome bool * Cloud :=
  match send s3Client (DeleteObjectCommand bucketName key) c with
  | (Returned _, c') => (Returned true, c')
  | (Thrown _, c') => (Returned false, c')
  end.

Definition isAvailable (c : Cloud) : Outcome bool * Cloud :=
  match send s3Client (HeadBucketCommand bucketName) c with
  | (Returned _, c') => (Returned true, c')
  | (Thrown _, c') => (Returned false, c')
  end.

(** An instance of the class. *)
Definition new : StorageProvider Cloud :=
  mkStorageProvider AwsS3ProviderClass uploadFile downloadFile deleteFile isAvailable.

End WithClient.
End AwsS3Provider.

(* ===================================================================== *)
(** * storage/providers/gcp-storage.provider.ts *)
(* ===================================================================== *)

Module GcpStorageProvider.

(** [metadata.size] is a string, a number or missing; a string is held
    by the integer [parseInt(size, 10)] reads from it. *)
Inductive MetadataSize : Type :=
| SizeString (parsed : Z)
| SizeNumber (n : Z)
| SizeMissing.

Record Metadata : Type := mkMetadata {
  md_size : MetadataSize;
  contentType : option string
}.

(** The operations of [storage.bucket(b)] and [bucket.file(key)]. *)
Record StorageClient (Cloud : Type) : Type := mkStorageClient {
  save : string -> string -> Buffer -> string -> Cloud -> Outcome unit * Cloud;
  getMetadata : string -> string -> Cloud -> Outcome Metadata * Cloud;
  createReadStream : string -> string -> Cloud -> Buffer;
  delete : string -> string -> Cloud -> Outcome unit * Cloud;
  exists_ : string -> Cloud -> Outcome bool * Cloud
}.
Arguments mkStorageClient {Cloud}.
Arguments save {Cloud}.
Arguments getMetadata {Cloud}.
Arguments createReadStream {Cloud}.
Arguments delete {Cloud}.
Arguments exists_ {Cloud}.

Section WithClient.
Context {Cloud : Type}.
Variable storage : StorageClient Cloud.
Variable bucketName : string.

Definition uploadFile (file : Buffer) (key mimetype : string)
    (c : Cloud) : Outcome FileUploadResult * Cloud :=
  match save storage bucketName key file mimetype c with
  | (Thrown error, c') => (Thrown error, c')
  | (Returned _, c') =>
      let publicUrl :=
        ("https://storage.googleapis.com/" ++ bucketName ++ "/" ++ key)%string in
      (Returned (mkFileUploadResult "gcp" publicUrl key (bufferLength file)), c')
  end.

Definition downloadFile (key : string) (c : Cloud)
    : Outcome FileDownloadResult * Cloud :=
  match getMetadata storage bucketName key c with
  | (Thrown error, c') => (Thrown error, c')
  | (Returned metadata, c') =>
      let stream := createReadStream storage bucketName key c' in
      let sizeValue :=
        match md_size metadata with
        | SizeString parsed => parsed
        | SizeNumber n => n
        | SizeMissing => 0
        end in
      (Returned (mkFileDownloadResult stream
         (JsString.orElse (default "" (contentType metadata)) "application/octet-stream")
         sizeValue
         (JsString.orElse (JsString.splitPop "/"%char key) "download")), c')
  end.

Definition deleteFile (key : string) (c : Cloud) : Outcome bool * Cloud :=
  match delete storage bucketName key c with
  | (Returned _, c') => (Returned true, c')
  | (Thrown _, c') => (Returned false, c')
  end.

Definition isAvailable (c : Cloud) : Outcome bool * Cloud :=
  match exists_ storage bucketName c with
  | (Returned exists', c') => (Returned exists', c')
  | (Thrown _, c') => (Returned false, c')
  end.

Definition new : StorageProvider Cloud :=
  mkStorageProvider GcpStorageProviderClass uploadFile downloadFile deleteFile
    isAvailable.

End WithClient.
End GcpStorageProvider.

(* ===================================================================== *)
(** * storage/storage.service.ts *)
(* ===================================================================== *)

(** The repository holds two revisions of this class.  Their constructor,
    [uploadFile], [deleteFile], [getProviderByName] and [getProviderName]
    are the same text; they differ in [downloadFile], which fails over to
    the other providers in one revision ([downloadFile]) and in the other
    gives up after the recorded provider, promising delivery by e-mail
    ([downloadFileOrNotify]). *)
Module StorageService.

(** The fields of the class. *)
Record t (Cloud : Type) : Type := mk {
  awsProvider : StorageProvider Cloud;
  gcpProvider : StorageProvider Cloud;
  providers : list (StorageProvider Cloud)
}.
Arguments mk {Cloud}.
Arguments awsProvider {Cloud}.
Arguments gcpProvider {Cloud}.
Arguments providers {Cloud}.

(** The constructor: the order of [providers] is the failover order. *)
Definition new {Cloud} (awsProvider gcpProvider : StorageProvider Cloud) : t Cloud :=
  mk awsProvider gcpProvider [awsProvider; gcpProvider].

Section WithCloud.
Context {Cloud : Type}.

Definition askIsAvailable (p : StorageProvider Cloud) : M bool :=
  callProvider (isAvailable p) (CallIsAvailable p).

Definition askUploadFile (p : StorageProvider Cloud) (file : Buffer)
    (key mimetype : string) : M FileUploadResult :=
  callProvider (uploadFile p file key mimetype) (CallUploadFile p file key mimetype).

Definition askDownloadFile (p : StorageProvider Cloud) (key : string)
    : M FileDownloadResult :=
  callProvider (downloadFile p key) (CallDownloadFile p key).

Definition askDeleteFile (p : StorageProvider Cloud) (key : string) : M bool :=
  callProvider (deleteFile p key) (CallDeleteFile p key).

(** The body of the upload loop for one provider: [Some] is the
    [return], [None] falls through to the next iteration. *)
Definition uploadAttempt (p : StorageProvider Cloud) (file : Buffer)
    (key mimetype : string) : M (option FileUploadResult) :=
  tryCatch
    (let* isAvailable := askIsAvailable p in
     if isAvailable
     then let* result := askUploadFile p file key mimetype in ret (Some result)
     else ret None)
    (fun _ => ret None).

Fixpoint uploadFileOver (ps : list (StorageProvider Cloud)) (file : Buffer)
    (key mimetype : string) : M FileUploadResult :=
  match ps with
  | [] => throw (ServiceUnavailableException "All storage providers are unavailable")
  | p :: rest =>
      let* attempt := uploadAttempt p file key mimetype in
      match attempt with
      | Some result => ret result
      | None => uploadFileOver rest file key mimetype
      end
  end.

Definition uploadFile (this : t Cloud) (file : Buffer) (key mimetype : string)
    : M FileUploadResult :=
  uploadFileOver (providers this) file key mimetype.

Definition getProviderByName (this : t Cloud) (name : string)
    : option (StorageProvider Cloud) :=
  let lower := JsString.toLowerCase name in
  if String.eqb lower "aws" then Some (awsProvider this)
  else if String.eqb lower "gcp" then Some (gcpProvider this)
  else None.

Definition getProviderName (p : StorageProvider Cloud) : string :=
  match instanceOf p with
  | AwsS3ProviderClass => "aws"
  | GcpStorageProviderClass => "gcp"
  | OtherProviderClass => "unknown"
  end.

(** The guarded download both revisions and the failover loop share:
    probe, download when available, swallow any exception. *)
Definition downloadAttempt (p : StorageProvider Cloud) (key : string)
    : M (option FileDownloadResult) :=
  tryCatch
    (let* isAvailable := askIsAvailable p in
     if isAvailable
     then let* result := askDownloadFile p key in ret (Some result)
     else ret None)
    (fun _ => ret None).

(** [if (selectedProvider) { try { ... } catch { ... } }]. *)
Definition downloadFromSelected (this : t Cloud) (key provider : string)
    : M (option FileDownloadResult) :=
  match getProviderByName this provider with
  | Some selectedProvider => downloadAttempt selectedProvider key
  | None => ret None
  end.

Fixpoint downloadFailover (ps : list (StorageProvider Cloud))
    (key provider : string) : M FileDownloadResult :=
  match ps with
  | [] =>
      throw (ServiceUnavailableException
               "Unable to download file from any storage provider")
  | otherProvider :: rest =>
      if String.eqb (getProviderName otherProvider) provider
      then downloadFailover rest key provider
      else
        let* attempt := downloadAttempt otherProvider key in
        match attempt with
        | Some result => ret result
        | None => downloadFailover rest key provider
        end
  end.

(** [downloadFile] of the revision with failover. *)
Definition downloadFile (this : t Cloud) (key provider : string)
    : M FileDownloadResult :=
  let* first := downloadFromSelected this key provider in
  match first with
  | Some result => ret result
  | None => downloadFailover (providers this) key provider
  end.

(** [downloadFile] of the revision without failover. *)
Definition downloadFileOrNotify (this : t Cloud) (key provider : string)
    : M FileDownloadResult :=
  let* first := downloadFromSelected this key provider in
  match first with
  | Some result => ret result
  | None =>
      throw (ServiceUnavailableException
               "Storage provider is currently unavailable. The file will be sent to your registered email once service is restored.")
  end.

Definition deleteFile (this : t Cloud) (key provider : string) : M bool :=
  match getProviderByName this provider with
  | None => throw (JsError ("Provider " ++ provider ++ " not found")%string)
  | Some selectedProvider => askDeleteFile selectedProvider key
  end.

End WithCloud.
End StorageService.

(* ===================================================================== *)
(** * The Prisma client calls the services make *)
(* ===================================================================== *)

Module Prisma.
Section WithCloud.
Context {Cloud : Type}.
Abbreviation M := (@M Cloud).

Definition withUsers (f : gmap string User -> gmap string User) (d : Database)
    : Database :=
  mkDatabase (f (users d)) (files d) (usageHistory d).

Definition withFiles (f : gmap string FileRecord -> gmap string FileRecord)
    (d : Database) : Database :=
  mkDatabase (users d) (f (files d)) (usageHistory d).

Definition withUsageHistory (f : list UsageHistory -> list UsageHistory)
    (d : Database) : Database :=
  mkDatabase (users d) (files d) (f (usageHistory d)).

(** [prisma.user.findUnique({ where: { id } })]. *)
Definition user_findUnique (id : string) : M (option User) :=
  let* d := getDb in ret (users d !! id).

(** [prisma.user.update({ where: { id }, data })]; it throws when no
    row has the id. *)
Definition user_update (id : string) (data : User -> User) : M unit :=
  let* d := getDb in
  match users d !! id with
  | None => throw (JsError "Record to update not found.")
  | Some u => putDb (withUsers (fun us => <[id := data u]> us) d)
  end.

(** [prisma.file.findUnique({ where: { id } })]. *)
Definition file_findUnique (id : string) : M (option FileRecord) :=
  let* d := getDb in ret (files d !! id).

(** [prisma.file.create({ data })]: the database supplies the id and
    the upload time; a duplicate id violates the primary key. *)
Definition file_create (name originalName : string) (size : Z)
    (mimeType cloudProvider cloudPath userId : string) : M FileRecord :=
  let* id := freshId in
  let* now := dbNow in
  let* d := getDb in
  match files d !! id with
  | Some _ => throw (JsError "Unique constraint failed on the fields: (`id`)")
  | None =>
      let row := mkFileRecord id name originalName size mimeType cloudProvider
                   cloudPath userId now in
      run putDb (withFiles (fun fs => <[id := row]> fs) d) then
      ret row
  end.

(** [prisma.file.delete({ where: { id } })]. *)
Definition file_delete (id : string) : M unit :=
  let* d := getDb in
  match files d !! id with
  | None => throw (JsError "Record to delete does not exist.")
  | Some _ => putDb (withFiles (fun fs => base.delete id fs) d)
  end.

(** [prisma.usageHistory.findFirst({ where })]. *)
Definition usageHistory_findFirst (where_ : UsageHistory -> bool)
    : M (option UsageHistory) :=
  let* d := getDb in ret (List.find where_ (usageHistory d)).

(** [prisma.usageHistory.update({ where: { id }, data })]. *)
Definition usageHistory_update (id : string) (data : UsageHistory -> UsageHistory)
    : M unit :=
  let* d := getDb in
  if existsb (fun r => String.eqb (uh_id r) id) (usageHistory d)
  then putDb (withUsageHistory
                (map (fun r => if String.eqb (uh_id r) id then data r else r)) d)
  else throw (JsError "Record to update not found.").

(** [prisma.usageHistory.create({ data })]. *)
Definition usageHistory_create (userId : string) (date usageBytes : Z) : M unit :=
  let* id := freshId in
  let* d := getDb in
  putDb (withUsageHistory
           (fun rows => (rows ++ [mkUsageHistory id userId date usageBytes])%list) d).

(** Insertion into a list ordered by descending [usageBytes]. *)
Fixpoint insertDesc (r : UsageHistory) (sorted : list UsageHistory)
    : list UsageHistory :=
  match sorted with
  | [] => [r]
  | x :: rest =>
      if usageBytes x <? usageBytes r then r :: x :: rest
      else x :: insertDesc r rest
  end.

(** [orderBy: { usageBytes: 'desc' }]. *)
Definition orderByUsageDesc (rows : list UsageHistory) : list UsageHistory :=
  fold_right insertDesc [] rows.

(** [prisma.usageHistory.findMany({ where, select: { user: { select:
    { username } }, usageBytes }, orderBy })]: each row joined with its
    user. *)
Definition usageHistory_findMany (where_ : UsageHistory -> bool)
    : M (list (string * Z)) :=
  let* d := getDb in
  ret (omap (fun r => match users d !! uh_userId r with
                      | Some u => Some (username u, usageBytes r)
                      | None => None
                      end)
         (orderByUsageDesc (List.filter where_ (usageHistory d)))).

End WithCloud.
End Prisma.

(* ===================================================================== *)
(** * users/users.service.ts *)
(* ===================================================================== *)

Module UsersService.
Import JsDate.

(** [daysInMonth(year, month)], [month] 0-based: the date of day 0 of
    the following month. *)
Definition daysInMonth (year month : Z) : Z :=
  getDate (newDate year (month + 1) 0 0 0 0 0).

Definition addOneMonth (orig : Z) : Z :=
  let year := getFullYear orig in
  let month := getMonth orig in
  let day := getDate orig in
  let newMonthIndex := month + 1 in
  let newYear := year + newMonthIndex / 12 in
  let newMonth := newMonthIndex mod 12 in
  let newDay := Z.min day (daysInMonth newYear newMonth) in
  newDate newYear newMonth newDay
    (getHours orig) (getMinutes orig) (getSeconds orig) (getMilliseconds orig).

(** [while (newResetDate <= now) newResetDate = addOneMonth(newResetDate)],
    cut after [fuel] iterations. *)
Fixpoint advanceWhileDue (fuel : nat) (newResetDate now : Z) : Z :=
  if newResetDate <=? now then
    match fuel with
    | O => newResetDate
    | S fuel' => advanceWhileDue fuel' (addOneMonth newResetDate) now
    end
  else newResetDate.

(** A number of iterations the loop cannot exceed: every iteration moves
    the date forward by 28 days at least. *)
Definition loopBound (newResetDate now : Z) : nat :=
  S (Z.to_nat ((now - newResetDate) / (28 * msPerDay))).

Definition rollForward (newResetDate now : Z) : Z :=
  advanceWhileDue (loopBound newResetDate now) newResetDate now.

(** [!nextResetDate || nextResetDate <= now]. *)
Definition resetIsDue (nextResetDate : option Z) (now : Z) : bool :=
  match nextResetDate with
  | None => true
  | Some d => d <=? now
  end.

Definition resetUser (newResetDate : Z) (u : User) : User :=
  mkUser (user_id u) (username u) (isAdmin u) 0 (Some newResetDate)
    (maxStorageCapacity u).

Definition incrementUsage (fileSize : Z) (u : User) : User :=
  mkUser (user_id u) (username u) (isAdmin u) (monthlyUsage u + fileSize)
    (nextQuotaResetDate u) (maxStorageCapacity u).

Definition incrementUsageBytes (fileSize : Z) (r : UsageHistory) : UsageHistory :=
  mkUsageHistory (uh_id r) (uh_userId r) (date r) (usageBytes r + fileSize).

Section WithCloud.
Context {Cloud : Type}.
Abbreviation M := (@M Cloud).

Definition isAdmin (userId : string) : M bool :=
  let* user := Prisma.user_findUnique userId in
  match user with
  | None => throw (BadRequestException "User not found")
  | Some user => ret (isAdmin user)
  end.

Definition checkAndResetQuotaIfNeeded (userId : string) (nextResetDate : option Z)
    : M unit :=
  let* now := newDateNow in
  if resetIsDue nextResetDate now then
    let* start :=
      match nextResetDate with
      | Some d => ret d
      | None => newDateNow
      end in
    let newResetDate := rollForward start now in
    Prisma.user_update userId (resetUser newResetDate)
  else ret tt.

Definition checkUserStorageQuota (userId : string) (fileSize : Z) : M bool :=
  let* user := Prisma.user_findUnique userId in
  match user with
  | None => throw (BadRequestException "User not found")
  | Some user =>
      run checkAndResetQuotaIfNeeded userId (nextQuotaResetDate user) then
      let* freshUser := Prisma.user_findUnique userId in
      match freshUser with
      | None => throw (BadRequestException "User not found after quota reset check")
      | Some freshUser =>
          let usageInBytes := JsNumber.ofBigInt (monthlyUsage freshUser) in
          let maxStorageInBytes := JsNumber.ofBigInt (maxStorageCapacity user) in
          ret (JsNumber.add usageInBytes fileSize <=? maxStorageInBytes)
      end
  end.

(** The [where] of the look-up of today's row. *)
Definition isTodaysRow (userId : string) (today : Z) (r : UsageHistory) : bool :=
  String.eqb (uh_userId r) userId && (today <=? date r) &&
  (date r <? today + 24 * 60 * 60 * 1000).

Definition updateUserStorageUsage (userId : string) (fileSize : Z) : M unit :=
  let* user := Prisma.user_findUnique userId in
  match user with
  | None => throw (BadRequestException "User not found")
  | Some user =>
      run checkAndResetQuotaIfNeeded userId (nextQuotaResetDate user) then
      run Prisma.user_update userId (incrementUsage fileSize) then
      let* now := newDateNow in
      let today := setHours0 now in
      let* existingRecord := Prisma.usageHistory_findFirst (isTodaysRow userId today) in
      match existingRecord with
      | Some existingRecord =>
          Prisma.usageHistory_update (uh_id existingRecord)
            (incrementUsageBytes fileSize)
      | None => Prisma.usageHistory_create userId today fileSize
      end
  end.

Definition getDailyUsageStats : M (list (string * Z)) :=
  let* now := newDateNow in
  let today := setHours0 now in
  Prisma.usageHistory_findMany
    (fun r => (today <=? date r) && (date r <? today + 24 * 60 * 60 * 1000) &&
              (0 <? usageBytes r)).

End WithCloud.
End UsersService.

(* ===================================================================== *)
(** * users/users.service.ts: the reset of every user *)
(* ===================================================================== *)

Module UsersReset.
Section WithCloud.
Context {Cloud : Type}.
Abbreviation M := (@M Cloud).

(** [prisma.user.findMany()]: every row, in the order of the table. *)
Definition user_findMany : M (list User) :=
  let* d := getDb in ret (map snd (map_to_list (users d))).

(** [for (const user of users) { await body(user) }]. *)
Fixpoint forEachUser (users : list User) (body : User -> M unit) : M unit :=
  match users with
  | [] => ret tt
  | user :: rest => run body user then forEachUser rest body
  end.

Definition resetMonthlyUsage : M unit :=
  let* now := newDateNow in
  let* users := user_findMany in
  forEachUser users (fun user =>
    UsersService.checkAndResetQuotaIfNeeded (user_id user) (nextQuotaResetDate user)).

End WithCloud.
End UsersReset.

(* ===================================================================== *)
(** * auth/auth.service.ts: the date helpers *)
(* ===================================================================== *)

(** [register] computes the first reset date of a new user with its own
    copies of the two date helpers. *)
Module AuthService.
Import JsDate.

Definition daysInMonth (year month : Z) : Z :=
  getDate (newDate year (month + 1) 0 0 0 0 0).

Definition addOneMonth (orig : Z) : Z :=
  let year := getFullYear orig in
  let month := getMonth orig in
  let day := getDate orig in
  let newMonthIndex := month + 1 in
  let newYear := year + newMonthIndex / 12 in
  let newMonth := newMonthIndex mod 12 in
  let newDay := Z.min day (daysInMonth newYear newMonth) in
  newDate newYear newMonth newDay
    (getHours orig) (getMinutes orig) (getSeconds orig) (getMilliseconds orig).

End AuthService.

(* ===================================================================== *)
(** * files/files.service.ts *)
(* ===================================================================== *)

(** [Express.Multer.File], the fields the service reads. *)
Record MulterFile : Type := mkMulterFile {
  originalname : string;
  mf_mimetype : string;
  mf_size : Z;
  buffer : Buffer
}.

Record FileResponseDto : Type := mkFileResponseDto {
  dto_id : string;
  dto_name : string;
  dto_originalName : string;
  dto_size : Z;
  dto_uploadedAt : Z;
  url : string
}.

Record FileForDownload : Type := mkFileForDownload {
  fd_stream : Buffer;
  fd_mimetype : string;
  fd_size : Z;
  filename : string
}.

Module FilesService.
Section WithCloud.
Context {Cloud : Type}.
Abbreviation M := (@M Cloud).

Variable storageService : StorageService.t Cloud.

(** [storageService.downloadFile] of the revision in use. *)
Variable storageService_downloadFile :
  StorageService.t Cloud -> string -> string -> M FileDownloadResult.

Definition uploadFile (file : MulterFile) (userId : string) : M FileResponseDto :=
  let fileSize := mf_size file in
  let* hasQuota := UsersService.checkUserStorageQuota userId fileSize in
  if negb hasQuota
  then throw (BadRequestException "Storage quota exceeded (5GB limit)")
  else
    let fileExtension := JsString.splitPop "."%char (originalname file) in
    let* uuid := freshId in
    let uniqueFilename := (uuid ++ "." ++ fileExtension)%string in
    let cloudPath := ("uploads/" ++ userId ++ "/" ++ uniqueFilename)%string in
    let* uploadResult :=
      StorageService.uploadFile storageService (buffer file) cloudPath
        (mf_mimetype file) in
    let* fileRecord :=
      Prisma.file_create uniqueFilename (originalname file) (mf_size file)
        (mf_mimetype file) (provider uploadResult) (key uploadResult) userId in
    run UsersService.updateUserStorageUsage userId (mf_size file) then
    ret (mkFileResponseDto (file_id fileRecord) (name fileRecord)
           (originalName fileRecord) (file_size fileRecord)
           (uploadedAt fileRecord) (location uploadResult)).

(** The look-up and ownership check the three per-file operations
    start with. *)
Definition findOwnedFile (fileId callerId : string) : M FileRecord :=
  let* file := Prisma.file_findUnique fileId in
  match file with
  | None => throw (NotFoundException "File not found")
  | Some file =>
      if negb (String.eqb (userId file) callerId)
      then throw (NotFoundException "File not found")
      else ret file
  end.

Definition getFile (fileId userId : string) : M FileResponseDto :=
  let* file := findOwnedFile fileId userId in
  let* apiUrl := getApiUrl in
  ret (mkFileResponseDto (file_id file) (name file) (originalName file)
         (file_size file) (uploadedAt file)
         (apiUrl ++ "/files/download/" ++ file_id file)%string).

Definition getFileForDownload (fileId userId : string) : M FileForDownload :=
  let* file := findOwnedFile fileId userId in
  let* downloadResult :=
    storageService_downloadFile storageService (cloudPath file) (cloudProvider file) in
  ret (mkFileForDownload (stream downloadResult) (mimetype downloadResult)
         (dl_size downloadResult) (originalName file)).

Definition deleteFile (fileId userId : string) : M bool :=
  let* file := findOwnedFile fileId userId in
  run StorageService.deleteFile storageService (cloudPath file) (cloudProvider file) then
  run Prisma.file_delete fileId then
  let fileSize := file_size file * -1 in
  run UsersService.updateUserStorageUsage userId fileSize then
  ret true.

End WithCloud.
End FilesService.

(* ===================================================================== *)
(** * files/files.service.ts: the listing *)
(* ===================================================================== *)

Module FilesListing.

(** Insertion into a list ordered by descending [uploadedAt]. *)
Fixpoint insertNewest (f : FileRecord) (sorted : list FileRecord)
    : list FileRecord :=
  match sorted with
  | [] => [f]
  | x :: rest =>
      if uploadedAt x <? uploadedAt f then f :: x :: rest
      else x :: insertNewest f rest
  end.

(** [orderBy: { uploadedAt: 'desc' }]. *)
Definition orderByUploadedAtDesc (rows : list FileRecord) : list FileRecord :=
  fold_right insertNewest [] rows.

(** [where: { userId }]. *)
Definition ownedBy (owner : string) (f : FileRecord) : bool :=
  String.eqb (userId f) owner.

(** The answer [getFile] and [getUserFiles] build from a record. *)
Definition toDto (apiUrl : string) (file : FileRecord) : FileResponseDto :=
  mkFileResponseDto (file_id file) (name file) (originalName file) (file_size file)
    (uploadedAt file) (apiUrl ++ "/files/download/" ++ file_id file)%string.

Section WithCloud.
Context {Cloud : Type}.
Abbreviation M := (@M Cloud).

(** [prisma.file.findMany({ where, orderBy: { uploadedAt: 'desc' } })]. *)
Definition file_findMany (where_ : FileRecord -> bool) : M (list FileRecord) :=
  let* d := getDb in
  ret (orderByUploadedAtDesc
         (List.filter where_ (map snd (map_to_list (files d))))).

Definition getUserFiles (userId : string) : M (list FileResponseDto) :=
  let* files := file_findMany (ownedBy userId) in
  let* apiUrl := getApiUrl in
  ret (map (toDto apiUrl) files).

End WithCloud.
End FilesListing.

(* ===================================================================== *)
(** * stats/stats.service.ts *)
(* ===================================================================== *)

(** One line of the report; [usageMB] is [usageBytes / (1024 * 1024)],
    kept as the fraction. *)
Record DailyUsageStat : Type := mkDailyUsageStat {
  stat_username : string;
  stat_usageBytes : Z;
  usageMB : Z * Z
}.

Module StatsService.
Section WithCloud.
Context {Cloud : Type}.
Abbreviation M := (@M Cloud).

Definition getDailyUsageStats (userId : string) : M (list DailyUsageStat) :=
  let* isAdmin := UsersService.isAdmin userId in
  if negb isAdmin
  then throw (ForbiddenException "Admin access required")
  else
    let* stats := UsersService.getDailyUsageStats in
    ret (map (fun stat =>
                mkDailyUsageStat (fst stat) (snd stat) (snd stat, 1024 * 1024))
           stats).

End WithCloud.
End StatsService.

(* ===================================================================== *)
(** * Sequences of requests *)
(* ===================================================================== *)

(** The upload and delete requests a client sends; a request that fails
    leaves the world as the failing call left it. *)
Inductive Request : Type :=
| UploadRequest (file : MulterFile) (userId : string)
| DeleteRequest (fileId userId : string).

Module Session.
Section WithCloud.
Context {Cloud : Type}.
Variable storageService : StorageService.t Cloud.

Definition handle (w : World Cloud) (req : Request) : World Cloud :=
  match req with
  | UploadRequest file userId =>
      snd (FilesService.uploadFile storageService file userId w)
  | DeleteRequest fileId userId =>
      snd (FilesService.deleteFile storageService fileId userId w)
  end.

Definition handleAll (reqs : list Request) (w : World Cloud) : World Cloud :=
  fold_left handle reqs w.

End WithCloud.
End Session.

(* ===================================================================== *)
(** * test/mocks: the in-memory providers of the test suite *)
(* ===================================================================== *)

Module Mocks.

(** The two maps of a [MockStorageProvider] instance. *)
Record MockStore : Type := mkMockStore {
  mock_files : gmap string Buffer;
  mock_mimetypes : gmap string string
}.

(** The back ends of a test run: one store per mock instance. *)
Record MockCloud : Type := mkMockCloud {
  awsStore : MockStore;
  gcpStore : MockStore
}.

Definition emptyStore : MockStore := mkMockStore ∅ ∅.

Section MockStorageProvider.
Variable getStore : MockCloud -> MockStore.
Variable setStore : MockStore -> MockCloud -> MockCloud.

(** [MockStorageProvider.uploadFile], tagged as the subclass
    overrides it. *)
Definition uploadFileAs (tag : string) (file : Buffer) (key mimetype : string)
    (c : MockCloud) : Outcome FileUploadResult * MockCloud :=
  let s := getStore c in
  (Returned (mkFileUploadResult tag ("mock://storage/" ++ key)%string key
               (bufferLength file)),
   setStore (mkMockStore (<[key := file]> (mock_files s))
               (<[key := mimetype]> (mock_mimetypes s))) c).

Definition downloadFile (key : string) (c : MockCloud)
    : Outcome FileDownloadResult * MockCloud :=
  let s := getStore c in
  match mock_files s !! key with
  | None => (Thrown (JsError ("File not found: " ++ key)%string), c)
  | Some file =>
      (Returned (mkFileDownloadResult file
         (JsString.orElse (default "" (mock_mimetypes s !! key))
            "application/octet-stream")
         (bufferLength file)
         (JsString.orElse (JsString.splitPop "/"%char key) "download")), c)
  end.

Definition deleteFile (key : string) (c : MockCloud) : Outcome bool * MockCloud :=
  let s := getStore c in
  match mock_files s !! key with
  | None => (Returned false, c)
  | Some _ =>
      (Returned true,
       setStore (mkMockStore (base.delete key (mock_files s))
                   (base.delete key (mock_mimetypes s))) c)
  end.

Definition isAvailable (c : MockCloud) : Outcome bool * MockCloud :=
  (Returned true, c).

End MockStorageProvider.

Definition setAwsStore (s : MockStore) (c : MockCloud) : MockCloud :=
  mkMockCloud s (gcpStore c).
Definition setGcpStore (s : MockStore) (c : MockCloud) : MockCloud :=
  mkMockCloud (awsStore c) s.

(** The mocks extend [MockStorageProvider], not the classes they stand
    in for. *)
Definition MockAwsS3Provider : StorageProvider MockCloud :=
  mkStorageProvider OtherProviderClass
    (uploadFileAs awsStore setAwsStore "aws")
    (downloadFile awsStore) (deleteFile awsStore setAwsStore) isAvailable.

Definition MockGcpStorageProvider : StorageProvider MockCloud :=
  mkStorageProvider OtherProviderClass
    (uploadFileAs gcpStore setGcpStore "gcp")
    (downloadFile gcpStore) (deleteFile gcpStore setGcpStore) isAvailable.

(** [FailingAwsS3Provider]: always reports unavailable. *)
Definition FailingAwsS3Provider : StorageProvider MockCloud :=
  mkStorageProvider OtherProviderClass
    (uploadFileAs awsStore setAwsStore "aws")
    (downloadFile awsStore) (deleteFile awsStore setAwsStore)
    (fun c => (Returned false, c)).

(** [AwsDownloadFailProvider]: every download throws. *)
Definition AwsDownloadFailProvider : StorageProvider MockCloud :=
  mkStorageProvider OtherProviderClass
    (uploadFileAs awsStore setAwsStore "aws")
    (fun _ c => (Thrown (JsError "AWS download failed"), c))
    (deleteFile awsStore setAwsStore) isAvailable.

(** The user the fallback tests register, with the 5 GB capacity the
    unit tests assume, and the file they upload. *)
Definition storagetester : User :=
  mkUser "t1" "storagetester" false 0 (Some (JsDate.newDate 2025 1 16 12 0 0 0))
    (5 * 1024 * 1024 * 1024).

Definition testFile : MulterFile :=
  mkMulterFile "test-fallback-file.txt" "text/plain" 2 [Byte.x68; Byte.x69].

(** The world of a test: the tester registered, nothing stored, the
    clock at noon of 16 January 2025. *)
Definition world (c : MockCloud) : World MockCloud :=
  mkWorld (mkDatabase {["t1" := storagetester]} ∅ []) c
    (fun _ => JsDate.newDate 2025 0 16 12 0 0 0) 0
    (fun n => String (Ascii.ascii_of_nat (97 + n)) EmptyString) 0
    "http://localhost:3000" [].

Definition nothingStored : MockCloud := mkMockCloud emptyStore emptyStore.

(** The object of an earlier upload through S3, which the GCS mock of
    the download test can read as well. *)
Definition sharedCopy : MockCloud :=
  let store := mkMockStore {["uploads/t1/a.txt" := [Byte.x68; Byte.x69]]}
                 {["uploads/t1/a.txt" := "text/plain"]} in
  mkMockCloud store store.

End Mocks.

(* ===================================================================== *)
(** * Vocabulary of the stated properties *)
(* ===================================================================== *)

Module Calendar.
Import JsDate.

(** [r] is [orig] plus one calendar month: the month field incremented,
    the year rolled after December, the day of the month clamped to
    the last day of the resulting month, the time of day kept. *)
Definition addsOneCalendarMonth (orig r : Z) : Prop :=
  (if getMonth orig =? 11
   then getFullYear r = getFullYear orig + 1 /\ getMonth r = 0
   else getFullYear r = getFullYear orig /\ getMonth r = getMonth orig + 1) /\
  getDate r = Z.min (getDate orig) (monthLength (getFullYear r) (getMonth r)) /\
  getHours r = getHours orig /\ getMinutes r = getMinutes orig /\
  getSeconds r = getSeconds orig /\ getMilliseconds r = getMilliseconds orig.

(** 15 January of the year 50, midnight. *)
Definition jan15_year50 : Z := days_from_civil 50 1 15 * msPerDay.

End Calendar.

Module Failover.
Section Replay.
Context {Cloud : Type}.

(** The logged call [x], made on the back ends [c], settles as logged and
    leaves the back ends [c']. *)
Definition performs (x : Call Cloud) (c c' : Cloud) : Prop :=
  match x with
  | CallIsAvailable p r => isAvailable p c = (r, c')
  | CallUploadFile p file key mimetype r => uploadFile p file key mimetype c = (r, c')
  | CallDownloadFile p key r => downloadFile p key c = (r, c')
  | CallDeleteFile p key r => deleteFile p key c = (r, c')
  end.

(** The calls of [log], made in order from the back ends [c], settle as
    logged and leave the back ends [c']. *)
Fixpoint replays (c : Cloud) (log : list (Call Cloud)) (c' : Cloud) : Prop :=
  match log with
  | [] => c' = c
  | x :: rest => exists c1, performs x c c1 /\ replays c1 rest c'
  end.

End Replay.

Section WithAction.
Context {Cloud A : Type}.

(** The log entry of the guarded action (an upload or a download). *)
Variable act : StorageProvider Cloud -> Outcome A -> Call Cloud.

(** The calls of an attempt on [p] that did not produce a result: the
    probe threw, the probe reported unavailable, or the provider
    reported available and the action threw. *)
Inductive FailedAttempt (p : StorageProvider Cloud) : list (Call Cloud) -> Prop :=
| ProbeThrew (e : Exn) : FailedAttempt p [CallIsAvailable p (Thrown e)]
| ReportedUnavailable : FailedAttempt p [CallIsAvailable p (Returned false)]
| ActionThrew (e : Exn) :
    FailedAttempt p [CallIsAvailable p (Returned true); act p (Thrown e)].

(** A run that tries the providers of [order] one after the other and
    stops at the first whose probe returns true and whose action
    returns; it throws [exhausted] when no provider is left.  The calls
    logged are the calls made, with the settlements they had; the run
    touches the database, the clock and the identifiers not at all. *)
Definition FailoverRun (order : list (StorageProvider Cloud)) (exhausted : Exn)
    (w : World Cloud) (out : Outcome A * World Cloud) : Prop :=
  let '(r, w') := out in
  db w' = db w /\ clockReads w' = clockReads w /\ uuidCount w' = uuidCount w /\
  exists log : list (Call Cloud),
    calls w' = (calls w ++ log)%list /\
    replays (cloud w) log (cloud w') /\
    match r with
    | Returned a =>
        exists before p after attempts,
          order = (before ++ p :: after)%list /\
          Forall2 FailedAttempt before attempts /\
          log = (concat attempts ++
                 [CallIsAvailable p (Returned true); act p (Returned a)])%list
    | Thrown e =>
        e = exhausted /\
        exists attempts,
          Forall2 FailedAttempt order attempts /\ log = concat attempts
    end.

End WithAction.

Section Guarded.
Context {Cloud A : Type}.
Variable act : StorageProvider Cloud -> Outcome A -> Call Cloud.

(** The guarded attempt the loops of the orchestrator are made of:
    [uploadAttempt] and [downloadAttempt] are instances of it. *)
Definition guarded (p : StorageProvider Cloud) (call : Cloud -> Outcome A * Cloud)
    : M (option A) :=
  tryCatch
    (let* isAvailable := StorageService.askIsAvailable p in
     if isAvailable
     then let* result := callProvider call (act p) in ret (Some result)
     else ret None)
    (fun _ => ret None).

End Guarded.

Section Uploads.
Context {Cloud : Type}.

Definition uploadEntry (file : Buffer) (key mimetype : string)
    (p : StorageProvider Cloud) (r : Outcome FileUploadResult) : Call Cloud :=
  CallUploadFile p file key mimetype r.

Definition downloadEntry (key : string)
    (p : StorageProvider Cloud) (r : Outcome FileDownloadResult) : Call Cloud :=
  CallDownloadFile p key r.

Definition isReturnedUpload (c : Call Cloud) : bool :=
  match c with CallUploadFile _ _ _ _ (Returned _) => true | _ => false end.

(** The number of providers that took the bytes: the uploads that
    returned. *)
Definition storedCount (log : list (Call Cloud)) : nat :=
  length (List.filter isReturnedUpload log).

(** Every upload in the log comes directly after a probe of the same
    provider that returned true. *)
Definition uploadsOnlyAfterAvailable (log : list (Call Cloud)) : Prop :=
  forall pre p file key mimetype r post,
    log = (pre ++ CallUploadFile p file key mimetype r :: post)%list ->
    exists pre', pre = (pre' ++ [CallIsAvailable p (Returned true)])%list.

End Uploads.
End Failover.

Module Accounts.

(** The user table is keyed by the [id] column of its rows. *)
Definition keyedById (us : gmap string User) : Prop :=
  map_Forall (fun k u => user_id u = k) us.

(** What a reset-check that read the time [now] makes of the row [u]:
    a due row has its usage set to 0 and a reset instant after [now],
    any other row is left as it is. *)
Definition checkedAt (now : Z) (u u' : User) : Prop :=
  if UsersService.resetIsDue (nextQuotaResetDate u) now
  then exists next, u' = UsersService.resetUser next u /\ now < next
  else u' = u.

End Accounts.

Module LedgerSums.

(** The bytes booked for [userId] on the calendar day [day]: the sum of
    the entries of that user and day. *)
Definition bookedOn (userId : string) (day : Z) (rows : list UsageHistory) : Z :=
  fold_right Z.add 0
    (map usageBytes
       (List.filter (fun r => String.eqb (uh_userId r) userId &&
                              (JsDate.Day (date r) =? day)) rows)).

End LedgerSums.

Module Ordering.

(** The order of a list sorted by descending [sortKey]. *)
Definition descending {A : Type} (sortKey : A -> Z) (a b : A) : Prop :=
  sortKey b <= sortKey a.

End Ordering.

Module Listings.

(** The rows of a table, in no particular order. *)
Definition rows {A : Type} (table : gmap string A) : list A :=
  map snd (map_to_list table).

(** The records of a file table that [owner] owns. *)
Definition ownedFiles (owner : string) (table : gmap string FileRecord)
    : list FileRecord :=
  List.filter (fun f => String.eqb (userId f) owner) (rows table).

(** The entries the usage report is about: those dated on the calendar
    day of [now] that hold more than 0 bytes. *)
Definition reportable (now : Z) (r : UsageHistory) : bool :=
  (JsDate.Day (date r) =? JsDate.Day now) && (0 <? usageBytes r).

(** The line of an entry: the name of its user and its bytes.  An entry
    whose user has no row has no line. *)
Definition reportLine (users : gmap string User) (r : UsageHistory)
    : option (string * Z) :=
  match users !! uh_userId r with
  | Some u => Some (username u, usageBytes r)
  | None => None
  end.

End Listings.

Module Paths.

(** [s.includes(c)] for one character. *)
Fixpoint includes (c : Ascii.ascii) (s : string) : bool :=
  match s with
  | EmptyString => false
  | String x rest => Ascii.eqb x c || includes c rest
  end.

(** [key] read as a directory part, empty or ending in a slash, followed
    by a last segment that holds no slash. *)
Definition splitsAt (key dir last : string) : Prop :=
  key = (dir ++ last)%string /\ includes "/"%char last = false /\
  (dir = "" \/ exists d, dir = (d ++ "/")%string).

(** What the adapters promise of the name and the content type a
    download reports for the object [key]: the content type is not
    empty, and the name is the text of [key] after its last slash (all
    of [key] when it has none), or 'download' when that text is empty. *)
Definition namedAfter (key : string) (r : FileDownloadResult) : Prop :=
  mimetype r <> "" /\
  exists dir last : string,
    splitsAt key dir last /\
    fileName r = match last with EmptyString => "download" | _ => last end.

End Paths.

Module Frames.

(** The account of a user: the columns no request writes. *)
Definition accountOf (u : User) : string * string * bool * Z :=
  (user_id u, username u, isAdmin u, maxStorageCapacity u).

Section WithCloud.
Context {Cloud : Type}.

(** The computation [m] relates the world it ends in to the world it
    starts from by [S], whether it returns or throws. *)
Definition respects {A : Type} (S : World Cloud -> World Cloud -> Prop) (m : M A)
    : Prop :=
  forall w, S w (snd (m w)).

(** A step that acts on the back ends alone: the call log may grow, the
    database, the clock and the identifiers stay as they are. *)
Definition cloudOnly (w w' : World Cloud) : Prop :=
  db w' = db w /\ clock w' = clock w /\ clockReads w' = clockReads w /\
  uuids w' = uuids w /\ uuidCount w' = uuidCount w /\
  env_API_URL w' = env_API_URL w.

(** A step on behalf of [userId]: the oracles stay as they are, the rows
    of the other users are untouched, no account changes, and the file
    records with an id in [keep] stay. *)
Definition touchesOnly (userId : string) (keep : string -> Prop)
    (w w' : World Cloud) : Prop :=
  clock w' = clock w /\ uuids w' = uuids w /\ env_API_URL w' = env_API_URL w /\
  (forall other, other <> userId ->
     users (db w') !! other = users (db w) !! other) /\
  (forall id, accountOf <$> users (db w') !! id = accountOf <$> users (db w) !! id) /\
  (forall f rec, keep f -> files (db w) !! f = Some rec ->
     files (db w') !! f = Some rec).

End WithCloud.

(** The user a request acts for. *)
Definition requester (req : Request) : string :=
  match req with
  | UploadRequest _ userId => userId
  | DeleteRequest _ userId => userId
  end.

End Frames.

(* ===================================================================== *)
(** * An in-memory S3 and GCS, to run the services on *)
(* ===================================================================== *)

Module InMemoryCloud.

(** A bucket maps keys to contents and content types. *)
Record Cloud : Type := mkCloud {
  s3_objects : gmap string (Buffer * string);
  s3_reachable : bool;
  gcs_objects : gmap string (Buffer * string);
  gcs_reachable : bool
}.

Definition timeout {A} (c : Cloud) : Outcome A * Cloud :=
  (Thrown (JsError "connect ETIMEDOUT"), c).

(** An S3 client: every request throws while S3 is unreachable. *)
Definition s3Client : AwsS3Provider.S3Client Cloud :=
  AwsS3Provider.mkS3Client (fun command c =>
    if negb (s3_reachable c) then timeout c else
    match command with
    | AwsS3Provider.PutObjectCommand _ k body contentType =>
        (Returned (AwsS3Provider.mkS3Output None None None),
         mkCloud (<[k := (body, contentType)]> (s3_objects c)) (s3_reachable c)
           (gcs_objects c) (gcs_reachable c))
    | AwsS3Provider.GetObjectCommand _ k =>
        match s3_objects c !! k with
        | Some (body, contentType) =>
            (Returned (AwsS3Provider.mkS3Output (Some body) (Some contentType)
                         (Some (bufferLength body))), c)
        | None => (Thrown (JsError "NoSuchKey"), c)
        end
    | AwsS3Provider.DeleteObjectCommand _ k =>
        (Returned (AwsS3Provider.mkS3Output None None None),
         mkCloud (base.delete k (s3_objects c)) (s3_reachable c)
           (gcs_objects c) (gcs_reachable c))
    | AwsS3Provider.HeadBucketCommand _ =>
        (Returned (AwsS3Provider.mkS3Output None None None), c)
    end).

(** A GCS client, likewise. *)
Definition storage : GcpStorageProvider.StorageClient Cloud :=
  GcpStorageProvider.mkStorageClient
    (fun _ k file contentType c =>
       if negb (gcs_reachable c) then timeout c else
       (Returned tt,
        mkCloud (s3_objects c) (s3_reachable c)
          (<[k := (file, contentType)]> (gcs_objects c)) (gcs_reachable c)))
    (fun _ k c =>
       if negb (gcs_reachable c) then timeout c else
       match gcs_objects c !! k with
       | Some (body, contentType) =>
           (Returned (GcpStorageProvider.mkMetadata
                        (GcpStorageProvider.SizeNumber (bufferLength body))
                        (Some contentType)), c)
       | None => (Thrown (JsError "No such object"), c)
       end)
    (fun _ k c =>
       match gcs_objects c !! k with Some (body, _) => body | None => [] end)
    (fun _ k c =>
       if negb (gcs_reachable c) then timeout c else
       match gcs_objects c !! k with
       | Some _ =>
           (Returned tt,
            mkCloud (s3_objects c) (s3_reachable c)
              (base.delete k (gcs_objects c)) (gcs_reachable c))
       | None => (Thrown (JsError "No such object"), c)
       end)
    (fun _ c => if negb (gcs_reachable c) then timeout c else (Returned true, c)).

Definition awsProvider : StorageProvider Cloud :=
  AwsS3Provider.new s3Client "files" "us-east-1".

Definition gcpProvider : StorageProvider Cloud :=
  GcpStorageProvider.new storage "files".

Definition storageService : StorageService.t Cloud :=
  StorageService.new awsProvider gcpProvider.

Definition digit (n : nat) : string :=
  String (Ascii.ascii_of_nat (48 + n)) EmptyString.

(** A world at time [clock], with the given database and back ends and
    nothing logged yet. *)
Definition world (d : Database) (c : Cloud) (clock : nat -> Z) : World Cloud :=
  mkWorld d c clock 0 (fun n => ("uuid-" ++ digit n)%string) 0
    "http://localhost:3000" [].

Definition hello : Buffer := [Byte.x68; Byte.x69].

Definition emptyDatabase : Database := mkDatabase ∅ ∅ [].

(** S3 is down; GCS is up and holds a copy of [uploads/u1/a.txt]. *)
Definition s3Outage : Cloud :=
  mkCloud ∅ false {["uploads/u1/a.txt" := (hello, "text/plain")]} true.

(** S3 and GCS both up and empty. *)
Definition allUp : Cloud := mkCloud ∅ true ∅ true.

(** Alice: capacity 1000, 600 bytes used, cycle ending 31 January 2025
    at 10:20:30.400. *)
Definition alice : User :=
  mkUser "u1" "alice" false 600 (Some (JsDate.newDate 2025 0 31 10 20 30 400)) 1000.

Definition aliceOnly : Database := mkDatabase {["u1" := alice]} ∅ [].

(** Noon of 15 March 2025 and of 16 January 2025. *)
Definition mid_march_2025 : Z := JsDate.newDate 2025 2 15 12 0 0 0.
Definition mid_january_2025 : Z := JsDate.newDate 2025 0 16 12 0 0 0.

(** Alice's cycle is over: the clock stands at 15 March 2025. *)
Definition aliceInMarch : World Cloud := world aliceOnly allUp (fun _ => mid_march_2025).

(** Alice's cycle is running: the clock stands at 16 January 2025. *)
Definition aliceInJanuary : World Cloud :=
  world aliceOnly allUp (fun _ => mid_january_2025).

(** A file of Alice's, 600 bytes, recorded at S3. *)
Definition aliceFile : FileRecord :=
  mkFileRecord "f1" "0001.txt" "a.txt" 600 "text/plain" "aws" "uploads/u1/a.txt"
    "u1" mid_january_2025.

(** Bob, an ordinary user, and Carol, an administrator. *)
Definition bob : User :=
  mkUser "u2" "bob" false 0 (Some (JsDate.newDate 2025 1 10 0 0 0 0)) 1000.
Definition carol : User :=
  mkUser "u3" "carol" true 0 (Some (JsDate.newDate 2025 1 10 0 0 0 0)) 1000.

(** A record of Alice's whose provider id names no configured adapter. *)
Definition strayFile : FileRecord :=
  mkFileRecord "f2" "0002.txt" "b.txt" 10 "text/plain" "azure" "uploads/u1/b.txt"
    "u1" mid_january_2025.

Definition threeUsers : Database :=
  mkDatabase {["u1" := alice; "u2" := bob; "u3" := carol]}
    {["f1" := aliceFile; "f2" := strayFile]}
    [mkUsageHistory "h1" "u1" (JsDate.newDate 2025 0 16 0 0 0 0) 600].

(** S3 holds the object of [aliceFile] and is unreachable. *)
Definition s3HoldsButDown : Cloud :=
  mkCloud {["uploads/u1/a.txt" := (hello, "text/plain")]} false ∅ true.

(** 16 January 2025, three users, Alice's file stored at S3. *)
Definition office : World Cloud :=
  world threeUsers
    (mkCloud {["uploads/u1/a.txt" := (hello, "text/plain")]} true ∅ true)
    (fun _ => mid_january_2025).

(** The same with S3 unreachable. *)
Definition officeDuringOutage : World Cloud :=
  world threeUsers s3HoldsButDown (fun _ => mid_january_2025).

(** The clock stands at noon of 16 January 2025 for the first three
    readings, the readings of one upload, and a day later afterwards. *)
Definition nextDayAfterUpload (n : nat) : Z :=
  if (n <? 3)%nat then mid_january_2025 else mid_january_2025 + JsDate.msPerDay.

(** Alice alone, nothing uploaded yet, both back ends up. *)
Definition twoDays : World Cloud := world aliceOnly allUp nextDayAfterUpload.

(** A file of 400 bytes (its content is not looked at). *)
Definition report : MulterFile := mkMulterFile "report.pdf" "application/pdf" 400 hello.

End InMemoryCloud.

Module Rollover.
Import UsersService.

Section WithCloud.
Context {Cloud : Type}.

(** The date the roll-forward loop starts from: the stored reset date,
    or a second reading of the clock when none is stored. *)
Definition startOfRoll (u : User) (w : World Cloud) : Z :=
  match nextQuotaResetDate u with
  | Some d => d
  | None => clock w (S (clockReads w))
  end.

(** The world the rollover of a due user leaves: the clock read once, or
    twice when no reset date is stored, and the user's row reset. *)
Definition afterReset (userId : string) (u : User) (w : World Cloud) : World Cloud :=
  let now := clock w (clockReads w) in
  let row := resetUser (rollForward (startOfRoll u w) now) u in
  setDb (Prisma.withUsers (fun us => <[userId := row]> us) (db w))
    (match nextQuotaResetDate u with
     | Some _ => tick w
     | None => tick (tick w)
     end).

(** What a usage update does once the rollover has left the world [w1]
    with the user's row [u1]: increment the row, read the clock, then
    increment today's history row or create it. *)
Definition recordAfterRollover (userId : string) (fileSize : Z) (u1 : User)
    (w1 : World Cloud) : Outcome unit * World Cloud :=
  let w2 :=
    tick (setDb (Prisma.withUsers
                   (fun us => <[userId := incrementUsage fileSize u1]> us) (db w1)) w1) in
  let today := JsDate.setHours0 (clock w1 (clockReads w1)) in
  match List.find (isTodaysRow userId today) (usageHistory (db w1)) with
  | Some existingRecord =>
      Prisma.usageHistory_update (uh_id existingRecord)
        (incrementUsageBytes fileSize) w2
  | None => Prisma.usageHistory_create userId today fileSize w2
  end.

End WithCloud.
End Rollover.

Module DailyLedger.

(** The identity of a daily usage entry: the user and the calendar day. *)
Definition entryKey (r : UsageHistory) : string * Z :=
  (uh_userId r, JsDate.Day (date r)).

(** At most one entry per user and day. *)
Definition oneEntryPerUserAndDay (rows : list UsageHistory) : Prop :=
  NoDup (map entryKey rows).

(** No entry records a negative number of bytes. *)
Definition neverNegative (rows : list UsageHistory) : Prop :=
  Forall (fun r => 0 <= usageBytes r) rows.

Section WithCloud.
Context {Cloud : Type}.

(** The computation [m] keeps the property [P] of the world, whether it
    returns or throws. *)
Definition preserves {A : Type} (P : World Cloud -> Prop) (m : M A) : Prop :=
  forall w, P w -> P (snd (m w)).

Definition ledgerIsUnique (w : World Cloud) : Prop :=
  oneEntryPerUserAndDay (usageHistory (db w)).

End WithCloud.
End DailyLedger.

Module Sessions.

(** The file records a request may remove: a delete its own target, an
    upload none. *)
Definition keeps (req : Request) (f : string) : Prop :=
  match req with
  | UploadRequest _ _ => True
  | DeleteRequest fileId _ => f <> fileId
  end.

(** A session of uploads of files of a size no less than 0. *)
Definition uploadsOnly (reqs : list Request) : Prop :=
  Forall (fun req => match req with
                     | UploadRequest file _ => 0 <= mf_size file
                     | DeleteRequest _ _ => False
                     end) reqs.

(** No entry of the usage history of [w] is negative. *)
Definition nonNegative {Cloud : Type} (w : World Cloud) : Prop :=
  DailyLedger.neverNegative (usageHistory (db w)).

End Sessions.

Module Quota.

(** Every user's usage is within the quota: not negative and not over
    the capacity. *)
Definition withinQuota {Cloud : Type} (w : World Cloud) : Prop :=
  map_Forall (fun _ u => 0 <= monthlyUsage u <= maxStorageCapacity u)
    (users (db w)).

(** Every user's capacity is a safe integer, one that [Number] reads
    exactly. *)
Definition safeCapacities {Cloud : Type} (w : World Cloud) : Prop :=
  map_Forall (fun _ u => JsNumber.isSafeInteger (maxStorageCapacity u))
    (users (db w)).

End Quota.

(* ===================================================================== *)
(** * Facts about the calendar *)
(* ===================================================================== *)

Module JsDateFacts.
Import JsDate.

Ltac zdiv := Z.div_mod_to_equations; lia.

Lemma yoe_doy_range (doe : Z) :
  0 <= doe < 146097 ->
  let yoe := (doe - doe / 1460 + doe / 36524 - doe / 146096) / 365 in
  let doy := doe - (365 * yoe + yoe / 4 - yoe / 100) in
  0 <= yoe < 400 /\ 0 <= doy /\
  doy < 365 + (if isLeapYear (yoe + 1) then 1 else 0).
Proof.
  intros H yoe doy. subst doy yoe. unfold isLeapYear.
  split; [|split].
  - zdiv.
  - zdiv.
  - destruct (_ || _) eqn:E; zdiv.
Qed.

Lemma mp_day_range (doy : Z) (leap : bool) :
  0 <= doy < 365 + (if leap then 1 else 0) ->
  let mp := (5 * doy + 2) / 153 in
  let d := doy - (153 * mp + 2) / 5 + 1 in
  0 <= mp <= 11 /\ 1 <= d /\
  d <= (if mp =? 11 then (if leap then 29 else 28)
        else if (mp =? 1) || (mp =? 3) || (mp =? 6) || (mp =? 8) then 30 else 31).
Proof.
  intros H mp d. subst d mp. destruct leap.
  - repeat split; try zdiv.
    repeat match goal with |- context [?a =? ?b] => destruct (Z.eqb_spec a b) end; simpl; zdiv.
  - repeat split; try zdiv.
    repeat match goal with |- context [?a =? ?b] => destruct (Z.eqb_spec a b) end; simpl; zdiv.
Qed.

Lemma civil_from_days_valid (z : Z) :
  let '(y, m, d) := civil_from_days z in
  1 <= m <= 12 /\ 1 <= d <= monthLength y (m - 1) /\ days_from_civil y m d = z.
Proof.
  unfold civil_from_days.
  set (z' := z + 719468). set (era := z' / 146097).
  set (doe := z' - era * 146097).
  assert (Hdoe : 0 <= doe < 146097) by (subst doe era; zdiv).
  pose proof (yoe_doy_range doe Hdoe) as Hy. cbv zeta in Hy.
  set (yoe := (doe - doe / 1460 + doe / 36524 - doe / 146096) / 365) in *.
  set (doy := doe - (365 * yoe + yoe / 4 - yoe / 100)) in *.
  destruct Hy as (Hyoe & Hdoy0 & Hdoy1).
  pose proof (mp_day_range doy (isLeapYear (yoe + 1)) (conj Hdoy0 Hdoy1)) as Hm.
  cbv zeta in Hm.
  set (mp := (5 * doy + 2) / 153) in *.
  set (d := doy - (153 * mp + 2) / 5 + 1) in *.
  destruct Hm as (Hmp & Hd1 & Hd2).
  assert (Hz : z = era * 146097 + (365 * yoe + yoe / 4 - yoe / 100) + doy - 719468)
    by (subst doy doe z'; lia).
  assert (Hdd : d - 1 = doy - (153 * mp + 2) / 5) by (subst d; lia).
  clearbody d mp doy yoe doe era z'.
  assert (Hleap : forall k, isLeapYear (yoe + era * 400 + k) = isLeapYear (yoe + k)).
  { intros k. unfold isLeapYear.
    replace ((yoe + era * 400 + k) mod 4) with ((yoe + k) mod 4) by zdiv.
    replace ((yoe + era * 400 + k) mod 100) with ((yoe + k) mod 100) by zdiv.
    replace ((yoe + era * 400 + k) mod 400) with ((yoe + k) mod 400) by zdiv.
    reflexivity. }
  unfold days_from_civil, monthLength.
  destruct (Z.ltb_spec mp 10) as [Hlt | Hge].
  - replace (mp + 3 <=? 2) with false by lia.
    replace (mp + 3 - 1 =? 1) with false by lia.
    replace (mp =? 11) with false in Hd2 by lia.
    replace (mp + 3 - 3) with mp by lia.
    split; [lia|]. split.
    + split; [lia|].
      replace (mp + 3 - 1 =? 3) with (mp =? 1) by lia.
      replace (mp + 3 - 1 =? 5) with (mp =? 3) by lia.
      replace (mp + 3 - 1 =? 8) with (mp =? 6) by lia.
      replace (mp + 3 - 1 =? 10) with (mp =? 8) by lia.
      exact Hd2.
    + rewrite Hz. zdiv.
  - replace (mp - 9 <=? 2) with true by lia.
    replace (mp - 9 + 9) with mp by lia.
    replace (yoe + era * 400 + 1 - 1) with (yoe + era * 400) by lia.
    split; [lia|]. split.
    + split; [lia|]. rewrite Hleap.
      destruct (Z.eqb_spec mp 11) as [-> | Hne].
      * simpl. exact Hd2.
      * assert (mp = 10) as -> by lia. simpl in *. exact Hd2.
    + rewrite Hz. zdiv.
Qed.

(** The day number is strictly monotone in the civil date. *)
Lemma days_from_civil_month_start (y m : Z) :
  0 <= m <= 11 ->
  days_from_civil (y + (m + 1) / 12) ((m + 1) mod 12 + 1) 1 =
  days_from_civil y (m + 1) 1 + monthLength y m.
Proof.
  intros Hm. unfold days_from_civil, monthLength, isLeapYear.
  assert (m = 0 \/ m = 1 \/ m = 2 \/ m = 3 \/ m = 4 \/ m = 5 \/ m = 6 \/
          m = 7 \/ m = 8 \/ m = 9 \/ m = 10 \/ m = 11) as Hc by lia.
  repeat (destruct Hc as [-> | Hc]); [..| subst m]; simpl.
  all: try zdiv.
  all: repeat match goal with |- context [?a =? ?b] => destruct (Z.eqb_spec a b) end; simpl.
  all: zdiv.
Qed.

Lemma yearDays_step (a : Z) :
  yearDays (a + 1) = yearDays a + 365 + (if isLeapYear (a + 1) then 1 else 0).
Proof.
  unfold yearDays, isLeapYear.
  destruct (Z.eqb_spec ((a + 1) mod 4) 0), (Z.eqb_spec ((a + 1) mod 100) 0),
    (Z.eqb_spec ((a + 1) mod 400) 0); simpl; zdiv.
Qed.

Lemma yearDays_mono (a b : Z) : a <= b -> yearDays a <= yearDays b.
Proof. unfold yearDays. intros H. zdiv. Qed.

Lemma valid_march (y m d : Z) :
  validCivil y m d ->
  let mp := if m <=? 2 then m + 9 else m - 3 in
  let ys := if m <=? 2 then y - 1 else y in
  0 <= mp <= 11 /\ 1 <= d /\
  (mp <= 10 -> d <= monthDays (mp + 1) - monthDays mp) /\
  (mp = 11 -> d <= 28 + (if isLeapYear (ys + 1) then 1 else 0)).
Proof.
  unfold validCivil, monthLength, monthDays. intros (Hm & Hd).
  assert (m = 1 \/ m = 2 \/ m = 3 \/ m = 4 \/ m = 5 \/ m = 6 \/
          m = 7 \/ m = 8 \/ m = 9 \/ m = 10 \/ m = 11 \/ m = 12) as Hc by lia.
  clear Hm.
  repeat (destruct Hc as [-> | Hc]); [..| subst m]; simpl in *;
    try (replace (y - 1 + 1) with y by lia);
    try (destruct (isLeapYear y)); repeat split; intros; zdiv.
Qed.

Lemma days_from_civil_march (y m d : Z) :
  days_from_civil y m d =
  yearDays (if m <=? 2 then y - 1 else y) +
  monthDays (if m <=? 2 then m + 9 else m - 3) + d - 1 - 719468.
Proof. reflexivity. Qed.

Lemma days_from_civil_inj (y m d y' m' d' : Z) :
  validCivil y m d -> validCivil y' m' d' ->
  days_from_civil y m d = days_from_civil y' m' d' ->
  (y, m, d) = (y', m', d').
Proof.
  intros Hv Hv'. rewrite !days_from_civil_march.
  pose proof (valid_march _ _ _ Hv) as H. pose proof (valid_march _ _ _ Hv') as H'.
  cbv zeta in H, H'.
  assert (Hy : y = (if m <=? 2 then y - 1 else y) + (if m <=? 2 then 1 else 0))
    by (destruct (m <=? 2); lia).
  assert (Hy' : y' = (if m' <=? 2 then y' - 1 else y') + (if m' <=? 2 then 1 else 0))
    by (destruct (m' <=? 2); lia).
  assert (Hmm : m = (if m <=? 2 then m + 9 else m - 3) +
                    (if (if m <=? 2 then m + 9 else m - 3) <? 10 then 3 else -9)).
  { destruct Hv as (? & _). destruct (Z.leb_spec m 2).
    - replace (m + 9 <? 10) with false by lia. lia.
    - replace (m - 3 <? 10) with true by lia. lia. }
  assert (Hmm' : m' = (if m' <=? 2 then m' + 9 else m' - 3) +
                    (if (if m' <=? 2 then m' + 9 else m' - 3) <? 10 then 3 else -9)).
  { destruct Hv' as (? & _). destruct (Z.leb_spec m' 2).
    - replace (m' + 9 <? 10) with false by lia. lia.
    - replace (m' - 3 <? 10) with true by lia. lia. }
  assert (Hle : forall k, (if k <=? 2 then 1 else 0) =
             (if (if k <=? 2 then k + 9 else k - 3) <? 10 then 0 else 1) \/ ~ 1 <= k <= 12).
  { intros k. destruct (Z.leb_spec k 2).
    - destruct (Z.ltb_spec (k + 9) 10); lia.
    - destruct (Z.ltb_spec (k - 3) 10); lia. }
  destruct (Hle m) as [Hl | Hl]; [|destruct Hv; lia].
  destruct (Hle m') as [Hl' | Hl']; [|destruct Hv'; lia].
  rewrite Hl in Hy. rewrite Hl' in Hy'. clear Hle Hl Hl'.
  set (ys := if m <=? 2 then y - 1 else y) in *.
  set (mp := if m <=? 2 then m + 9 else m - 3) in *.
  set (ys' := if m' <=? 2 then y' - 1 else y') in *.
  set (mp' := if m' <=? 2 then m' + 9 else m' - 3) in *.
  clearbody ys mp ys' mp'. clear Hv Hv'.
  intros He.
  destruct H as (Hmp & Hd1 & Hd2 & Hd3). destruct H' as (Hmp' & Hd1' & Hd2' & Hd3').
  assert (Hb : forall p e, 0 <= p <= 11 -> 1 <= e ->
            (p <= 10 -> e <= monthDays (p + 1) - monthDays p) ->
            (p = 11 -> e <= 28 + 1) ->
            0 <= monthDays p + e - 1 <= 365 /\
            (p <= 10 -> monthDays p + e - 1 < 365)).
  { unfold monthDays. intros p e ? ? ? ?. split; [|intros ?]; zdiv. }
  assert (Hys : ys = ys').
  { pose proof (yearDays_step ys) as S1. pose proof (yearDays_step ys') as S2.
    destruct (Z.lt_trichotomy ys ys') as [Hlt | [Heq | Hgt]]; [|exact Heq|]; exfalso.
    - pose proof (yearDays_mono (ys + 1) ys' ltac:(lia)).
      destruct (isLeapYear (ys + 1));
        unfold monthDays in *; zdiv.
    - pose proof (yearDays_mono (ys' + 1) ys ltac:(lia)).
      destruct (isLeapYear (ys' + 1));
        unfold monthDays in *; zdiv. }
  subst ys'.
  assert (Hp : mp = mp') by (unfold monthDays in *; zdiv).
  subst mp'. assert (d = d') by lia. subst d'.
  rewrite Hy, Hy', Hmm, Hmm'. reflexivity.
Qed.

Lemma civil_from_days_from_civil (y m d : Z) :
  validCivil y m d -> civil_from_days (days_from_civil y m d) = (y, m, d).
Proof.
  intros Hv. pose proof (civil_from_days_valid (days_from_civil y m d)) as H.
  destruct (civil_from_days _) as [[y' m'] d'].
  destruct H as (Hm & Hd & He).
  apply days_from_civil_inj; [split; assumption | exact Hv | exact He].
Qed.

(** ** Time of day *)

Lemma TimeWithinDay_range (t : Z) : 0 <= TimeWithinDay t < msPerDay.
Proof. unfold TimeWithinDay, msPerDay. zdiv. Qed.

Lemma MakeTime_getters (t : Z) :
  MakeTime (getHours t) (getMinutes t) (getSeconds t) (getMilliseconds t) =
  TimeWithinDay t.
Proof.
  pose proof (TimeWithinDay_range t) as H.
  unfold MakeTime, getHours, getMinutes, getSeconds, getMilliseconds.
  generalize dependent (TimeWithinDay t). intros tod H.
  unfold msPerDay, msPerHour, msPerMinute, msPerSecond in *. zdiv.
Qed.

Lemma Day_compose (d tod : Z) :
  0 <= tod < msPerDay -> Day (d * msPerDay + tod) = d.
Proof. unfold Day, msPerDay. intros H. zdiv. Qed.

Lemma TimeWithinDay_compose (d tod : Z) :
  0 <= tod < msPerDay -> TimeWithinDay (d * msPerDay + tod) = tod.
Proof. unfold TimeWithinDay, msPerDay. intros H. zdiv. Qed.

Lemma Day_TimeWithinDay (t : Z) : t = Day t * msPerDay + TimeWithinDay t.
Proof. unfold Day, TimeWithinDay, msPerDay. zdiv. Qed.

(** ** The civil fields of a time value *)

Lemma civil_fields (t : Z) :
  validCivil (getFullYear t) (getMonth t + 1) (getDate t) /\
  days_from_civil (getFullYear t) (getMonth t + 1) (getDate t) = Day t.
Proof.
  unfold getFullYear, getMonth, getDate, validCivil.
  pose proof (civil_from_days_valid (Day t)) as H.
  destruct (civil_from_days (Day t)) as [[y m] d]. simpl.
  replace (m - 1 + 1) with m by lia. tauto.
Qed.

Lemma monthLength_range (y m : Z) : 28 <= monthLength y m <= 31.
Proof.
  unfold monthLength.
  destruct (m =? 1); [destruct (isLeapYear y); lia|].
  destruct (_ || _); lia.
Qed.

Lemma MakeDay_in_month (y m d : Z) :
  0 <= m <= 11 -> MakeDay y m d = days_from_civil y (m + 1) 1 + d - 1.
Proof.
  intros H. unfold MakeDay.
  replace (m / 12) with 0 by zdiv. replace (m mod 12) with m by zdiv.
  replace (y + 0) with y by lia. reflexivity.
Qed.

Lemma days_from_civil_day (y m d : Z) :
  days_from_civil y m d = days_from_civil y m 1 + d - 1.
Proof. unfold days_from_civil. lia. Qed.

(** The fields of a constructed date whose arguments are in range. *)
Lemma newDate_fields (y m d h mi s ms : Z) :
  0 <= m <= 11 -> 1 <= d <= monthLength (constructorYear y) m ->
  0 <= h < 24 -> 0 <= mi < 60 -> 0 <= s < 60 -> 0 <= ms < 1000 ->
  let r := newDate y m d h mi s ms in
  getFullYear r = constructorYear y /\ getMonth r = m /\ getDate r = d /\
  getHours r = h /\ getMinutes r = mi /\ getSeconds r = s /\
  getMilliseconds r = ms.
Proof.
  intros Hm Hd Hh Hmi Hs Hms r. subst r. unfold newDate.
  cbv zeta. set (yr := constructorYear y) in *.
  rewrite MakeDay_in_month by assumption.
  rewrite <- days_from_civil_day.
  assert (Htod : 0 <= MakeTime h mi s ms < msPerDay)
    by (unfold MakeTime, msPerDay, msPerHour, msPerMinute, msPerSecond; lia).
  unfold getFullYear, getMonth, getDate, getHours, getMinutes, getSeconds,
    getMilliseconds.
  rewrite Day_compose, TimeWithinDay_compose by assumption.
  rewrite civil_from_days_from_civil
    by (unfold validCivil; replace (m + 1 - 1) with m by lia; lia).
  simpl. unfold MakeTime, msPerHour, msPerMinute, msPerSecond.
  repeat split; try lia; zdiv.
Qed.

End JsDateFacts.

(* ===================================================================== *)
(** * Facts about numbers *)
(* ===================================================================== *)

Module JsNumberFacts.
Import JsNumber.

Lemma nearest_small (m : Z) : 0 <= m < 2 ^ 53 -> nearest m = m.
Proof.
  intros Hm. unfold nearest, ulp.
  assert (Hlog : Z.log2 m - 52 <= 0).
  { destruct (Z.eq_dec m 0) as [-> | Hne]; [simpl; lia|].
    assert (Z.log2 m < 53) by (apply Z.log2_lt_pow2; lia). lia. }
  rewrite Z.max_l by lia. change (2 ^ 0) with 1.
  rewrite Z.div_1_r, Z.mod_1_r. simpl. lia.
Qed.

Lemma nearest_large (m : Z) : 2 ^ 53 <= m -> 2 ^ 53 <= nearest m.
Proof.
  intros Hm. unfold nearest, ulp.
  assert (Hpos : 0 < m) by lia.
  destruct (Z.log2_spec m Hpos) as [Hlo _].
  assert (Hlog : 53 <= Z.log2 m) by (apply Z.log2_le_pow2; lia).
  rewrite Z.max_r by lia.
  set (u := 2 ^ (Z.log2 m - 52)).
  assert (Hu : 0 < u) by (apply Z.pow_pos_nonneg; lia).
  assert (Hsplit : 2 ^ Z.log2 m = 2 ^ 52 * u).
  { unfold u. rewrite <- Z.pow_add_r by lia. f_equal. lia. }
  assert (Hu2 : 2 <= u).
  { unfold u. change 2 with (2 ^ 1) at 1. apply Z.pow_le_mono_r; lia. }
  assert (Hq : 2 ^ 52 <= m / u).
  { apply Z.div_le_lower_bound; lia. }
  assert (Hqu : 2 ^ 53 <= m / u * u) by nia.
  destruct (2 * (m mod u) <? u); [exact Hqu|].
  destruct (u <? 2 * (m mod u)); [nia|].
  destruct (Z.even (m / u)); [exact Hqu | nia].
Qed.

(** Every integer up to 2^53 in magnitude is a double. *)
Lemma roundTiesToEven_exact (z : Z) : - 2 ^ 53 <= z <= 2 ^ 53 -> roundTiesToEven z = z.
Proof.
  intros Hz. unfold roundTiesToEven.
  destruct (Z.eq_dec (Z.abs z) (2 ^ 53)) as [He | Hne].
  - rewrite He. change (nearest (2 ^ 53)) with (2 ^ 53). rewrite <- He.
    rewrite Z.mul_comm. apply Z.abs_sgn.
  - rewrite nearest_small by lia. rewrite Z.mul_comm. apply Z.abs_sgn.
Qed.

(** Rounding does not cross 2^53 in either direction. *)
Lemma roundTiesToEven_above (z : Z) : 2 ^ 53 <= z -> 2 ^ 53 <= roundTiesToEven z.
Proof.
  intros Hz. unfold roundTiesToEven.
  rewrite Z.sgn_pos, Z.abs_eq by lia. rewrite Z.mul_1_l. apply nearest_large. exact Hz.
Qed.

Lemma roundTiesToEven_below (z : Z) : z <= - 2 ^ 53 -> roundTiesToEven z <= - 2 ^ 53.
Proof.
  intros Hz. unfold roundTiesToEven.
  rewrite Z.sgn_neg, Z.abs_neq by lia.
  pose proof (nearest_large (- z)). lia.
Qed.

(** Between safe integers the quota comparison of doubles is the
    comparison of the integers, whatever the size added. *)
Lemma safe_comparison (usage fileSize capacity : Z) :
  isSafeInteger usage -> isSafeInteger capacity ->
  (add (ofBigInt usage) fileSize <=? ofBigInt capacity) =
  (usage + fileSize <=? capacity).
Proof.
  unfold isSafeInteger, MAX_SAFE_INTEGER, add, ofBigInt. intros Hu Hc.
  rewrite (roundTiesToEven_exact usage), (roundTiesToEven_exact capacity) by lia.
  destruct (Z_le_gt_dec (2 ^ 53) (usage + fileSize)) as [Hhi | Hhi].
  { pose proof (roundTiesToEven_above _ Hhi).
    destruct (Z.leb_spec (roundTiesToEven (usage + fileSize)) capacity);
      destruct (Z.leb_spec (usage + fileSize) capacity); try reflexivity; lia. }
  destruct (Z_le_gt_dec (usage + fileSize) (- 2 ^ 53)) as [Hlo | Hlo].
  { pose proof (roundTiesToEven_below _ Hlo).
    destruct (Z.leb_spec (roundTiesToEven (usage + fileSize)) capacity);
      destruct (Z.leb_spec (usage + fileSize) capacity); try reflexivity; lia. }
  rewrite roundTiesToEven_exact by lia. reflexivity.
Qed.

(** Beyond the safe integers the comparison is not the integers' own:
    a full account of 2^53 bytes still takes one byte more, and an
    upload that fits exactly is turned down. *)
Lemma unsafe_comparison :
  (add (ofBigInt (2 ^ 53)) 1 <=? ofBigInt (2 ^ 53)) = true /\
  (add (ofBigInt (2 ^ 53 + 3)) 3 <=? ofBigInt (2 ^ 53 + 6)) = false.
Proof. split; vm_compute; reflexivity. Qed.

End JsNumberFacts.

(* ===================================================================== *)
(** * Facts about the quota cycle arithmetic *)
(* ===================================================================== *)

Module CycleFacts.
Import JsDate JsDateFacts UsersService.

Lemma constructorYear_ge (y : Z) : y <= constructorYear y.
Proof. unfold constructorYear, legacyYear. destruct (_ && _); lia. Qed.

Lemma daysInMonth_table (y m : Z) :
  0 <= m <= 11 -> daysInMonth y m = monthLength (constructorYear y) m.
Proof.
  intros Hm. unfold daysInMonth, newDate. cbv zeta.
  set (yr := constructorYear y).
  assert (Hd : MakeDay yr (m + 1) 0 =
               days_from_civil yr (m + 1) (monthLength yr m)).
  { unfold MakeDay. rewrite days_from_civil_month_start by assumption.
    rewrite (days_from_civil_day yr (m + 1) (monthLength yr m)). lia. }
  rewrite Hd. unfold getDate.
  replace (MakeTime 0 0 0 0) with 0 by reflexivity.
  rewrite Day_compose by (unfold msPerDay; lia).
  pose proof (monthLength_range yr m).
  rewrite civil_from_days_from_civil
    by (unfold validCivil; replace (m + 1 - 1) with m by lia; lia).
  reflexivity.
Qed.

Lemma month_fields_range (t : Z) :
  0 <= getMonth t <= 11 /\ 1 <= getDate t <= monthLength (getFullYear t) (getMonth t).
Proof.
  destruct (civil_fields t) as ((Hm & Hd) & _).
  replace (getMonth t + 1 - 1) with (getMonth t) in Hd by lia. lia.
Qed.

Lemma time_fields_range (t : Z) :
  0 <= getHours t < 24 /\ 0 <= getMinutes t < 60 /\ 0 <= getSeconds t < 60 /\
  0 <= getMilliseconds t < 1000.
Proof.
  pose proof (TimeWithinDay_range t) as H.
  unfold getHours, getMinutes, getSeconds, getMilliseconds.
  generalize dependent (TimeWithinDay t). intros tod H.
  unfold msPerDay, msPerHour, msPerMinute, msPerSecond in *.
  repeat split; zdiv.
Qed.

Lemma next_month_range (m : Z) : 0 <= m <= 11 -> 0 <= (m + 1) mod 12 <= 11.
Proof. intros H. zdiv. Qed.

(** The fields of [addOneMonth orig], whatever the year. *)
Lemma addOneMonth_fields (orig : Z) :
  let newYear := getFullYear orig + (getMonth orig + 1) / 12 in
  let newMonth := (getMonth orig + 1) mod 12 in
  let r := addOneMonth orig in
  getFullYear r = constructorYear newYear /\
  getMonth r = newMonth /\
  getDate r = Z.min (getDate orig) (monthLength (constructorYear newYear) newMonth) /\
  getHours r = getHours orig /\ getMinutes r = getMinutes orig /\
  getSeconds r = getSeconds orig /\ getMilliseconds r = getMilliseconds orig.
Proof.
  intros newYear newMonth r. subst r. unfold addOneMonth.
  fold newYear newMonth.
  destruct (month_fields_range orig) as (Hm & Hd).
  pose proof (next_month_range _ Hm) as Hnm. fold newMonth in Hnm.
  destruct (time_fields_range orig) as (Hh & Hmi & Hs & Hms).
  rewrite daysInMonth_table by assumption.
  pose proof (monthLength_range (constructorYear newYear) newMonth) as Hml.
  apply newDate_fields; try assumption. lia.
Qed.

Lemma days_from_civil_year_mono (y y' m d : Z) :
  y <= y' -> days_from_civil y m d <= days_from_civil y' m d.
Proof.
  intros H. rewrite !days_from_civil_march.
  assert (yearDays (if m <=? 2 then y - 1 else y) <=
          yearDays (if m <=? 2 then y' - 1 else y'))
    by (apply yearDays_mono; destruct (m <=? 2); lia).
  lia.
Qed.

(** Adding a month moves a date forward by four weeks at least. *)
Lemma addOneMonth_grows (orig : Z) : orig + 28 * msPerDay <= addOneMonth orig.
Proof.
  pose proof (addOneMonth_fields orig) as F. cbv zeta in F.
  set (newYear := getFullYear orig + (getMonth orig + 1) / 12) in *.
  set (newMonth := (getMonth orig + 1) mod 12) in *.
  destruct F as (Fy & Fm & Fd & Fh & Fmi & Fs & Fms).
  destruct (month_fields_range orig) as (Hm & Hd).
  destruct (civil_fields orig) as (_ & Eo).
  destruct (civil_fields (addOneMonth orig)) as (_ & Er).
  rewrite Fy, Fm, Fd in Er.
  assert (Tr : TimeWithinDay (addOneMonth orig) = TimeWithinDay orig).
  { rewrite <- (MakeTime_getters orig), <- (MakeTime_getters (addOneMonth orig)).
    rewrite Fh, Fmi, Fs, Fms. reflexivity. }
  rewrite (Day_TimeWithinDay orig) at 1.
  rewrite (Day_TimeWithinDay (addOneMonth orig)).
  rewrite Tr, <- Eo, <- Er.
  pose proof (days_from_civil_month_start (getFullYear orig) (getMonth orig) Hm) as St.
  fold newYear newMonth in St.
  pose proof (days_from_civil_year_mono newYear (constructorYear newYear)
                (newMonth + 1) 1 (constructorYear_ge newYear)) as Mo.
  pose proof (monthLength_range (constructorYear newYear) newMonth) as Hml.
  pose proof (monthLength_range (getFullYear orig) (getMonth orig)) as Hml0.
  rewrite (days_from_civil_day (getFullYear orig)).
  rewrite (days_from_civil_day (constructorYear newYear)).
  unfold msPerDay. lia.
Qed.

(** ** The roll-forward loop *)

Lemma iter_addOneMonth_grows (k : nat) (d : Z) :
  d + Z.of_nat k * (28 * msPerDay) <= Nat.iter k addOneMonth d.
Proof.
  induction k as [|k IH].
  - simpl. lia.
  - rewrite Nat.iter_succ. pose proof (addOneMonth_grows (Nat.iter k addOneMonth d)).
    lia.
Qed.

(** With fuel beyond the bound, the loop stops because its condition
    fails: the result is the first iterate strictly after [now]. *)
Lemma advanceWhileDue_enough (fuel : nat) (d now : Z) :
  (now - d) / (28 * msPerDay) < Z.of_nat fuel ->
  exists k : nat,
    (k <= fuel)%nat /\
    advanceWhileDue fuel d now = Nat.iter k addOneMonth d /\
    now < Nat.iter k addOneMonth d /\
    forall j : nat, (j < k)%nat -> Nat.iter j addOneMonth d <= now.
Proof.
  revert d. induction fuel as [|fuel IH]; intros d Hf.
  - exists 0%nat. simpl.
    assert (now < d) by (unfold msPerDay in *; zdiv).
    replace (d <=? now) with false by lia.
    repeat split; [lia | lia | intros j Hj; lia].
  - simpl. destruct (Z.leb_spec d now) as [Hle | Hgt].
    + pose proof (addOneMonth_grows d) as Hg.
      destruct (IH (addOneMonth d)) as (k & Hk & He & Hn & Hall).
      { unfold msPerDay in *. zdiv. }
      exists (S k). rewrite Nat.iter_succ_r.
      repeat split; [lia | exact He | exact Hn |].
      intros [|j] Hj; [simpl; exact Hle|].
      rewrite Nat.iter_succ_r. apply Hall. lia.
    + exists 0%nat. simpl. repeat split; [lia | lia | intros j Hj; lia].
Qed.

Lemma loopBound_enough (d now : Z) :
  (now - d) / (28 * msPerDay) < Z.of_nat (loopBound d now).
Proof. unfold loopBound. lia. Qed.

(** The first iterate after [now] is unique. *)
Lemma first_after_unique (d now : Z) (k k' : nat) :
  now < Nat.iter k addOneMonth d ->
  (forall j : nat, (j < k)%nat -> Nat.iter j addOneMonth d <= now) ->
  now < Nat.iter k' addOneMonth d ->
  (forall j : nat, (j < k')%nat -> Nat.iter j addOneMonth d <= now) ->
  k = k'.
Proof.
  intros H1 H2 H3 H4.
  destruct (Nat.lt_trichotomy k k') as [Hlt | [He | Hgt]]; [|exact He|].
  - specialize (H4 k Hlt). lia.
  - specialize (H2 k' Hgt). lia.
Qed.

(** The loop of the source terminates: any fuel beyond the bound gives
    the value [rollForward] computes. *)
Lemma advanceWhileDue_stable (fuel : nat) (d now : Z) :
  (loopBound d now <= fuel)%nat ->
  advanceWhileDue fuel d now = rollForward d now.
Proof.
  intros Hf. unfold rollForward.
  destruct (advanceWhileDue_enough fuel d now) as (k & _ & He & Hn & Hall).
  { pose proof (loopBound_enough d now). lia. }
  destruct (advanceWhileDue_enough (loopBound d now) d now (loopBound_enough d now))
    as (k' & _ & He' & Hn' & Hall').
  rewrite He, He'. f_equal. eapply first_after_unique; eassumption.
Qed.

Lemma rollForward_spec (d now : Z) :
  exists k : nat,
    rollForward d now = Nat.iter k addOneMonth d /\
    now < Nat.iter k addOneMonth d /\
    forall j : nat, (j < k)%nat -> Nat.iter j addOneMonth d <= now.
Proof.
  destruct (advanceWhileDue_enough (loopBound d now) d now (loopBound_enough d now))
    as (k & _ & He & Hn & Hall).
  exists k. auto.
Qed.

End CycleFacts.

(* ===================================================================== *)
(** * Facts about the storage orchestrator *)
(* ===================================================================== *)

Module OrchestratorFacts.
Import Failover.

Section Attempts.
Context {Cloud A : Type}.
Variable act : StorageProvider Cloud -> Outcome A -> Call Cloud.

Lemma replays_app (c c1 c2 : Cloud) (l1 l2 : list (Call Cloud)) :
  replays c l1 c1 -> replays c1 l2 c2 -> replays c (l1 ++ l2)%list c2.
Proof.
  revert c. induction l1 as [|x l1 IH]; intros c H1 H2; simpl in *.
  - subst c1. exact H2.
  - destruct H1 as (c' & Hx & H1). exists c'. split; [exact Hx | eauto].
Qed.

Lemma guarded_run (p : StorageProvider Cloud) (call : Cloud -> Outcome A * Cloud)
    (w : World Cloud) :
  (forall r c c', call c = (r, c') -> performs (act p r) c c') ->
  exists (o : option A) (w' : World Cloud) (l : list (Call Cloud)),
    guarded act p call w = (Returned o, w') /\
    db w' = db w /\ clockReads w' = clockReads w /\ uuidCount w' = uuidCount w /\
    calls w' = (calls w ++ l)%list /\
    replays (cloud w) l (cloud w') /\
    match o with
    | None => FailedAttempt act p l
    | Some a => l = [CallIsAvailable p (Returned true); act p (Returned a)]
    end.
Proof.
  intros Hact.
  unfold guarded, tryCatch, bind, StorageService.askIsAvailable, callProvider, ret.
  destruct (isAvailable p (cloud w)) as [[[|]|e] c1] eqn:Hprobe; simpl.
  - destruct (call c1) as [[a|e] c2] eqn:Hcall; simpl.
    + exists (Some a). eexists. eexists. repeat split.
      * rewrite <- app_assoc. reflexivity.
      * simpl. exists c1. split; [exact Hprobe|]. exists c2.
        split; [apply Hact; exact Hcall | reflexivity].
    + exists None. eexists.
      exists [CallIsAvailable p (Returned true); act p (Thrown e)].
      repeat split; [rewrite <- app_assoc; reflexivity | | constructor].
      simpl. exists c1. split; [exact Hprobe|]. exists c2.
      split; [apply Hact; exact Hcall | reflexivity].
  - exists None. eexists. exists [CallIsAvailable p (Returned false)].
    repeat split; [|constructor].
    simpl. exists c1. split; [exact Hprobe | reflexivity].
  - exists None. eexists. exists [CallIsAvailable p (Thrown e)].
    repeat split; [|constructor].
    simpl. exists c1. split; [exact Hprobe | reflexivity].
Qed.

(** Extending a run by a failed attempt in front. *)
Lemma FailoverRun_after_failure (p : StorageProvider Cloud)
    (rest : list (StorageProvider Cloud)) (exhausted : Exn)
    (w w1 : World Cloud) (l : list (Call Cloud)) (out : Outcome A * World Cloud) :
  db w1 = db w -> clockReads w1 = clockReads w -> uuidCount w1 = uuidCount w ->
  calls w1 = (calls w ++ l)%list -> replays (cloud w) l (cloud w1) ->
  FailedAttempt act p l ->
  FailoverRun act rest exhausted w1 out ->
  FailoverRun act (p :: rest) exhausted w out.
Proof.
  intros Hdb Hck Hid Hcalls Hreplay Hfail. unfold FailoverRun.
  destruct out as [r w2]. intros (Hdb2 & Hck2 & Hid2 & log & Hlog & Hrep2 & Hr).
  repeat split; try congruence.
  exists (l ++ log)%list. split; [rewrite Hlog, Hcalls, <- app_assoc; reflexivity|].
  split; [eapply replays_app; eassumption|].
  destruct r as [a|e].
  - destruct Hr as (before & q & after & attempts & Ho & Hf & Hl).
    exists (p :: before), q, after, (l :: attempts).
    repeat split; [rewrite Ho; reflexivity | constructor; assumption |].
    rewrite Hl. simpl. rewrite <- app_assoc. reflexivity.
  - destruct Hr as (-> & attempts & Hf & Hl).
    split; [reflexivity|]. exists (l :: attempts).
    split; [constructor; assumption | rewrite Hl; reflexivity].
Qed.

Lemma FailoverRun_success (p : StorageProvider Cloud)
    (rest : list (StorageProvider Cloud)) (exhausted : Exn)
    (w w1 : World Cloud) (a : A) :
  db w1 = db w -> clockReads w1 = clockReads w -> uuidCount w1 = uuidCount w ->
  calls w1 = (calls w ++ [CallIsAvailable p (Returned true); act p (Returned a)])%list ->
  replays (cloud w) [CallIsAvailable p (Returned true); act p (Returned a)] (cloud w1) ->
  FailoverRun act (p :: rest) exhausted w (Returned a, w1).
Proof.
  intros Hdb Hck Hid Hcalls Hreplay. unfold FailoverRun. repeat split; try assumption.
  eexists. split; [exact Hcalls|]. split; [exact Hreplay|].
  exists [], p, rest, []. repeat split. constructor.
Qed.

Lemma FailoverRun_exhausted (exhausted : Exn) (w : World Cloud) :
  FailoverRun act [] exhausted w (Thrown exhausted, w).
Proof.
  unfold FailoverRun. repeat split.
  exists []. split; [rewrite app_nil_r; reflexivity|]. split; [reflexivity|].
  split; [reflexivity|]. exists []. split; constructor.
Qed.

End Attempts.

Section Runs.
Context {Cloud : Type}.

Lemma uploadFileOver_run (ps : list (StorageProvider Cloud)) (file : Buffer)
    (key mimetype : string) (w : World Cloud) :
  FailoverRun (uploadEntry file key mimetype) ps
    (ServiceUnavailableException "All storage providers are unavailable") w
    (StorageService.uploadFileOver ps file key mimetype w).
Proof.
  revert w. induction ps as [|p rest IH]; intros w.
  - apply FailoverRun_exhausted.
  - simpl. unfold bind at 1.
    destruct (guarded_run (uploadEntry file key mimetype) p
                (uploadFile p file key mimetype) w)
      as (o & w1 & l & Hrun & Hdb & Hck & Hid & Hcalls & Hreplay & Ho).
    { intros r c c' H. exact H. }
    change (guarded (uploadEntry file key mimetype) p (uploadFile p file key mimetype))
      with (StorageService.uploadAttempt p file key mimetype) in Hrun.
    rewrite Hrun. destruct o as [a|].
    + subst l. apply FailoverRun_success; assumption.
    + eapply FailoverRun_after_failure; eauto.
Qed.

Lemma downloadAttempt_run (p : StorageProvider Cloud) (key : string)
    (w : World Cloud) :
  exists (o : option FileDownloadResult) (w' : World Cloud) (l : list (Call Cloud)),
    StorageService.downloadAttempt p key w = (Returned o, w') /\
    db w' = db w /\ clockReads w' = clockReads w /\ uuidCount w' = uuidCount w /\
    calls w' = (calls w ++ l)%list /\
    replays (cloud w) l (cloud w') /\
    match o with
    | None => FailedAttempt (downloadEntry key) p l
    | Some a => l = [CallIsAvailable p (Returned true); downloadEntry key p (Returned a)]
    end.
Proof.
  apply (guarded_run (downloadEntry key) p (downloadFile p key) w).
  intros r c c' H. exact H.
Qed.

(** The failover loop runs over the providers it does not skip. *)
Lemma downloadFailover_run (ps : list (StorageProvider Cloud))
    (key provider : string) (w : World Cloud) :
  FailoverRun (downloadEntry key)
    (List.filter (fun p => negb (String.eqb (StorageService.getProviderName p) provider)) ps)
    (ServiceUnavailableException "Unable to download file from any storage provider")
    w (StorageService.downloadFailover ps key provider w).
Proof.
  revert w. induction ps as [|p rest IH]; intros w.
  - apply FailoverRun_exhausted.
  - simpl. destruct (String.eqb (StorageService.getProviderName p) provider); simpl.
    + apply IH.
    + unfold bind at 1.
      destruct (downloadAttempt_run p key w)
        as (o & w1 & l & Hrun & Hdb & Hck & Hid & Hcalls & Hreplay & Ho).
      rewrite Hrun. destruct o as [a|].
      * subst l. apply FailoverRun_success; assumption.
      * eapply FailoverRun_after_failure; eauto.
Qed.

End Runs.
End OrchestratorFacts.

Module UploadLogFacts.
Import Failover.

Section WithCloud.
Context {Cloud : Type}.
Variables (file : Buffer) (key mimetype : string).

Abbreviation entry := (@uploadEntry Cloud file key mimetype).

Lemma storedCount_app (l1 l2 : list (Call Cloud)) :
  storedCount (l1 ++ l2)%list = (storedCount l1 + storedCount l2)%nat.
Proof. unfold storedCount. rewrite List.filter_app, length_app. reflexivity. Qed.

Lemma storedCount_failed (p : StorageProvider Cloud) (l : list (Call Cloud)) :
  FailedAttempt entry p l -> storedCount l = 0%nat.
Proof. intros []; reflexivity. Qed.

Lemma storedCount_failures (ps : list (StorageProvider Cloud))
    (attempts : list (list (Call Cloud))) :
  Forall2 (FailedAttempt entry) ps attempts -> storedCount (concat attempts) = 0%nat.
Proof.
  induction 1 as [|p l ps attempts Hl _ IH]; [reflexivity|].
  simpl. rewrite storedCount_app, IH, (storedCount_failed p l Hl). reflexivity.
Qed.

Lemma after_available_nil : uploadsOnlyAfterAvailable (@nil (Call Cloud)).
Proof. intros [|? ?] ? ? ? ? ? ? H; discriminate H. Qed.

Lemma after_available_success (p : StorageProvider Cloud)
    (r : Outcome FileUploadResult) :
  uploadsOnlyAfterAvailable [CallIsAvailable p (Returned true); entry p r].
Proof.
  intros pre q f k m r' post H. unfold uploadEntry in H.
  destruct pre as [|c1 [|c2 [|c3 pre]]]; simplify_eq/=.
  exists []. reflexivity.
Qed.

(** A failed attempt in front keeps the property. *)
Lemma after_available_failed (p : StorageProvider Cloud)
    (l rest : list (Call Cloud)) :
  FailedAttempt entry p l -> uploadsOnlyAfterAvailable rest ->
  uploadsOnlyAfterAvailable (l ++ rest)%list.
Proof.
  intros Hl Hrest pre q f k m r post H.
  destruct Hl as [e | | e]; unfold uploadEntry in *; simpl in H.
  - destruct pre as [|c1 pre]; simplify_eq/=.
    destruct (Hrest _ _ _ _ _ _ _ eq_refl) as (pre' & ->).
    exists (CallIsAvailable p (Thrown e) :: pre'). reflexivity.
  - destruct pre as [|c1 pre]; simplify_eq/=.
    destruct (Hrest _ _ _ _ _ _ _ eq_refl) as (pre' & ->).
    exists (CallIsAvailable p (Returned false) :: pre'). reflexivity.
  - destruct pre as [|c1 [|c2 pre]]; simplify_eq/=.
    + exists []. reflexivity.
    + destruct (Hrest _ _ _ _ _ _ _ eq_refl) as (pre' & ->).
      exists (CallIsAvailable p (Returned true) ::
              CallUploadFile p file key mimetype (Thrown e) :: pre'). reflexivity.
Qed.

Lemma after_available_failures (ps : list (StorageProvider Cloud))
    (attempts : list (list (Call Cloud))) (rest : list (Call Cloud)) :
  Forall2 (FailedAttempt entry) ps attempts -> uploadsOnlyAfterAvailable rest ->
  uploadsOnlyAfterAvailable (concat attempts ++ rest)%list.
Proof.
  intros Hf Hrest. induction Hf as [|p l ps attempts Hl _ IH]; [exact Hrest|].
  simpl. rewrite <- app_assoc. eapply after_available_failed; eassumption.
Qed.

End WithCloud.
End UploadLogFacts.

(* ===================================================================== *)
(** * Facts about the provider adapters *)
(* ===================================================================== *)

Module AdapterFacts.
Section WithCloud.
Context {Cloud : Type}.

(** A result of the S3 adapter declares the provider "aws" and the key
    it was given. *)
Lemma aws_upload_tagged (s3Client : AwsS3Provider.S3Client Cloud)
    (bucketName region : string) (file : Buffer) (k mimetype : string)
    (c c' : Cloud) (r : FileUploadResult) :
  AwsS3Provider.uploadFile s3Client bucketName region file k mimetype c =
    (Returned r, c') ->
  provider r = "aws" /\ key r = k /\ size r = bufferLength file.
Proof.
  unfold AwsS3Provider.uploadFile.
  destruct (AwsS3Provider.send _ _ _) as [[o|e] c1]; intros H; [|discriminate H].
  injection H as <- _. repeat split.
Qed.

(** A result of the GCS adapter declares the provider "gcp". *)
Lemma gcp_upload_tagged (storage : GcpStorageProvider.StorageClient Cloud)
    (bucketName : string) (file : Buffer) (k mimetype : string)
    (c c' : Cloud) (r : FileUploadResult) :
  GcpStorageProvider.uploadFile storage bucketName file k mimetype c =
    (Returned r, c') ->
  provider r = "gcp" /\ key r = k /\ size r = bufferLength file.
Proof.
  unfold GcpStorageProvider.uploadFile.
  destruct (GcpStorageProvider.save _ _ _ _ _ _) as [[o|e] c1]; intros H;
    [|discriminate H].
  injection H as <- _. repeat split.
Qed.

(** The probes and the deletes of both adapters never throw. *)
Lemma aws_probe_and_delete_return (s3Client : AwsS3Provider.S3Client Cloud)
    (bucketName : string) (k : string) (c : Cloud) :
  (exists b c', AwsS3Provider.isAvailable s3Client bucketName c = (Returned b, c')) /\
  (exists b c', AwsS3Provider.deleteFile s3Client bucketName k c = (Returned b, c')).
Proof.
  unfold AwsS3Provider.isAvailable, AwsS3Provider.deleteFile.
  split; destruct (AwsS3Provider.send _ _ _) as [[o|e] c1]; eauto.
Qed.

Lemma gcp_probe_and_delete_return (storage : GcpStorageProvider.StorageClient Cloud)
    (bucketName : string) (k : string) (c : Cloud) :
  (exists b c', GcpStorageProvider.isAvailable storage bucketName c = (Returned b, c')) /\
  (exists b c', GcpStorageProvider.deleteFile storage bucketName k c = (Returned b, c')).
Proof.
  unfold GcpStorageProvider.isAvailable, GcpStorageProvider.deleteFile. split.
  - destruct (GcpStorageProvider.exists_ _ _ _) as [[o|e] c1]; eauto.
  - destruct (GcpStorageProvider.delete _ _ _ _) as [[o|e] c1]; eauto.
Qed.

End WithCloud.
End AdapterFacts.

(* ===================================================================== *)
(** * StorageService.uploadFile *)
(* ===================================================================== *)

(** C1.  For every list of providers, buffer, key and content type,
    [uploadFile] tries the providers in their configured order and returns
    the result of the first one whose [isAvailable()] returned true and
    whose [uploadFile] returned: every provider before it was probed and
    either threw from the probe, reported unavailable, or reported
    available and threw from the upload ([FailoverRun], whose log holds
    the calls made on the back ends with the settlements they had).  No
    upload is ever issued except directly after a probe of the same
    provider that returned true.  When no provider is left the call
    throws [ServiceUnavailableException] ('All storage providers are
    unavailable').  The bytes end up at one provider exactly on success
    and at none on failure, so at no more than one in either case. *)
Theorem uploadFile_first_available_provider {Cloud : Type}
    (this : StorageService.t Cloud) (file : Buffer) (key mimetype : string)
    (w : World Cloud) :
  let out := StorageService.uploadFile this file key mimetype w in
  Failover.FailoverRun (Failover.uploadEntry file key mimetype)
    (StorageService.providers this)
    (ServiceUnavailableException "All storage providers are unavailable") w out /\
  exists log : list (Call Cloud),
    calls (snd out) = (calls w ++ log)%list /\
    Failover.uploadsOnlyAfterAvailable log /\
    (Failover.storedCount log <= 1)%nat /\
    match fst out with
    | Returned _ => Failover.storedCount log = 1%nat
    | Thrown _ => Failover.storedCount log = 0%nat
    end.
Proof.
  intros out. subst out. unfold StorageService.uploadFile.
  pose proof (OrchestratorFacts.uploadFileOver_run (StorageService.providers this)
                file key mimetype w) as Hrun.
  split; [exact Hrun|].
  unfold Failover.FailoverRun in Hrun.
  destruct (StorageService.uploadFileOver _ _ _ _ _) as [r w'].
  destruct Hrun as (_ & _ & _ & log & Hlog & _ & Hr).
  exists log. split; [exact Hlog|]. simpl.
  destruct r as [a|e].
  - destruct Hr as (before & p & after & attempts & _ & Hf & ->).
    assert (Hc : Failover.storedCount
                   (concat attempts ++
                    [CallIsAvailable p (Returned true);
                     Failover.uploadEntry file key mimetype p (Returned a)])%list = 1%nat).
    { rewrite UploadLogFacts.storedCount_app,
        (UploadLogFacts.storedCount_failures _ _ _ _ _ Hf). reflexivity. }
    split; [|split; [lia | exact Hc]].
    eapply UploadLogFacts.after_available_failures; [exact Hf|].
    apply UploadLogFacts.after_available_success.
  - destruct Hr as (_ & attempts & Hf & ->).
    pose proof (UploadLogFacts.storedCount_failures _ _ _ _ _ Hf) as Hc.
    split; [|split; [lia | exact Hc]].
    rewrite <- (app_nil_r (concat attempts)).
    eapply UploadLogFacts.after_available_failures; [exact Hf|].
    apply UploadLogFacts.after_available_nil.
Qed.

(* ===================================================================== *)
(** * StorageService.downloadFile *)
(* ===================================================================== *)

Module DownloadFacts.
Import Failover.

Section WithCloud.
Context {Cloud : Type}.

(** The revision without failover runs over the selected provider
    alone. *)
Lemma downloadFileOrNotify_run (this : StorageService.t Cloud)
    (key provider : string) (w : World Cloud) :
  FailoverRun (downloadEntry key)
    (match StorageService.getProviderByName this provider with
     | Some selected => [selected]
     | None => []
     end)
    (ServiceUnavailableException
       "Storage provider is currently unavailable. The file will be sent to your registered email once service is restored.")
    w (StorageService.downloadFileOrNotify this key provider w).
Proof.
  unfold StorageService.downloadFileOrNotify, StorageService.downloadFromSelected.
  destruct (StorageService.getProviderByName this provider) as [selected|].
  - unfold bind at 1.
    destruct (OrchestratorFacts.downloadAttempt_run selected key w)
      as (o & w1 & l & Hrun & Hdb & Hck & Hid & Hcalls & Hreplay & Ho).
    rewrite Hrun. destruct o as [a|].
    + subst l. apply OrchestratorFacts.FailoverRun_success; assumption.
    + eapply OrchestratorFacts.FailoverRun_after_failure; eauto.
      apply OrchestratorFacts.FailoverRun_exhausted.
  - apply OrchestratorFacts.FailoverRun_exhausted.
Qed.

(** The revision with failover runs over the selected provider and
    then over the providers whose name is not the recorded one. *)
Lemma downloadFile_run (this : StorageService.t Cloud)
    (key provider : string) (w : World Cloud) :
  FailoverRun (downloadEntry key)
    (match StorageService.getProviderByName this provider with
     | Some selected => [selected]
     | None => []
     end ++
     List.filter
       (fun p => negb (String.eqb (StorageService.getProviderName p) provider))
       (StorageService.providers this))%list
    (ServiceUnavailableException "Unable to download file from any storage provider")
    w (StorageService.downloadFile this key provider w).
Proof.
  unfold StorageService.downloadFile, StorageService.downloadFromSelected.
  destruct (StorageService.getProviderByName this provider) as [selected|].
  - unfold bind at 1.
    destruct (OrchestratorFacts.downloadAttempt_run selected key w)
      as (o & w1 & l & Hrun & Hdb & Hck & Hid & Hcalls & Hreplay & Ho).
    rewrite Hrun. destruct o as [a|].
    + subst l. apply OrchestratorFacts.FailoverRun_success; assumption.
    + eapply OrchestratorFacts.FailoverRun_after_failure; eauto.
      apply OrchestratorFacts.downloadFailover_run.
  - apply OrchestratorFacts.downloadFailover_run.
Qed.

End WithCloud.
End DownloadFacts.

Module DownloadOrder.
Section WithCloud.
Context {Cloud : Type}.
Variables aws gcp : StorageProvider Cloud.
Hypothesis aws_class : instanceOf aws = AwsS3ProviderClass.
Hypothesis gcp_class : instanceOf gcp = GcpStorageProviderClass.

Lemma others_than_aws :
  List.filter
    (fun p => negb (String.eqb (StorageService.getProviderName p) "aws"))
    (StorageService.providers (StorageService.new aws gcp)) = [gcp].
Proof.
  simpl. unfold StorageService.getProviderName.
  rewrite aws_class, gcp_class. reflexivity.
Qed.

Lemma others_than_gcp :
  List.filter
    (fun p => negb (String.eqb (StorageService.getProviderName p) "gcp"))
    (StorageService.providers (StorageService.new aws gcp)) = [aws].
Proof.
  simpl. unfold StorageService.getProviderName.
  rewrite aws_class, gcp_class. reflexivity.
Qed.

End WithCloud.
End DownloadOrder.

(** C2, as the code has it.  [recorded] is the adapter the recorded
    provider id ("aws" or "gcp") names and [other] the remaining one.
    Both revisions of [downloadFile] first probe [recorded] and return
    its download when it reports available and the download returns.
    The revision with failover then tries [other] in the same way and
    throws [ServiceUnavailableException] only when that attempt failed
    too; the revision without failover tries no other provider and
    throws [ServiceUnavailableException] (the file 'will be sent to your
    registered email') as soon as the attempt on [recorded] failed. *)
Theorem downloadFile_recorded_provider_first {Cloud : Type}
    (aws gcp recorded other : StorageProvider Cloud) (key provider : string)
    (w : World Cloud) :
  instanceOf aws = AwsS3ProviderClass ->
  instanceOf gcp = GcpStorageProviderClass ->
  (provider = "aws" /\ recorded = aws /\ other = gcp) \/
  (provider = "gcp" /\ recorded = gcp /\ other = aws) ->
  let this := StorageService.new aws gcp in
  Failover.FailoverRun (Failover.downloadEntry key) [recorded; other]
    (ServiceUnavailableException "Unable to download file from any storage provider")
    w (StorageService.downloadFile this key provider w) /\
  Failover.FailoverRun (Failover.downloadEntry key) [recorded]
    (ServiceUnavailableException
       "Storage provider is currently unavailable. The file will be sent to your registered email once service is restored.")
    w (StorageService.downloadFileOrNotify this key provider w).
Proof.
  intros Haws Hgcp Hcase this.
  pose proof (DownloadFacts.downloadFile_run this key provider w) as Hfail.
  pose proof (DownloadFacts.downloadFileOrNotify_run this key provider w) as Hnotify.
  destruct Hcase as [(-> & -> & ->) | (-> & -> & ->)].
  - subst this. rewrite (DownloadOrder.others_than_aws aws gcp Haws Hgcp) in Hfail.
    split; [exact Hfail | exact Hnotify].
  - subst this. rewrite (DownloadOrder.others_than_gcp aws gcp Haws Hgcp) in Hfail.
    split; [exact Hfail | exact Hnotify].
Qed.

Lemma downloadFile_recorded_provider_first_witness :
  let w := InMemoryCloud.world InMemoryCloud.emptyDatabase InMemoryCloud.s3Outage
             (fun _ => 0) in
  Failover.FailoverRun (Failover.downloadEntry "uploads/u1/a.txt")
    [InMemoryCloud.awsProvider; InMemoryCloud.gcpProvider]
    (ServiceUnavailableException "Unable to download file from any storage provider")
    w (StorageService.downloadFile InMemoryCloud.storageService
         "uploads/u1/a.txt" "aws" w) /\
  Failover.FailoverRun (Failover.downloadEntry "uploads/u1/a.txt")
    [InMemoryCloud.awsProvider]
    (ServiceUnavailableException
       "Storage provider is currently unavailable. The file will be sent to your registered email once service is restored.")
    w (StorageService.downloadFileOrNotify InMemoryCloud.storageService
         "uploads/u1/a.txt" "aws" w).
Proof.
  apply (downloadFile_recorded_provider_first
           InMemoryCloud.awsProvider InMemoryCloud.gcpProvider
           InMemoryCloud.awsProvider InMemoryCloud.gcpProvider).
  - reflexivity.
  - reflexivity.
  - left. repeat split; reflexivity.
Defined.

(** C2 fails on the revision without failover: S3, the recorded
    provider, is down while GCS is available and holds the object; the
    download throws after the one probe of S3 and never asks GCS. *)
Lemma downloadFile_without_failover_counterexample :
  let w := InMemoryCloud.world InMemoryCloud.emptyDatabase InMemoryCloud.s3Outage
             (fun _ => 0) in
  let key := "uploads/u1/a.txt" in
  let out := StorageService.downloadFileOrNotify InMemoryCloud.storageService
               key "aws" w in
  fst (isAvailable InMemoryCloud.gcpProvider (cloud w)) = Returned true /\
  (exists r, fst (downloadFile InMemoryCloud.gcpProvider key (cloud w)) = Returned r) /\
  fst out =
    Thrown (ServiceUnavailableException
              "Storage provider is currently unavailable. The file will be sent to your registered email once service is restored.") /\
  calls (snd out) = [CallIsAvailable InMemoryCloud.awsProvider (Returned false)] /\
  ~ exists exhausted,
      Failover.FailoverRun (Failover.downloadEntry key)
        [InMemoryCloud.awsProvider; InMemoryCloud.gcpProvider] exhausted w out.
Proof.
  intros w key out.
  assert (Hcalls : calls (snd out) =
                   [CallIsAvailable InMemoryCloud.awsProvider (Returned false)])
    by reflexivity.
  split; [reflexivity|]. split; [eexists; reflexivity|].
  split; [reflexivity|]. split; [exact Hcalls|].
  intros (exhausted & Hrun). unfold Failover.FailoverRun in Hrun.
  destruct out as [r w']. simpl in Hcalls.
  destruct Hrun as (_ & _ & _ & log & Hlog & _ & Hr).
  rewrite Hcalls in Hlog. simpl in Hlog. subst log.
  destruct r as [a|e].
  - destruct Hr as (before & p & after & attempts & _ & _ & Hl).
    apply (f_equal (@length _)) in Hl. rewrite length_app in Hl. simpl in Hl. lia.
  - destruct Hr as (_ & attempts & Hf & Hl).
    inversion Hf as [|? l1 ? rest1 H1 Hf1]; subst.
    inversion Hf1 as [|? l2 ? rest2 H2 Hf2]; subst.
    apply (f_equal (@length _)) in Hl. simpl in Hl. rewrite !length_app in Hl.
    destruct H1, H2; simpl in Hl; lia.
Qed.

(* ===================================================================== *)
(** * UsersService.addOneMonth *)
(* ===================================================================== *)

Module AddOneMonthExamples.
Import JsDate UsersService.

(** 31 January 2025 plus one month is 28 February 2025, at any time of
    day. *)
Lemma jan31_2025 (h mi s ms : Z) :
  0 <= h < 24 -> 0 <= mi < 60 -> 0 <= s < 60 -> 0 <= ms < 1000 ->
  addOneMonth (newDate 2025 0 31 h mi s ms) = newDate 2025 1 28 h mi s ms.
Proof.
  intros Hh Hmi Hs Hms.
  destruct (JsDateFacts.newDate_fields 2025 0 31 h mi s ms)
    as (Fy & Fm & Fd & Fh & Fmi & Fs & Fms); try assumption;
    [lia | vm_compute; split; discriminate |].
  unfold addOneMonth. rewrite Fy, Fm, Fd, Fh, Fmi, Fs, Fms. reflexivity.
Qed.

(** 31 January 2024, a leap year, plus one month is 29 February 2024. *)
Lemma jan31_2024 (h mi s ms : Z) :
  0 <= h < 24 -> 0 <= mi < 60 -> 0 <= s < 60 -> 0 <= ms < 1000 ->
  addOneMonth (newDate 2024 0 31 h mi s ms) = newDate 2024 1 29 h mi s ms.
Proof.
  intros Hh Hmi Hs Hms.
  destruct (JsDateFacts.newDate_fields 2024 0 31 h mi s ms)
    as (Fy & Fm & Fd & Fh & Fmi & Fs & Fms); try assumption;
    [lia | vm_compute; split; discriminate |].
  unfold addOneMonth. rewrite Fy, Fm, Fd, Fh, Fmi, Fs, Fms. reflexivity.
Qed.

End AddOneMonthExamples.

(** C6, as the code has it.  For every date whose year after the
    increment lies outside 0..99, [addOneMonth] increments the month
    field, rolls the year after December, clamps the day of the month to
    the last day of the resulting month and keeps the time of day.  (A
    year in 0..99 is read by the Date constructor as 1900 + year.)  The
    instances 31 January 2025 and 31 January 2024 are
    [AddOneMonthExamples.jan31_2025] and [AddOneMonthExamples.jan31_2024]. *)
Theorem addOneMonth_adds_one_calendar_month (orig : Z) :
  JsDate.legacyYear (JsDate.getFullYear orig + (JsDate.getMonth orig + 1) / 12) = false ->
  Calendar.addsOneCalendarMonth orig (UsersService.addOneMonth orig).
Proof.
  intros Hlegacy.
  pose proof (CycleFacts.addOneMonth_fields orig) as F. cbv zeta in F.
  unfold JsDate.constructorYear in F. rewrite Hlegacy in F.
  destruct F as (Fy & Fm & Fd & Fh & Fmi & Fs & Fms).
  destruct (CycleFacts.month_fields_range orig) as (Hm & _).
  unfold Calendar.addsOneCalendarMonth.
  rewrite Fy, Fm, Fd, Fh, Fmi, Fs, Fms.
  repeat split.
  destruct (Z.eqb_spec (JsDate.getMonth orig) 11) as [He | Hne].
  - rewrite He. split; reflexivity.
  - split; JsDateFacts.zdiv.
Qed.

Lemma addOneMonth_adds_one_calendar_month_witness :
  Calendar.addsOneCalendarMonth (JsDate.newDate 2025 0 31 10 20 30 400)
    (UsersService.addOneMonth (JsDate.newDate 2025 0 31 10 20 30 400)) /\
  Calendar.addsOneCalendarMonth (JsDate.newDate 2024 11 31 23 59 59 999)
    (UsersService.addOneMonth (JsDate.newDate 2024 11 31 23 59 59 999)).
Proof.
  split; apply addOneMonth_adds_one_calendar_month; reflexivity.
Defined.

(** C6 fails for a date of the year 50: the month added, the year reads
    1950. *)
Lemma addOneMonth_year_50_counterexample :
  JsDate.getFullYear Calendar.jan15_year50 = 50 /\
  JsDate.getMonth Calendar.jan15_year50 = 0 /\
  JsDate.getFullYear (UsersService.addOneMonth Calendar.jan15_year50) = 1950 /\
  ~ Calendar.addsOneCalendarMonth Calendar.jan15_year50
      (UsersService.addOneMonth Calendar.jan15_year50).
Proof.
  repeat split; try reflexivity.
  intros (H & _). vm_compute in H. destruct H as (H & _). discriminate H.
Qed.

(* ===================================================================== *)
(** * UsersService: the quota rollover *)
(* ===================================================================== *)

Module QuotaFacts.
Import UsersService Rollover.

Section WithCloud.
Context {Cloud : Type}.
Implicit Types (w : World Cloud) (u : User).

Lemma checkAndReset_not_due (userId : string) (d : option Z) w :
  resetIsDue d (clock w (clockReads w)) = false ->
  checkAndResetQuotaIfNeeded userId d w = (Returned tt, tick w).
Proof.
  intros Hdue. unfold checkAndResetQuotaIfNeeded, bind, newDateNow.
  rewrite Hdue. reflexivity.
Qed.

Lemma checkAndReset_due (userId : string) u w :
  users (db w) !! userId = Some u ->
  resetIsDue (nextQuotaResetDate u) (clock w (clockReads w)) = true ->
  checkAndResetQuotaIfNeeded userId (nextQuotaResetDate u) w =
  (Returned tt, afterReset userId u w).
Proof.
  intros Hu Hdue.
  unfold checkAndResetQuotaIfNeeded, afterReset, startOfRoll, bind, newDateNow.
  rewrite Hdue.
  destruct (nextQuotaResetDate u) as [d|]; simpl;
    unfold Prisma.user_update, bind, getDb, putDb, ret; simpl;
    rewrite Hu; reflexivity.
Qed.

End WithCloud.
End QuotaFacts.

Module QuotaCallers.
Import UsersService Rollover.

Section WithCloud.
Context {Cloud : Type}.
Implicit Types (w : World Cloud) (u : User).

(** The rollover always returns, and the user's row is still there. *)
Lemma checkAndReset_returns (userId : string) u w :
  users (db w) !! userId = Some u ->
  exists (w1 : World Cloud) (u1 : User),
    checkAndResetQuotaIfNeeded userId (nextQuotaResetDate u) w = (Returned tt, w1) /\
    users (db w1) !! userId = Some u1 /\
    maxStorageCapacity u1 = maxStorageCapacity u /\
    files (db w1) = files (db w) /\ usageHistory (db w1) = usageHistory (db w) /\
    calls w1 = calls w /\ cloud w1 = cloud w /\ uuidCount w1 = uuidCount w /\
    uuids w1 = uuids w /\ clock w1 = clock w.
Proof.
  intros Hu.
  destruct (resetIsDue (nextQuotaResetDate u) (clock w (clockReads w))) eqn:Hdue.
  - rewrite (QuotaFacts.checkAndReset_due userId u w Hu Hdue).
    eexists. eexists. split; [reflexivity|].
    unfold afterReset. simpl. rewrite lookup_insert_eq.
    split; [reflexivity|]. destruct (nextQuotaResetDate u); repeat split.
  - rewrite (QuotaFacts.checkAndReset_not_due userId _ w Hdue).
    exists (tick w), u. repeat split. exact Hu.
Qed.

(** The quota check is the rollover followed by two reads. *)
Lemma checkUserStorageQuota_run (userId : string) (fileSize : Z) u w :
  users (db w) !! userId = Some u ->
  exists (w1 : World Cloud) (u1 : User),
    checkAndResetQuotaIfNeeded userId (nextQuotaResetDate u) w = (Returned tt, w1) /\
    users (db w1) !! userId = Some u1 /\
    checkUserStorageQuota userId fileSize w =
    (Returned (JsNumber.add (JsNumber.ofBigInt (monthlyUsage u1)) fileSize <=?
               JsNumber.ofBigInt (maxStorageCapacity u)), w1).
Proof.
  intros Hu.
  destruct (checkAndReset_returns userId u w Hu) as (w1 & u1 & Hrun & Hu1 & _).
  exists w1, u1. split; [exact Hrun|]. split; [exact Hu1|].
  unfold checkUserStorageQuota, bind at 1. unfold Prisma.user_findUnique at 1.
  unfold bind at 1. simpl. rewrite Hu.
  unfold bind at 1. rewrite Hrun.
  unfold bind, Prisma.user_findUnique, bind, getDb, ret. simpl. rewrite Hu1.
  reflexivity.
Qed.

Lemma updateUserStorageUsage_run (userId : string) (fileSize : Z) u w :
  users (db w) !! userId = Some u ->
  exists (w1 : World Cloud) (u1 : User),
    checkAndResetQuotaIfNeeded userId (nextQuotaResetDate u) w = (Returned tt, w1) /\
    users (db w1) !! userId = Some u1 /\
    updateUserStorageUsage userId fileSize w =
    recordAfterRollover userId fileSize u1 w1.
Proof.
  intros Hu.
  destruct (checkAndReset_returns userId u w Hu) as (w1 & u1 & Hrun & Hu1 & _).
  exists w1, u1. split; [exact Hrun|]. split; [exact Hu1|].
  unfold updateUserStorageUsage, bind at 1. unfold Prisma.user_findUnique at 1.
  unfold bind at 1. simpl. rewrite Hu.
  unfold bind at 1. rewrite Hrun.
  unfold bind at 1. unfold Prisma.user_update at 1. unfold bind at 1. simpl.
  rewrite Hu1. simpl.
  unfold bind at 1. simpl. unfold bind at 1. simpl.
  unfold recordAfterRollover. cbv zeta.
  destruct (find _ _); reflexivity.
Qed.

(** What the recording leaves in the tables: the user's row incremented,
    the files, the back ends and the call log untouched. *)
(** The recording always returns: the row [findFirst] found is there to
    be updated. *)
Lemma recordAfterRollover_returns (userId : string) (fileSize : Z) (u1 : User)
    (w1 : World Cloud) :
  fst (recordAfterRollover userId fileSize u1 w1) = Returned tt.
Proof.
  unfold recordAfterRollover. cbv zeta.
  destruct (find _ _) as [r|] eqn:Hfind.
  - unfold Prisma.usageHistory_update, bind. simpl.
    apply find_some in Hfind as (Hin & _).
    assert (He : existsb (fun x => String.eqb (uh_id x) (uh_id r))
                   (usageHistory (db w1)) = true).
    { apply existsb_exists. exists r. split; [exact Hin | apply String.eqb_refl]. }
    rewrite He. reflexivity.
  - reflexivity.
Qed.

Lemma recordAfterRollover_effect (userId : string) (fileSize : Z) (u1 : User)
    (w1 : World Cloud) :
  let w2 := snd (recordAfterRollover userId fileSize u1 w1) in
  users (db w2) = <[userId := incrementUsage fileSize u1]> (users (db w1)) /\
  files (db w2) = files (db w1) /\ calls w2 = calls w1 /\ cloud w2 = cloud w1.
Proof.
  unfold recordAfterRollover. cbv zeta.
  destruct (find _ _) as [r|].
  - unfold Prisma.usageHistory_update, bind. simpl.
    destruct (existsb _ _); simpl; repeat split.
  - unfold Prisma.usageHistory_create, bind. simpl. repeat split.
Qed.

(** After a reset-check the stored reset instant is after the time the
    check read. *)
Lemma reset_instant_in_future (userId : string) u w :
  users (db w) !! userId = Some u ->
  exists (u1 : User) (next : Z),
    users (db (snd (checkAndResetQuotaIfNeeded userId (nextQuotaResetDate u) w)))
      !! userId = Some u1 /\
    nextQuotaResetDate u1 = Some next /\ clock w (clockReads w) < next.
Proof.
  intros Hu.
  destruct (resetIsDue (nextQuotaResetDate u) (clock w (clockReads w))) eqn:Hdue.
  - rewrite (QuotaFacts.checkAndReset_due userId u w Hu Hdue).
    destruct (CycleFacts.rollForward_spec (startOfRoll u w) (clock w (clockReads w)))
      as (k & Hk & Hafter & _).
    eexists. eexists. unfold afterReset. simpl. rewrite lookup_insert_eq.
    split; [reflexivity|]. split; [reflexivity|]. rewrite Hk. exact Hafter.
  - rewrite (QuotaFacts.checkAndReset_not_due userId _ w Hdue).
    unfold resetIsDue in Hdue.
    destruct (nextQuotaResetDate u) as [d|] eqn:Hd; [|discriminate].
    exists u, d. simpl. split; [exact Hu|]. split; [exact Hd | lia].
Qed.

End WithCloud.
End QuotaCallers.

(** C5.  For every user, the reset-check [checkAndResetQuotaIfNeeded]
    returns, and right after it the stored next reset instant is
    strictly after [now], the time the check read.  When the stored
    instant was absent or not after [now], the check set the usage to 0
    and stored the first of [start], [addOneMonth start],
    [addOneMonth (addOneMonth start)], ... that is strictly after [now],
    where [start] is the old instant (the clock read again when there
    was none); the loop of the source reaches that value whatever room
    it is given beyond [loopBound].  Otherwise the row is unchanged.
    Both the quota check and the usage update go through it: the quota
    check leaves exactly the world of the reset-check, and the usage
    update increments the row the reset-check left. *)
Theorem rollover_resets_usage_and_advances_cycle {Cloud : Type}
    (w : World Cloud) (userId : string) (u : User) :
  users (db w) !! userId = Some u ->
  let now := clock w (clockReads w) in
  let start := Rollover.startOfRoll u w in
  let out := UsersService.checkAndResetQuotaIfNeeded userId (nextQuotaResetDate u) w in
  fst out = Returned tt /\
  exists (u' : User) (next : Z),
    users (db (snd out)) !! userId = Some u' /\
    nextQuotaResetDate u' = Some next /\ now < next /\
    (UsersService.resetIsDue (nextQuotaResetDate u) now = true ->
       monthlyUsage u' = 0 /\
       exists k : nat,
         next = Nat.iter k UsersService.addOneMonth start /\
         (forall j : nat, (j < k)%nat ->
            Nat.iter j UsersService.addOneMonth start <= now) /\
         (forall fuel : nat, (UsersService.loopBound start now <= fuel)%nat ->
            UsersService.advanceWhileDue fuel start now = next)) /\
    (UsersService.resetIsDue (nextQuotaResetDate u) now = false -> u' = u) /\
    (forall fileSize : Z,
       snd (UsersService.checkUserStorageQuota userId fileSize w) = snd out) /\
    (forall fileSize : Z,
       users (db (snd (UsersService.updateUserStorageUsage userId fileSize w)))
         !! userId = Some (UsersService.incrementUsage fileSize u')).
Proof.
  intros Hu now start out.
  assert (Hcallers :
    forall u', users (db (snd out)) !! userId = Some u' ->
      (forall fileSize : Z,
         snd (UsersService.checkUserStorageQuota userId fileSize w) = snd out) /\
      (forall fileSize : Z,
         users (db (snd (UsersService.updateUserStorageUsage userId fileSize w)))
           !! userId = Some (UsersService.incrementUsage fileSize u'))).
  { intros u' Hu'. split; intros fileSize.
    - destruct (QuotaCallers.checkUserStorageQuota_run userId fileSize u w Hu)
        as (w1 & u1 & Hrun & _ & Hq).
      rewrite Hq. subst out. rewrite Hrun. reflexivity.
    - destruct (QuotaCallers.updateUserStorageUsage_run userId fileSize u w Hu)
        as (w1 & u1 & Hrun & Hu1 & Hup).
      rewrite Hup.
      destruct (QuotaCallers.recordAfterRollover_effect userId fileSize u1 w1)
        as (Hus & _).
      rewrite Hus. subst out. rewrite Hrun in Hu'. simpl in Hu'.
      rewrite lookup_insert_eq. congruence. }
  subst out.
  destruct (UsersService.resetIsDue (nextQuotaResetDate u) now) eqn:Hdue.
  - rewrite (QuotaFacts.checkAndReset_due userId u w Hu Hdue) in *.
    split; [reflexivity|].
    destruct (CycleFacts.rollForward_spec start now) as (k & Hk & Hafter & Hbefore).
    exists (UsersService.resetUser (UsersService.rollForward start now) u),
      (UsersService.rollForward start now).
    assert (Hrow : users (db (Rollover.afterReset userId u w)) !! userId =
                   Some (UsersService.resetUser (UsersService.rollForward start now) u)).
    { unfold Rollover.afterReset. simpl. rewrite lookup_insert_eq. reflexivity. }
    split; [exact Hrow|]. split; [reflexivity|]. split; [rewrite Hk; exact Hafter|].
    split; [|split; [discriminate | exact (Hcallers _ Hrow)]].
    intros _. split; [reflexivity|]. exists k. split; [exact Hk|].
    split; [exact Hbefore|].
    intros fuel Hfuel. apply CycleFacts.advanceWhileDue_stable. exact Hfuel.
  - rewrite (QuotaFacts.checkAndReset_not_due userId _ w Hdue) in *.
    split; [reflexivity|].
    unfold UsersService.resetIsDue in Hdue.
    destruct (nextQuotaResetDate u) as [d|] eqn:Hd; [|discriminate].
    exists u, d. split; [exact Hu|]. split; [exact Hd|]. split; [lia|].
    split; [discriminate|]. split; [reflexivity|]. exact (Hcallers _ Hu).
Qed.

Lemma rollover_resets_usage_and_advances_cycle_witness :
  users (db InMemoryCloud.aliceInMarch) !! "u1" = Some InMemoryCloud.alice /\
  exists u' : User,
    users (db (snd (UsersService.checkAndResetQuotaIfNeeded "u1"
                      (nextQuotaResetDate InMemoryCloud.alice)
                      InMemoryCloud.aliceInMarch))) !! "u1" = Some u' /\
    monthlyUsage u' = 0 /\
    exists next : Z,
      nextQuotaResetDate u' = Some next /\ InMemoryCloud.mid_march_2025 < next.
Proof.
  split; [reflexivity|].
  destruct (rollover_resets_usage_and_advances_cycle InMemoryCloud.aliceInMarch
              "u1" InMemoryCloud.alice eq_refl)
    as (_ & u' & next & Hrow & Hnext & Hfuture & Hdue & _).
  exists u'. split; [exact Hrow|]. split; [apply Hdue; reflexivity|].
  exists next. split; [exact Hnext | exact Hfuture].
Defined.

(** C7.  Take a reset-check on user [userId], and let [u1] be the row it
    left.  If the reset instant of [u1] is still in the future when a
    second reset-check reads the clock (it was in the future when the
    first one returned), the second check returns and changes nothing in
    the database: usage and reset instant stay as the first check left
    them. *)
Theorem rollover_is_idempotent {Cloud : Type}
    (w : World Cloud) (userId : string) (u u1 : User) :
  users (db w) !! userId = Some u ->
  let w1 := snd (UsersService.checkAndResetQuotaIfNeeded userId
                   (nextQuotaResetDate u) w) in
  users (db w1) !! userId = Some u1 ->
  (forall next : Z,
     nextQuotaResetDate u1 = Some next -> clock w1 (clockReads w1) < next) ->
  let out2 := UsersService.checkAndResetQuotaIfNeeded userId
                (nextQuotaResetDate u1) w1 in
  fst out2 = Returned tt /\ db (snd out2) = db w1 /\
  users (db (snd out2)) !! userId = Some u1.
Proof.
  intros Hu w1 Hu1 Hfuture out2.
  destruct (QuotaCallers.reset_instant_in_future userId u w Hu)
    as (u' & next & Hrow & Hnext & _).
  fold w1 in Hrow. rewrite Hu1 in Hrow. injection Hrow as <-.
  specialize (Hfuture next Hnext).
  assert (Hdue : UsersService.resetIsDue (nextQuotaResetDate u1)
                   (clock w1 (clockReads w1)) = false).
  { rewrite Hnext. simpl. lia. }
  subst out2. rewrite (QuotaFacts.checkAndReset_not_due userId _ w1 Hdue).
  simpl. repeat split. exact Hu1.
Qed.

Lemma rollover_is_idempotent_witness :
  let w1 := snd (UsersService.checkAndResetQuotaIfNeeded "u1"
                   (nextQuotaResetDate InMemoryCloud.alice)
                   InMemoryCloud.aliceInMarch) in
  let u1 := UsersService.resetUser (JsDate.newDate 2025 2 28 10 20 30 400)
              InMemoryCloud.alice in
  users (db InMemoryCloud.aliceInMarch) !! "u1" = Some InMemoryCloud.alice /\
  users (db w1) !! "u1" = Some u1 /\
  db (snd (UsersService.checkAndResetQuotaIfNeeded "u1" (nextQuotaResetDate u1) w1))
  = db w1.
Proof.
  intros w1 u1.
  split; [reflexivity|]. split; [reflexivity|].
  apply (rollover_is_idempotent InMemoryCloud.aliceInMarch "u1" InMemoryCloud.alice u1).
  - reflexivity.
  - reflexivity.
  - intros next Hnext. injection Hnext as <-. reflexivity.
Defined.

(* ===================================================================== *)
(** * FilesService: ownership *)
(* ===================================================================== *)

Module OwnershipFacts.
Section WithCloud.
Context {Cloud : Type}.

(** The look-up fails in the same way for a record that is absent and
    for one that belongs to somebody else, and touches nothing. *)
Lemma findOwnedFile_not_found (fileId caller : string) (w : World Cloud) :
  (files (db w) !! fileId = None \/
   exists file, files (db w) !! fileId = Some file /\ userId file <> caller) ->
  FilesService.findOwnedFile fileId caller w =
  (Thrown (NotFoundException "File not found"), w).
Proof.
  intros H. unfold FilesService.findOwnedFile, Prisma.file_findUnique, bind, getDb, ret.
  simpl. destruct H as [-> | (file & -> & Hne)]; [reflexivity|].
  apply String.eqb_neq in Hne. rewrite Hne. reflexivity.
Qed.

Lemma findOwnedFile_owner (fileId caller : string) (file : FileRecord)
    (w : World Cloud) :
  files (db w) !! fileId = Some file -> userId file = caller ->
  FilesService.findOwnedFile fileId caller w = (Returned file, w).
Proof.
  intros Hf <-. unfold FilesService.findOwnedFile, Prisma.file_findUnique, bind, getDb, ret.
  simpl. rewrite Hf, String.eqb_refl. reflexivity.
Qed.

End WithCloud.
End OwnershipFacts.

(** C9.  When the record with id [fileId] is absent, or is there and
    owned by a user other than the caller, the metadata read, the
    download (through either revision of the storage service, or any
    other) and the delete all throw the same
    [NotFoundException] ('File not found') and leave the world as
    it was: no provider is called, nothing is written.  The two cases
    give the caller the same response; no Forbidden is ever raised. *)
Theorem non_owner_gets_not_found {Cloud : Type}
    (storageService : StorageService.t Cloud)
    (storageService_downloadFile :
       StorageService.t Cloud -> string -> string -> M FileDownloadResult)
    (fileId caller : string) (w : World Cloud) :
  (files (db w) !! fileId = None \/
   exists file, files (db w) !! fileId = Some file /\ userId file <> caller) ->
  FilesService.getFile fileId caller w =
    (Thrown (NotFoundException "File not found"), w) /\
  FilesService.getFileForDownload storageService storageService_downloadFile
    fileId caller w =
    (Thrown (NotFoundException "File not found"), w) /\
  FilesService.deleteFile storageService fileId caller w =
    (Thrown (NotFoundException "File not found"), w).
Proof.
  intros H.
  pose proof (OwnershipFacts.findOwnedFile_not_found fileId caller w H) as Hfind.
  unfold FilesService.getFile, FilesService.getFileForDownload,
    FilesService.deleteFile.
  repeat split; unfold bind at 1; rewrite Hfind; reflexivity.
Qed.

Lemma non_owner_gets_not_found_witness :
  (exists file, files (db InMemoryCloud.office) !! "f1" = Some file /\
                userId file <> "u2") /\
  FilesService.getFile "f1" "u2" InMemoryCloud.office =
    (Thrown (NotFoundException "File not found"), InMemoryCloud.office) /\
  FilesService.getFile "f9" "u2" InMemoryCloud.office =
    (Thrown (NotFoundException "File not found"), InMemoryCloud.office) /\
  FilesService.deleteFile InMemoryCloud.storageService "f1" "u2" InMemoryCloud.office =
    (Thrown (NotFoundException "File not found"), InMemoryCloud.office).
Proof.
  assert (Hother : exists file, files (db InMemoryCloud.office) !! "f1" = Some file /\
                                userId file <> "u2").
  { exists InMemoryCloud.aliceFile. split; [reflexivity | discriminate]. }
  split; [exact Hother|].
  split; [|split].
  - apply (non_owner_gets_not_found InMemoryCloud.storageService
             StorageService.downloadFile "f1" "u2" InMemoryCloud.office).
    right. exact Hother.
  - apply (non_owner_gets_not_found InMemoryCloud.storageService
             StorageService.downloadFile "f9" "u2" InMemoryCloud.office).
    left. reflexivity.
  - apply (non_owner_gets_not_found InMemoryCloud.storageService
             StorageService.downloadFile "f1" "u2" InMemoryCloud.office).
    right. exact Hother.
Defined.

(* ===================================================================== *)
(** * StatsService.getDailyUsageStats *)
(* ===================================================================== *)

Module StatsFacts.
Section WithCloud.
Context {Cloud : Type}.

Lemma isAdmin_run (userId : string) (w : World Cloud) :
  UsersService.isAdmin userId w =
  match users (db w) !! userId with
  | Some u => (Returned (isAdmin u), w)
  | None => (Thrown (BadRequestException "User not found"), w)
  end.
Proof.
  unfold UsersService.isAdmin, Prisma.user_findUnique, bind, getDb, ret. simpl.
  destruct (users (db w) !! userId); reflexivity.
Qed.

(** The report never throws. *)
Lemma getDailyUsageStats_returns (w : World Cloud) :
  exists rows, UsersService.getDailyUsageStats w = (Returned rows, tick w).
Proof.
  unfold UsersService.getDailyUsageStats, Prisma.usageHistory_findMany, bind,
    newDateNow, getDb, ret. simpl. eexists. reflexivity.
Qed.

Lemma stats_run (userId : string) (w : World Cloud) :
  exists rows,
    UsersService.getDailyUsageStats w = (Returned rows, tick w) /\
    StatsService.getDailyUsageStats userId w =
    match users (db w) !! userId with
    | None => (Thrown (BadRequestException "User not found"), w)
    | Some u =>
        if isAdmin u
        then (Returned (map (fun stat => mkDailyUsageStat (fst stat) (snd stat)
                                           (snd stat, 1024 * 1024)) rows), tick w)
        else (Thrown (ForbiddenException "Admin access required"), w)
    end.
Proof.
  destruct (getDailyUsageStats_returns w) as (rows & Hrows).
  exists rows. split; [exact Hrows|].
  unfold StatsService.getDailyUsageStats, bind at 1. rewrite isAdmin_run.
  destruct (users (db w) !! userId) as [u|]; [|reflexivity].
  destruct (isAdmin u); simpl; [|reflexivity].
  unfold bind. rewrite Hrows. reflexivity.
Qed.

End WithCloud.
End StatsFacts.

(** C10.  A caller that exists and is not an administrator gets
    [ForbiddenException] ('Admin access required') from
    [getDailyUsageStats] and nothing else happens; an administrator gets
    the report; and whoever gets a report is an existing administrator,
    the report being the (username, usage) rows of
    [UsersService.getDailyUsageStats]. *)
Theorem daily_usage_stats_admin_only {Cloud : Type}
    (userId : string) (w : World Cloud) :
  let out := StatsService.getDailyUsageStats userId w in
  (forall u, users (db w) !! userId = Some u -> isAdmin u = false ->
     out = (Thrown (ForbiddenException "Admin access required"), w)) /\
  (forall u, users (db w) !! userId = Some u -> isAdmin u = true ->
     exists stats, fst out = Returned stats) /\
  (forall stats, fst out = Returned stats ->
     (exists u, users (db w) !! userId = Some u /\ isAdmin u = true) /\
     fst (UsersService.getDailyUsageStats w) =
       Returned (map (fun s => (stat_username s, stat_usageBytes s)) stats)).
Proof.
  intros out. subst out.
  destruct (StatsFacts.stats_run userId w) as (rows & Hrows & ->).
  rewrite Hrows. simpl.
  destruct (users (db w) !! userId) as [u0|] eqn:Hu.
  - destruct (isAdmin u0) eqn:Hadmin; simpl.
    + split; [|split].
      * intros u Heq Hno. injection Heq as <-. congruence.
      * intros u _ _. eexists. reflexivity.
      * intros stats Hs. injection Hs as <-.
        split; [exists u0; split; [reflexivity | exact Hadmin]|].
        rewrite map_map. simpl. f_equal. symmetry.
        erewrite map_ext; [apply map_id|]. intros [a b]. reflexivity.
    + split; [|split].
      * intros u _ _. reflexivity.
      * intros u Heq Hyes. injection Heq as <-. congruence.
      * intros stats Hs. discriminate Hs.
  - split; [|split].
    + intros u Heq. discriminate Heq.
    + intros u Heq. discriminate Heq.
    + intros stats Hs. discriminate Hs.
Qed.

Lemma daily_usage_stats_admin_only_witness :
  users (db InMemoryCloud.office) !! "u2" = Some InMemoryCloud.bob /\
  isAdmin InMemoryCloud.bob = false /\
  StatsService.getDailyUsageStats "u2" InMemoryCloud.office =
    (Thrown (ForbiddenException "Admin access required"), InMemoryCloud.office) /\
  exists stats,
    fst (StatsService.getDailyUsageStats "u3" InMemoryCloud.office) = Returned stats.
Proof.
  split; [reflexivity|]. split; [reflexivity|]. split.
  - apply (proj1 (daily_usage_stats_admin_only "u2" InMemoryCloud.office)
             InMemoryCloud.bob); reflexivity.
  - apply (proj1 (proj2 (daily_usage_stats_admin_only "u3" InMemoryCloud.office))
             InMemoryCloud.carol); reflexivity.
Defined.

(* ===================================================================== *)
(** * FilesService.uploadFile: the quota check *)
(* ===================================================================== *)

Module UploadFacts.
Section WithCloud.
Context {Cloud : Type}.

(** An upload whose quota check says no stops right there. *)
Lemma uploadFile_rejected (storageService : StorageService.t Cloud)
    (file : MulterFile) (userId : string) (w w1 : World Cloud) :
  UsersService.checkUserStorageQuota userId (mf_size file) w = (Returned false, w1) ->
  FilesService.uploadFile storageService file userId w =
  (Thrown (BadRequestException "Storage quota exceeded (5GB limit)"), w1).
Proof.
  intros Hcheck. unfold FilesService.uploadFile, bind at 1. rewrite Hcheck.
  reflexivity.
Qed.

End WithCloud.
End UploadFacts.

(** C3.  When the quota check returns false for the upload of [file] by
    an existing user, [uploadFile] throws [BadRequestException]
    ('Storage quota exceeded (5GB limit)') and the world is the one the
    rollover of the check left: no provider was called, the back ends,
    the file records and the usage history are as before, and if no
    rollover was due the whole database is unchanged, the user's usage
    included.  The check compares doubles; when the usage left by the
    rollover and the capacity are safe integers, its false means that
    the usage plus the size of the file exceeds the capacity. *)
Theorem upload_over_quota_is_rejected {Cloud : Type}
    (storageService : StorageService.t Cloud) (file : MulterFile)
    (userId : string) (u : User) (w : World Cloud) :
  users (db w) !! userId = Some u ->
  fst (UsersService.checkUserStorageQuota userId (mf_size file) w) = Returned false ->
  let now := clock w (clockReads w) in
  let out := FilesService.uploadFile storageService file userId w in
  fst out = Thrown (BadRequestException "Storage quota exceeded (5GB limit)") /\
  snd out = snd (UsersService.checkAndResetQuotaIfNeeded userId
                   (nextQuotaResetDate u) w) /\
  calls (snd out) = calls w /\ cloud (snd out) = cloud w /\
  files (db (snd out)) = files (db w) /\
  usageHistory (db (snd out)) = usageHistory (db w) /\
  (exists u1, users (db (snd out)) !! userId = Some u1 /\
              (JsNumber.isSafeInteger (monthlyUsage u1) ->
               JsNumber.isSafeInteger (maxStorageCapacity u) ->
               maxStorageCapacity u < monthlyUsage u1 + mf_size file)) /\
  (UsersService.resetIsDue (nextQuotaResetDate u) now = false -> db (snd out) = db w).
Proof.
  intros Hu Hfalse now out.
  destruct (QuotaCallers.checkUserStorageQuota_run userId (mf_size file) u w Hu)
    as (w1 & u1 & Hrun & Hu1 & Hcheck).
  rewrite Hcheck in Hfalse. simpl in Hfalse. injection Hfalse as Hleb.
  rewrite Hleb in Hcheck.
  subst out. rewrite (UploadFacts.uploadFile_rejected storageService file userId w w1 Hcheck).
  rewrite Hrun. simpl.
  destruct (QuotaCallers.checkAndReset_returns userId u w Hu)
    as (w1' & u1' & Hrun' & _ & _ & Hfiles & Hhist & Hcalls & Hcloud & _).
  rewrite Hrun in Hrun'. injection Hrun' as <-.
  split; [reflexivity|]. split; [reflexivity|].
  split; [exact Hcalls|]. split; [exact Hcloud|]. split; [exact Hfiles|].
  split; [exact Hhist|]. split.
  - exists u1. split; [exact Hu1|]. intros Hsafe Hcap.
    rewrite (JsNumberFacts.safe_comparison _ _ _ Hsafe Hcap) in Hleb. lia.
  - intros Hdue. rewrite (QuotaFacts.checkAndReset_not_due userId _ w Hdue) in Hrun.
    injection Hrun as <-. reflexivity.
Qed.

Lemma upload_over_quota_is_rejected_witness :
  let file := mkMulterFile "b.txt" "text/plain" 500 InMemoryCloud.hello in
  let out := FilesService.uploadFile InMemoryCloud.storageService file "u1"
               InMemoryCloud.aliceInJanuary in
  users (db InMemoryCloud.aliceInJanuary) !! "u1" = Some InMemoryCloud.alice /\
  monthlyUsage InMemoryCloud.alice = 600 /\
  maxStorageCapacity InMemoryCloud.alice = 1000 /\
  fst out = Thrown (BadRequestException "Storage quota exceeded (5GB limit)") /\
  calls (snd out) = [] /\
  db (snd out) = db InMemoryCloud.aliceInJanuary.
Proof.
  intros file out.
  destruct (upload_over_quota_is_rejected InMemoryCloud.storageService file "u1"
              InMemoryCloud.alice InMemoryCloud.aliceInJanuary eq_refl eq_refl)
    as (Hthrown & _ & Hcalls & _ & _ & _ & _ & Hdb).
  split; [reflexivity|]. split; [reflexivity|]. split; [reflexivity|].
  split; [exact Hthrown|]. split; [exact Hcalls|]. apply Hdb. reflexivity.
Defined.

(* ===================================================================== *)
(** * FilesService.deleteFile: a storage delete that fails *)
(* ===================================================================== *)

Module DeleteFacts.
Section WithCloud.
Context {Cloud : Type}.

(** Whatever the adapter's [deleteFile] returns, true or false, the
    owner's delete goes on: it returns true, removes the record and
    books the negative delta. *)
Lemma deleteFile_whatever_the_adapter_returns
    (storageService : StorageService.t Cloud) (fileId caller : string)
    (file : FileRecord) (u : User) (p : StorageProvider Cloud) (b : bool)
    (c' : Cloud) (w : World Cloud) :
  files (db w) !! fileId = Some file -> userId file = caller ->
  users (db w) !! caller = Some u ->
  StorageService.getProviderByName storageService (cloudProvider file) = Some p ->
  deleteFile p (cloudPath file) (cloud w) = (Returned b, c') ->
  exists w' : World Cloud,
    FilesService.deleteFile storageService fileId caller w = (Returned true, w') /\
    files (db w') = base.delete fileId (files (db w)) /\
    calls w' = (calls w ++ [CallDeleteFile p (cloudPath file) (Returned b)])%list.
Proof.
  intros Hf Hown Hu Hp Hdel.
  set (wA := mkWorld (db w) c' (clock w) (clockReads w) (uuids w) (uuidCount w)
               (env_API_URL w)
               (calls w ++ [CallDeleteFile p (cloudPath file) (Returned b)])%list).
  set (wB := setDb (Prisma.withFiles (fun fs => base.delete fileId fs) (db wA)) wA).
  assert (HuB : users (db wB) !! caller = Some u) by exact Hu.
  destruct (QuotaCallers.updateUserStorageUsage_run caller (file_size file * -1) u wB HuB)
    as (w1 & u1 & Hrun & Hu1 & Hup).
  destruct (QuotaCallers.checkAndReset_returns caller u wB HuB)
    as (w1' & _ & Hrun' & _ & _ & Hfiles & _ & Hcalls & _).
  rewrite Hrun in Hrun'. injection Hrun' as <-.
  pose proof (QuotaCallers.recordAfterRollover_returns caller (file_size file * -1) u1 w1)
    as Hret.
  destruct (QuotaCallers.recordAfterRollover_effect caller (file_size file * -1) u1 w1)
    as (_ & Hfiles2 & Hcalls2 & _).
  exists (snd (Rollover.recordAfterRollover caller (file_size file * -1) u1 w1)).
  split; [|split].
  - unfold FilesService.deleteFile, bind at 1.
    rewrite (OwnershipFacts.findOwnedFile_owner fileId caller file w Hf Hown).
    unfold bind at 1.
    unfold StorageService.deleteFile. rewrite Hp.
    unfold StorageService.askDeleteFile, callProvider. rewrite Hdel.
    fold wA.
    unfold bind at 1. unfold Prisma.file_delete, bind at 1. simpl.
    change (files (db w) !! fileId) with (files (db wA) !! fileId).
    assert (HfA : files (db wA) !! fileId = Some file) by exact Hf.
    rewrite HfA. unfold putDb.
    change (setDb (Prisma.withFiles (fun fs => base.delete fileId fs) (db w)) wA)
      with wB.
    unfold bind at 1. rewrite Hup.
    destruct (Rollover.recordAfterRollover _ _ _ _) as [[[]|e] w2];
      [reflexivity | discriminate Hret].
  - rewrite Hfiles2, Hfiles. reflexivity.
  - rewrite Hcalls2, Hcalls. reflexivity.
Qed.

End WithCloud.
End DeleteFacts.

(** C4.  The code does not keep the record when the storage delete
    fails.  Alice deletes her file while S3, which holds its object, is
    unreachable.  The adapter's [deleteFile] catches the error and
    returns false, [StorageService.deleteFile] passes the false on, and
    [FilesService.deleteFile] does not look at it: it returns true, the
    record is gone and Alice's usage went from 600 to 0, while the
    object is still in the bucket. *)
Lemma deleteFile_removes_record_after_failed_storage_delete :
  let out := FilesService.deleteFile InMemoryCloud.storageService "f1" "u1"
               InMemoryCloud.officeDuringOutage in
  files (db InMemoryCloud.officeDuringOutage) !! "f1" = Some InMemoryCloud.aliceFile /\
  fst out = Returned true /\
  calls (snd out) =
    [CallDeleteFile InMemoryCloud.awsProvider "uploads/u1/a.txt" (Returned false)] /\
  files (db (snd out)) !! "f1" = None /\
  monthlyUsage <$> users (db (snd out)) !! "u1" = Some 0 /\
  InMemoryCloud.s3_objects (cloud (snd out)) !! "uploads/u1/a.txt" =
    Some (InMemoryCloud.hello, "text/plain").
Proof.
  vm_compute. repeat split.
Qed.

(* ===================================================================== *)
(** * The daily usage ledger *)
(* ===================================================================== *)

Module LedgerFacts.
Import DailyLedger.

Lemma isTodaysRow_spec (userId : string) (now : Z) (r : UsageHistory) :
  UsersService.isTodaysRow userId (JsDate.setHours0 now) r = true <->
  uh_userId r = userId /\ JsDate.Day (date r) = JsDate.Day now.
Proof.
  unfold UsersService.isTodaysRow, JsDate.setHours0, JsDate.Day, JsDate.msPerDay.
  rewrite !andb_true_iff, String.eqb_eq, Z.leb_le, Z.ltb_lt.
  split.
  - intros ((Hu & H1) & H2). split; [exact Hu|]. JsDateFacts.zdiv.
  - intros (Hu & Hd). split; [split; [exact Hu|]|]; JsDateFacts.zdiv.
Qed.

Lemma Day_setHours0 (now : Z) : JsDate.Day (JsDate.setHours0 now) = JsDate.Day now.
Proof. unfold JsDate.setHours0, JsDate.Day, JsDate.msPerDay. JsDateFacts.zdiv. Qed.

(** Incrementing rows in place keeps their identities. *)
Lemma keys_after_increment (id : string) (fileSize : Z) (rows : list UsageHistory) :
  map entryKey
    (map (fun r => if String.eqb (uh_id r) id
                   then UsersService.incrementUsageBytes fileSize r else r) rows) =
  map entryKey rows.
Proof.
  rewrite map_map. apply map_ext. intros r.
  destruct (String.eqb (uh_id r) id); reflexivity.
Qed.

(** A day without a row of the user's has a fresh identity. *)
Lemma fresh_key (userId : string) (now : Z) (rows : list UsageHistory) :
  List.find (UsersService.isTodaysRow userId (JsDate.setHours0 now)) rows = None ->
  ~ In (userId, JsDate.Day now) (map entryKey rows).
Proof.
  intros Hnone Hin. apply in_map_iff in Hin as (r & Hkey & Hr).
  pose proof (find_none _ _ Hnone r Hr) as Hfalse.
  unfold entryKey in Hkey. injection Hkey as Hu Hd.
  assert (UsersService.isTodaysRow userId (JsDate.setHours0 now) r = true)
    by (apply isTodaysRow_spec; split; assumption).
  congruence.
Qed.

Section WithCloud.
Context {Cloud : Type}.
Implicit Types (w : World Cloud).

Lemma preserves_bind {A B : Type} (P : World Cloud -> Prop) (m : M A) (k : A -> M B) :
  preserves P m -> (forall a, preserves P (k a)) -> preserves P (bind m k).
Proof.
  intros Hm Hk w Hw. unfold bind. specialize (Hm w Hw).
  destruct (m w) as [[a|e] w1]; simpl in *; [apply Hk; exact Hm | exact Hm].
Qed.

Lemma preserves_same_db {A : Type} (m : M A) :
  (forall w, db (snd (m w)) = db w) -> preserves (Cloud := Cloud) ledgerIsUnique m.
Proof. intros H w Hw. unfold ledgerIsUnique. rewrite H. exact Hw. Qed.

Lemma preserves_same_history {A : Type} (m : M A) :
  (forall w, usageHistory (db (snd (m w))) = usageHistory (db w)) ->
  preserves (Cloud := Cloud) ledgerIsUnique m.
Proof. intros H w Hw. unfold ledgerIsUnique. rewrite H. exact Hw. Qed.

(** Recording a delta keeps the ledger unique. *)
Lemma recordAfterRollover_unique (userId : string) (fileSize : Z) (u1 : User) w1 :
  ledgerIsUnique w1 ->
  ledgerIsUnique (snd (Rollover.recordAfterRollover userId fileSize u1 w1)).
Proof.
  unfold ledgerIsUnique, oneEntryPerUserAndDay, Rollover.recordAfterRollover.
  intros Hw. cbv zeta.
  destruct (find _ _) as [r|] eqn:Hfind.
  - unfold Prisma.usageHistory_update, bind. simpl.
    destruct (existsb _ _); simpl; [|exact Hw].
    rewrite keys_after_increment. exact Hw.
  - unfold Prisma.usageHistory_create, bind. simpl.
    rewrite map_app. simpl. unfold entryKey at 2. simpl.
    rewrite Day_setHours0.
    apply NoDup_app. split; [exact Hw|]. split.
    + intros k Hk Hin. apply list_elem_of_In in Hk, Hin.
      destruct Hin as [<- | []].
      exact (fresh_key userId _ _ Hfind Hk).
    + apply NoDup_singleton.
Qed.

Lemma updateUserStorageUsage_unique (userId : string) (fileSize : Z) :
  preserves (Cloud := Cloud) ledgerIsUnique (UsersService.updateUserStorageUsage userId fileSize).
Proof.
  intros w Hw. destruct (users (db w) !! userId) as [u|] eqn:Hu.
  - destruct (QuotaCallers.updateUserStorageUsage_run userId fileSize u w Hu)
      as (w1 & u1 & Hrun & _ & ->).
    apply recordAfterRollover_unique.
    destruct (QuotaCallers.checkAndReset_returns userId u w Hu)
      as (w1' & _ & Hrun' & _ & _ & _ & Hhist & _).
    rewrite Hrun in Hrun'. injection Hrun' as <-.
    unfold ledgerIsUnique. rewrite Hhist. exact Hw.
  - unfold UsersService.updateUserStorageUsage, Prisma.user_findUnique, bind, getDb, ret.
    simpl. rewrite Hu. exact Hw.
Qed.

Lemma checkUserStorageQuota_unique (userId : string) (fileSize : Z) :
  preserves (Cloud := Cloud) ledgerIsUnique (UsersService.checkUserStorageQuota userId fileSize).
Proof.
  intros w Hw. destruct (users (db w) !! userId) as [u|] eqn:Hu.
  - destruct (QuotaCallers.checkUserStorageQuota_run userId fileSize u w Hu)
      as (w1 & u1 & Hrun & _ & ->).
    destruct (QuotaCallers.checkAndReset_returns userId u w Hu)
      as (w1' & _ & Hrun' & _ & _ & _ & Hhist & _).
    rewrite Hrun in Hrun'. injection Hrun' as <-.
    unfold ledgerIsUnique. simpl. rewrite Hhist. exact Hw.
  - unfold UsersService.checkUserStorageQuota, Prisma.user_findUnique, bind, getDb, ret.
    simpl. rewrite Hu. exact Hw.
Qed.

Lemma storage_uploadFile_unique (storageService : StorageService.t Cloud)
    (file : Buffer) (key mimetype : string) :
  preserves (Cloud := Cloud) ledgerIsUnique (StorageService.uploadFile storageService file key mimetype).
Proof.
  apply preserves_same_db. intros w.
  pose proof (OrchestratorFacts.uploadFileOver_run
                (StorageService.providers storageService) file key mimetype w) as H.
  unfold StorageService.uploadFile, Failover.FailoverRun in *.
  destruct (StorageService.uploadFileOver _ _ _ _ _) as [r w']. tauto.
Qed.

Lemma storage_deleteFile_unique (storageService : StorageService.t Cloud)
    (key provider : string) :
  preserves (Cloud := Cloud) ledgerIsUnique (StorageService.deleteFile storageService key provider).
Proof.
  apply preserves_same_db. intros w. unfold StorageService.deleteFile.
  destruct (StorageService.getProviderByName _ _); [|reflexivity].
  unfold StorageService.askDeleteFile, callProvider.
  destruct (deleteFile _ _ _). reflexivity.
Qed.

Lemma file_create_unique (name originalName : string) (size : Z)
    (mimeType cloudProvider cloudPath userId : string) :
  preserves (Cloud := Cloud) ledgerIsUnique
    (Prisma.file_create name originalName size mimeType cloudProvider cloudPath userId).
Proof.
  apply preserves_same_history. intros w.
  unfold Prisma.file_create, bind, freshId, dbNow, getDb, putDb, ret. simpl.
  destruct (files (db w) !! _); reflexivity.
Qed.

Lemma file_delete_unique (id : string) :
  preserves (Cloud := Cloud) ledgerIsUnique (Prisma.file_delete id).
Proof.
  apply preserves_same_history. intros w.
  unfold Prisma.file_delete, bind, getDb, putDb. simpl.
  destruct (files (db w) !! _); reflexivity.
Qed.

Lemma findOwnedFile_unique (fileId caller : string) :
  preserves (Cloud := Cloud) ledgerIsUnique (FilesService.findOwnedFile fileId caller).
Proof.
  apply preserves_same_db. intros w.
  unfold FilesService.findOwnedFile, Prisma.file_findUnique, bind, getDb, ret. simpl.
  destruct (files (db w) !! fileId) as [f|]; [|reflexivity].
  destruct (negb _); reflexivity.
Qed.

End WithCloud.

Create HintDb ledger.
#[export] Hint Resolve checkUserStorageQuota_unique updateUserStorageUsage_unique
  storage_uploadFile_unique storage_deleteFile_unique file_create_unique
  file_delete_unique findOwnedFile_unique : ledger.

(** One step of a service method: the first computation keeps the
    ledger unique, go on with the rest. *)
Ltac through_step :=
  apply preserves_bind;
  [ solve [ auto with ledger | apply preserves_same_db; reflexivity ] | intros ? ].

Ltac stops_here := intros ? ?; assumption.

Section Requests.
Context {Cloud : Type}.

Lemma uploadFile_unique (storageService : StorageService.t Cloud)
    (file : MulterFile) (userId : string) :
  preserves (Cloud := Cloud) ledgerIsUnique
    (FilesService.uploadFile storageService file userId).
Proof.
  unfold FilesService.uploadFile. through_step.
  destruct (negb _); [stops_here|].
  do 4 through_step. stops_here.
Qed.

Lemma deleteFile_unique (storageService : StorageService.t Cloud)
    (fileId userId : string) :
  preserves (Cloud := Cloud) ledgerIsUnique
    (FilesService.deleteFile storageService fileId userId).
Proof.
  unfold FilesService.deleteFile. do 4 through_step. stops_here.
Qed.

End Requests.
End LedgerFacts.

(** C8, as the code has it.  If the usage history holds at most one entry
    per user and calendar day, it still does after any sequence of
    upload and delete requests, failed ones included.  (The bytes of an
    entry are the sum of the day's deltas, and a delete records a
    negative delta: entries can be negative.) *)
Theorem ledger_has_one_entry_per_user_and_day {Cloud : Type}
    (storageService : StorageService.t Cloud) (reqs : list Request)
    (w : World Cloud) :
  DailyLedger.oneEntryPerUserAndDay (usageHistory (db w)) ->
  DailyLedger.oneEntryPerUserAndDay
    (usageHistory (db (Session.handleAll storageService reqs w))).
Proof.
  revert w. induction reqs as [|req reqs IH]; intros w Hw; [exact Hw|].
  simpl. apply IH. destruct req as [file userId | fileId userId]; simpl.
  - apply (LedgerFacts.uploadFile_unique storageService file userId w Hw).
  - apply (LedgerFacts.deleteFile_unique storageService fileId userId w Hw).
Qed.

Lemma ledger_has_one_entry_per_user_and_day_witness :
  let reqs := [UploadRequest InMemoryCloud.report "u1"; DeleteRequest "uuid-1" "u1"] in
  DailyLedger.oneEntryPerUserAndDay (usageHistory (db InMemoryCloud.twoDays)) /\
  DailyLedger.oneEntryPerUserAndDay
    (usageHistory (db (Session.handleAll InMemoryCloud.storageService reqs
                         InMemoryCloud.twoDays))).
Proof.
  intros reqs.
  assert (H0 : DailyLedger.oneEntryPerUserAndDay
                 (usageHistory (db InMemoryCloud.twoDays))) by constructor.
  split; [exact H0|].
  apply (ledger_has_one_entry_per_user_and_day InMemoryCloud.storageService reqs
           InMemoryCloud.twoDays H0).
Defined.

(** C8 fails in its second half.  Alice uploads 400 bytes on 16 January
    and deletes the file on the 17th: the ledger, empty before, then
    holds 400 for the 16th and -400 for the 17th. *)
Lemma ledger_entry_negative_counterexample :
  let reqs := [UploadRequest InMemoryCloud.report "u1"; DeleteRequest "uuid-1" "u1"] in
  let rows := usageHistory (db (Session.handleAll InMemoryCloud.storageService reqs
                                  InMemoryCloud.twoDays)) in
  usageHistory (db InMemoryCloud.twoDays) = [] /\
  map (fun r => (uh_userId r, JsDate.getDate (date r), usageBytes r)) rows =
    [("u1", 16, 400); ("u1", 17, -400)] /\
  ~ DailyLedger.neverNegative rows.
Proof.
  intros reqs rows.
  assert (Hrows : map (fun r => (uh_userId r, JsDate.getDate (date r), usageBytes r)) rows =
                  [("u1", 16, 400); ("u1", 17, -400)]) by (vm_compute; reflexivity).
  split; [reflexivity|]. split; [exact Hrows|].
  intros Hneg. unfold DailyLedger.neverNegative in Hneg.
  destruct rows as [|r1 [|r2 [|r3 rest]]]; try discriminate Hrows.
  injection Hrows as _ _ _ _ _ Hbytes.
  apply Forall_cons_iff in Hneg as (_ & Hneg).
  apply Forall_cons_iff in Hneg as (Hneg & _). lia.
Qed.

(* ===================================================================== *)
(** * The fallback tests of the repository, run on the model *)
(* ===================================================================== *)

Module RepositoryTests.
Import Mocks.

(** 'should fallback to GCP provider when AWS is unavailable': with
    [FailingAwsS3Provider] in front, the upload succeeds and the record
    names "gcp". *)
Example upload_falls_back_to_gcp :
  let service := StorageService.new FailingAwsS3Provider MockGcpStorageProvider in
  let out := FilesService.uploadFile service testFile "t1" (world nothingStored) in
  (exists dto, fst out = Returned dto /\
               dto_originalName dto = "test-fallback-file.txt" /\
               cloudProvider <$> files (db (snd out)) !! dto_id dto = Some "gcp") /\
  map (fun r => usageBytes r) (usageHistory (db (snd out))) = [2].
Proof.
  vm_compute. split; [|reflexivity]. eexists. repeat split.
Qed.

(** 'should return service unavailable when AWS download fails': the
    record names "aws", the S3 mock throws from every download and the
    GCS mock holds a copy.  The revision without failover answers with
    the e-mail notice, as the test expects. *)
Example download_failure_gives_the_email_notice :
  let service := StorageService.new AwsDownloadFailProvider MockGcpStorageProvider in
  fst (StorageService.downloadFileOrNotify service "uploads/t1/a.txt" "aws"
         (world sharedCopy)) =
  Thrown (ServiceUnavailableException
            "Storage provider is currently unavailable. The file will be sent to your registered email once service is restored.").
Proof. reflexivity. Qed.

(** The revision with failover returns the copy held by the GCS mock in
    the same test, so the test passes on the other revision only. *)
Example download_failure_with_failover_returns_the_copy :
  let service := StorageService.new AwsDownloadFailProvider MockGcpStorageProvider in
  exists r,
    fst (StorageService.downloadFile service "uploads/t1/a.txt" "aws"
           (world sharedCopy)) = Returned r /\
    stream r = [Byte.x68; Byte.x69] /\ mimetype r = "text/plain".
Proof. eexists. repeat split. Qed.

End RepositoryTests.

(* ===================================================================== *)
(** * The length of a quota cycle *)
(* ===================================================================== *)

Module CycleBounds.
Import JsDate JsDateFacts UsersService CycleFacts.

(** Outside the two-digit years, adding a month moves a date forward by
    the length of its month, less the days the clamp took off. *)
Lemma addOneMonth_distance (orig : Z) :
  legacyYear (getFullYear orig + (getMonth orig + 1) / 12) = false ->
  addOneMonth orig - orig =
  (monthLength (getFullYear orig) (getMonth orig) -
   (getDate orig - getDate (addOneMonth orig))) * msPerDay.
Proof.
  intros Hleg.
  pose proof (addOneMonth_fields orig) as F. cbv zeta in F.
  set (newYear := getFullYear orig + (getMonth orig + 1) / 12) in *.
  set (newMonth := (getMonth orig + 1) mod 12) in *.
  assert (Hc : constructorYear newYear = newYear)
    by (unfold constructorYear; rewrite Hleg; reflexivity).
  rewrite Hc in F.
  destruct F as (Fy & Fm & Fd & Fh & Fmi & Fs & Fms).
  destruct (month_fields_range orig) as (Hm & Hd).
  destruct (civil_fields orig) as (_ & Eo).
  destruct (civil_fields (addOneMonth orig)) as (_ & Er).
  rewrite Fy, Fm in Er.
  assert (Tr : TimeWithinDay (addOneMonth orig) = TimeWithinDay orig).
  { rewrite <- (MakeTime_getters orig), <- (MakeTime_getters (addOneMonth orig)).
    rewrite Fh, Fmi, Fs, Fms. reflexivity. }
  pose proof (Day_TimeWithinDay orig) as Do.
  pose proof (Day_TimeWithinDay (addOneMonth orig)) as Dr.
  rewrite Tr, <- Er in Dr. rewrite <- Eo in Do.
  pose proof (days_from_civil_month_start (getFullYear orig) (getMonth orig) Hm) as St.
  fold newYear newMonth in St.
  rewrite (days_from_civil_day (getFullYear orig)) in Do.
  rewrite (days_from_civil_day newYear) in Dr.
  unfold msPerDay in *. lia.
Qed.

(** The clamp never raises the day of the month, and leaves a day that
    every month has as it is. *)
Lemma addOneMonth_day (t : Z) :
  getDate (addOneMonth t) <= getDate t /\
  (getDate t <= 28 -> getDate (addOneMonth t) = getDate t).
Proof.
  destruct (addOneMonth_fields t) as (_ & _ & Fd & _).
  pose proof (monthLength_range
                (constructorYear (getFullYear t + (getMonth t + 1) / 12))
                ((getMonth t + 1) mod 12)).
  lia.
Qed.

Lemma addOneMonth_year_ge (t : Z) : getFullYear t <= getFullYear (addOneMonth t).
Proof.
  destruct (addOneMonth_fields t) as (Fy & _).
  destruct (month_fields_range t) as (Hm & _).
  pose proof (constructorYear_ge (getFullYear t + (getMonth t + 1) / 12)).
  assert (0 <= (getMonth t + 1) / 12) by zdiv. lia.
Qed.

Lemma not_legacy_from_100 (t : Z) :
  100 <= getFullYear t ->
  legacyYear (getFullYear t + (getMonth t + 1) / 12) = false.
Proof.
  intros H. destruct (month_fields_range t) as (Hm & _).
  assert (0 <= (getMonth t + 1) / 12) by zdiv.
  unfold legacyYear. apply andb_false_iff. right. lia.
Qed.

Lemma addOneMonth_at_most_31 (t : Z) :
  100 <= getFullYear t -> addOneMonth t <= t + 31 * msPerDay.
Proof.
  intros H. pose proof (addOneMonth_distance t (not_legacy_from_100 t H)) as D.
  pose proof (monthLength_range (getFullYear t) (getMonth t)).
  destruct (addOneMonth_day t) as (Hd & _).
  unfold msPerDay in *. lia.
Qed.

(** What the iterates of the roll-forward loop keep. *)
Lemma iter_addOneMonth_keeps (k : nat) (d : Z) :
  let r := Nat.iter k addOneMonth d in
  getHours r = getHours d /\ getMinutes r = getMinutes d /\
  getSeconds r = getSeconds d /\ getMilliseconds r = getMilliseconds d /\
  getDate r <= getDate d /\ (getDate d <= 28 -> getDate r = getDate d) /\
  getFullYear d <= getFullYear r.
Proof.
  induction k as [|k IH]; [simpl; repeat split; lia|].
  cbv zeta in *. rewrite Nat.iter_succ.
  destruct IH as (Ih & Imi & Is & Ims & Id & Id28 & Iy).
  destruct (addOneMonth_fields (Nat.iter k addOneMonth d))
    as (_ & _ & _ & Fh & Fmi & Fs & Fms).
  destruct (addOneMonth_day (Nat.iter k addOneMonth d)) as (Hd & Hd28).
  pose proof (addOneMonth_year_ge (Nat.iter k addOneMonth d)).
  repeat split; try congruence; lia.
Qed.

(** A date that is not due is left alone by the loop. *)
Lemma rollForward_not_due (d now : Z) : now < d -> rollForward d now = d.
Proof.
  intros H. unfold rollForward, loopBound. simpl.
  replace (d <=? now) with false by lia. reflexivity.
Qed.

(** The date helpers of [AuthService] are those of [UsersService]. *)
Lemma auth_daysInMonth_same (y m : Z) :
  AuthService.daysInMonth y m = daysInMonth y m.
Proof. unfold AuthService.daysInMonth, daysInMonth. reflexivity. Qed.

Lemma auth_addOneMonth_same (orig : Z) :
  AuthService.addOneMonth orig = addOneMonth orig.
Proof.
  unfold AuthService.addOneMonth, addOneMonth.
  rewrite auth_daysInMonth_same. reflexivity.
Qed.

Section WithCloud.
Context {Cloud : Type}.

(** The reset-check leaves the stored date rolled forward. *)
Lemma checkAndReset_stores_rollForward (userId : string) (u : User) (d : Z)
    (w : World Cloud) :
  users (db w) !! userId = Some u -> nextQuotaResetDate u = Some d ->
  exists u',
    users (db (snd (checkAndResetQuotaIfNeeded userId (nextQuotaResetDate u) w)))
      !! userId = Some u' /\
    nextQuotaResetDate u' = Some (rollForward d (clock w (clockReads w))).
Proof.
  intros Hu Hd.
  destruct (resetIsDue (nextQuotaResetDate u) (clock w (clockReads w))) eqn:Due.
  - rewrite (QuotaFacts.checkAndReset_due userId u w Hu Due).
    eexists. split; [apply lookup_insert_eq|].
    simpl. unfold Rollover.startOfRoll. rewrite Hd. reflexivity.
  - rewrite (QuotaFacts.checkAndReset_not_due userId _ w Due).
    exists u. split; [exact Hu|].
    rewrite Hd in *. simpl in Due.
    rewrite rollForward_not_due by lia. reflexivity.
Qed.

End WithCloud.
End CycleBounds.

(** X1.  Outside the two-digit years, [addOneMonth] moves a date forward
    by the length of its calendar month less the days the clamp took
    off: by 28 days at least and by 31 at most.  The copy of the
    function in [AuthService], which sets the first cycle of a new user,
    computes the same date. *)
Theorem addOneMonth_between_28_and_31_days (orig : Z) :
  JsDate.legacyYear (JsDate.getFullYear orig + (JsDate.getMonth orig + 1) / 12) = false ->
  let r := UsersService.addOneMonth orig in
  AuthService.addOneMonth orig = r /\
  r - orig =
    (JsDate.monthLength (JsDate.getFullYear orig) (JsDate.getMonth orig) -
     (JsDate.getDate orig - JsDate.getDate r)) * JsDate.msPerDay /\
  0 <= JsDate.getDate orig - JsDate.getDate r <= 3 /\
  orig + 28 * JsDate.msPerDay <= r <= orig + 31 * JsDate.msPerDay.
Proof.
  intros Hleg r. subst r.
  split; [apply CycleBounds.auth_addOneMonth_same|].
  split; [apply CycleBounds.addOneMonth_distance; exact Hleg|].
  pose proof (CycleBounds.addOneMonth_distance orig Hleg) as D.
  pose proof (CycleFacts.addOneMonth_grows orig) as G.
  destruct (CycleFacts.addOneMonth_fields orig) as (_ & _ & Fd & _).
  destruct (CycleFacts.month_fields_range orig) as (_ & Hd).
  pose proof (JsDateFacts.monthLength_range (JsDate.getFullYear orig)
                (JsDate.getMonth orig)) as Hml.
  pose proof (JsDateFacts.monthLength_range
                (JsDate.constructorYear
                   (JsDate.getFullYear orig + (JsDate.getMonth orig + 1) / 12))
                ((JsDate.getMonth orig + 1) mod 12)) as Hml'.
  unfold JsDate.msPerDay in *. lia.
Qed.

Lemma addOneMonth_between_28_and_31_days_witness :
  let orig := JsDate.newDate 2025 0 31 10 20 30 400 in
  JsDate.legacyYear (JsDate.getFullYear orig + (JsDate.getMonth orig + 1) / 12) = false /\
  UsersService.addOneMonth orig - orig = 28 * JsDate.msPerDay /\
  JsDate.getDate orig - JsDate.getDate (UsersService.addOneMonth orig) = 3.
Proof.
  pose proof (addOneMonth_between_28_and_31_days
                (JsDate.newDate 2025 0 31 10 20 30 400) eq_refl) as H.
  cbv zeta in H. destruct H as (_ & H & _).
  split; [reflexivity|].
  split; [rewrite H|]; vm_compute; reflexivity.
Defined.

(** X2.  A reset-check keeps the time of day of a stored reset instant
    and never raises its day of the month: the instant it leaves has the
    hours, minutes, seconds and milliseconds of the one it found, a day
    of the month that is no greater, and the same day of the month when
    that day is the 28th or earlier. *)
Theorem rollover_keeps_time_of_day {Cloud : Type} (w : World Cloud)
    (userId : string) (u : User) (d : Z) :
  users (db w) !! userId = Some u -> nextQuotaResetDate u = Some d ->
  exists (u' : User) (next : Z),
    users (db (snd (UsersService.checkAndResetQuotaIfNeeded userId
                      (nextQuotaResetDate u) w))) !! userId = Some u' /\
    nextQuotaResetDate u' = Some next /\
    JsDate.getHours next = JsDate.getHours d /\
    JsDate.getMinutes next = JsDate.getMinutes d /\
    JsDate.getSeconds next = JsDate.getSeconds d /\
    JsDate.getMilliseconds next = JsDate.getMilliseconds d /\
    JsDate.getDate next <= JsDate.getDate d /\
    (JsDate.getDate d <= 28 -> JsDate.getDate next = JsDate.getDate d).
Proof.
  intros Hu Hd.
  destruct (CycleBounds.checkAndReset_stores_rollForward userId u d w Hu Hd)
    as (u' & Hu' & Hn).
  exists u', (UsersService.rollForward d (clock w (clockReads w))).
  split; [exact Hu'|]. split; [exact Hn|].
  destruct (CycleFacts.rollForward_spec d (clock w (clockReads w))) as (k & -> & _).
  pose proof (CycleBounds.iter_addOneMonth_keeps k d) as K. cbv zeta in K.
  tauto.
Qed.

Lemma rollover_keeps_time_of_day_witness :
  users (db InMemoryCloud.aliceInMarch) !! "u1" = Some InMemoryCloud.alice /\
  nextQuotaResetDate InMemoryCloud.alice =
    Some (JsDate.newDate 2025 0 31 10 20 30 400) /\
  exists (u' : User) (next : Z),
    users (db (snd (UsersService.checkAndResetQuotaIfNeeded "u1"
                      (nextQuotaResetDate InMemoryCloud.alice)
                      InMemoryCloud.aliceInMarch))) !! "u1" = Some u' /\
    nextQuotaResetDate u' = Some next /\
    JsDate.getHours next = 10 /\ JsDate.getDate next <= 31.
Proof.
  split; [reflexivity|]. split; [reflexivity|].
  destruct (rollover_keeps_time_of_day InMemoryCloud.aliceInMarch "u1"
              InMemoryCloud.alice (JsDate.newDate 2025 0 31 10 20 30 400)
              eq_refl eq_refl)
    as (u' & next & Hu & Hn & Hh & _ & _ & _ & Hd & _).
  exists u', next. split; [exact Hu|]. split; [exact Hn|].
  split; [rewrite Hh | etransitivity; [exact Hd|]]; vm_compute; congruence.
Defined.

(** X3.  When a reset-check finds a stored reset instant that is due, of
    the year 100 or later, the instant it stores is strictly after the
    time the check read and at most 31 days after it: however many
    cycles were missed, the new cycle ends within a month. *)
Theorem rollover_next_reset_within_31_days {Cloud : Type} (w : World Cloud)
    (userId : string) (u : User) (d : Z) :
  users (db w) !! userId = Some u -> nextQuotaResetDate u = Some d ->
  100 <= JsDate.getFullYear d ->
  let now := clock w (clockReads w) in
  d <= now ->
  exists (u' : User) (next : Z),
    users (db (snd (UsersService.checkAndResetQuotaIfNeeded userId
                      (nextQuotaResetDate u) w))) !! userId = Some u' /\
    nextQuotaResetDate u' = Some next /\ monthlyUsage u' = 0 /\
    now < next <= now + 31 * JsDate.msPerDay.
Proof.
  intros Hu Hd Hy now Hdue.
  assert (Due : UsersService.resetIsDue (nextQuotaResetDate u) now = true)
    by (rewrite Hd; simpl; lia).
  pose proof (QuotaFacts.checkAndReset_due userId u w Hu Due) as Run.
  rewrite Run. simpl.
  eexists _, _. split; [apply lookup_insert_eq|].
  split; [reflexivity|]. split; [reflexivity|].
  unfold Rollover.startOfRoll. rewrite Hd. fold now.
  destruct (CycleFacts.rollForward_spec d now) as (k & -> & Hn & Hall).
  split; [exact Hn|].
  destruct k as [|k]; [simpl in Hn; lia|].
  rewrite Nat.iter_succ.
  pose proof (Hall k (Nat.lt_succ_diag_r k)) as Hk.
  pose proof (CycleBounds.iter_addOneMonth_keeps k d) as K. cbv zeta in K.
  pose proof (CycleBounds.addOneMonth_at_most_31 (Nat.iter k UsersService.addOneMonth d)).
  lia.
Qed.

Lemma rollover_next_reset_within_31_days_witness :
  users (db InMemoryCloud.aliceInMarch) !! "u1" = Some InMemoryCloud.alice /\
  100 <= JsDate.getFullYear (JsDate.newDate 2025 0 31 10 20 30 400) /\
  JsDate.newDate 2025 0 31 10 20 30 400 <= InMemoryCloud.mid_march_2025 /\
  exists (u' : User) (next : Z),
    users (db (snd (UsersService.checkAndResetQuotaIfNeeded "u1"
                      (nextQuotaResetDate InMemoryCloud.alice)
                      InMemoryCloud.aliceInMarch))) !! "u1" = Some u' /\
    nextQuotaResetDate u' = Some next /\ monthlyUsage u' = 0 /\
    InMemoryCloud.mid_march_2025 < next <=
      InMemoryCloud.mid_march_2025 + 31 * JsDate.msPerDay.
Proof.
  split; [reflexivity|].
  split; [vm_compute; congruence|]. split; [vm_compute; congruence|].
  apply (rollover_next_reset_within_31_days InMemoryCloud.aliceInMarch "u1"
           InMemoryCloud.alice (JsDate.newDate 2025 0 31 10 20 30 400)
           eq_refl eq_refl); vm_compute; congruence.
Defined.

(* ===================================================================== *)
(** * UsersService: the steps of the quota ledger *)
(* ===================================================================== *)

Module UsageFacts.
Import UsersService Rollover.

Section WithCloud.
Context {Cloud : Type}.
Implicit Types (w : World Cloud) (u : User).

(** One reset-check, with everything it leaves as it was. *)
Lemma check_step (userId : string) u w :
  users (db w) !! userId = Some u ->
  exists (w1 : World Cloud) (u1 : User),
    checkAndResetQuotaIfNeeded userId (nextQuotaResetDate u) w = (Returned tt, w1) /\
    users (db w1) = <[userId := u1]> (users (db w)) /\
    Accounts.checkedAt (clock w (clockReads w)) u u1 /\
    (resetIsDue (nextQuotaResetDate u) (clock w (clockReads w)) = false ->
     w1 = tick w) /\
    files (db w1) = files (db w) /\ usageHistory (db w1) = usageHistory (db w) /\
    calls w1 = calls w /\ cloud w1 = cloud w /\ uuidCount w1 = uuidCount w /\
    uuids w1 = uuids w /\ clock w1 = clock w /\ env_API_URL w1 = env_API_URL w /\
    (clockReads w < clockReads w1)%nat.
Proof.
  intros Hu. unfold Accounts.checkedAt.
  destruct (resetIsDue (nextQuotaResetDate u) (clock w (clockReads w))) eqn:Hdue.
  - rewrite (QuotaFacts.checkAndReset_due userId u w Hu Hdue).
    destruct (CycleFacts.rollForward_spec (startOfRoll u w) (clock w (clockReads w)))
      as (k & Hk & Hafter & _).
    eexists _, _. split; [reflexivity|].
    unfold afterReset. simpl.
    split; [reflexivity|].
    split; [eexists; split; [reflexivity | rewrite Hk; exact Hafter]|].
    split; [discriminate|].
    destruct (nextQuotaResetDate u); simpl; repeat split; lia.
  - rewrite (QuotaFacts.checkAndReset_not_due userId _ w Hdue).
    exists (tick w), u. split; [reflexivity|]. simpl.
    split; [symmetry; apply insert_id; exact Hu|].
    repeat split; lia.
Qed.

End WithCloud.
End UsageFacts.

(** X4.  For an existing user the quota check returns the comparison
    the code makes in doubles: [Number] of the usage the rollover left,
    plus the size of the file, against [Number] of the capacity, the
    bound included.  When the cycle is over the rollover has set the
    usage to 0.  When that usage and the capacity are safe integers the
    answer is whether usage plus size is at most the capacity, whatever
    the size; beyond them it need not be.  The check changes nothing but
    what its rollover changes, and nothing in the database when no reset
    was due. *)
Theorem quota_check_compares_usage_after_rollover {Cloud : Type}
    (w : World Cloud) (userId : string) (u : User) (fileSize : Z) :
  users (db w) !! userId = Some u ->
  let now := clock w (clockReads w) in
  let out := UsersService.checkUserStorageQuota userId fileSize w in
  let usage :=
    if UsersService.resetIsDue (nextQuotaResetDate u) now then 0 else monthlyUsage u in
  fst out =
    Returned (JsNumber.add (JsNumber.ofBigInt usage) fileSize <=?
              JsNumber.ofBigInt (maxStorageCapacity u)) /\
  (JsNumber.isSafeInteger usage -> JsNumber.isSafeInteger (maxStorageCapacity u) ->
   fst out = Returned (usage + fileSize <=? maxStorageCapacity u)) /\
  snd out = snd (UsersService.checkAndResetQuotaIfNeeded userId
                   (nextQuotaResetDate u) w) /\
  (UsersService.resetIsDue (nextQuotaResetDate u) now = false -> snd out = tick w).
Proof.
  intros Hu now out usage. subst out.
  destruct (QuotaCallers.checkUserStorageQuota_run userId fileSize u w Hu)
    as (w1 & u1 & Hrun & Hu1 & ->).
  destruct (UsageFacts.check_step userId u w Hu)
    as (w1' & u1' & Hrun' & Hus & Hchk & Hnot & _).
  rewrite Hrun in Hrun'. injection Hrun' as <-.
  rewrite Hus, lookup_insert_eq in Hu1. injection Hu1 as ->.
  rewrite Hrun. simpl.
  assert (Husage : monthlyUsage u1 = usage).
  { unfold Accounts.checkedAt in Hchk. fold now in Hchk. subst usage.
    destruct (UsersService.resetIsDue _ now).
    - destruct Hchk as (next & -> & _). reflexivity.
    - subst u1. reflexivity. }
  rewrite Husage.
  split; [reflexivity|]. split; [|split; [reflexivity | exact Hnot]].
  intros Hsafe Hcap. rewrite (JsNumberFacts.safe_comparison _ _ _ Hsafe Hcap).
  reflexivity.
Qed.

Lemma quota_check_compares_usage_after_rollover_witness :
  let full := mkUser "u4" "dana" false (2 ^ 53)
                (Some (JsDate.newDate 2025 0 31 10 20 30 400)) (2 ^ 53) in
  let beyond := InMemoryCloud.world (mkDatabase {["u4" := full]} ∅ [])
                  InMemoryCloud.allUp (fun _ => InMemoryCloud.mid_january_2025) in
  users (db InMemoryCloud.aliceInJanuary) !! "u1" = Some InMemoryCloud.alice /\
  fst (UsersService.checkUserStorageQuota "u1" 400 InMemoryCloud.aliceInJanuary) =
    Returned true /\
  fst (UsersService.checkUserStorageQuota "u1" 401 InMemoryCloud.aliceInJanuary) =
    Returned false /\
  fst (UsersService.checkUserStorageQuota "u1" 1000 InMemoryCloud.aliceInMarch) =
    Returned true /\
  fst (UsersService.checkUserStorageQuota "u4" 1 beyond) = Returned true.
Proof.
  intros full beyond.
  assert (Hsafe : forall z, (- (2 ^ 53 - 1) <=? z) && (z <=? 2 ^ 53 - 1) = true ->
                            JsNumber.isSafeInteger z).
  { intros z Hz. apply andb_true_iff in Hz as (H1 & H2).
    apply Z.leb_le in H1, H2. split; assumption. }
  split; [reflexivity|].
  pose proof (quota_check_compares_usage_after_rollover InMemoryCloud.aliceInJanuary
                "u1" InMemoryCloud.alice 400 eq_refl) as (_ & H1 & _).
  pose proof (quota_check_compares_usage_after_rollover InMemoryCloud.aliceInJanuary
                "u1" InMemoryCloud.alice 401 eq_refl) as (_ & H2 & _).
  pose proof (quota_check_compares_usage_after_rollover InMemoryCloud.aliceInMarch
                "u1" InMemoryCloud.alice 1000 eq_refl) as (_ & H3 & _).
  pose proof (quota_check_compares_usage_after_rollover beyond "u4" full 1 eq_refl)
    as (H4 & _).
  rewrite H1, H2, H3, H4 by (apply Hsafe; vm_compute; reflexivity).
  repeat split.
Defined.

(** X5.  For a user id that no row has, [isAdmin], the quota check, the
    usage update, an upload and the usage report all throw
    [BadRequestException] ('User not found'), and nothing happens: the
    clock is not read, no provider is called, nothing is written. *)
Theorem unknown_user_is_a_bad_request {Cloud : Type}
    (storageService : StorageService.t Cloud) (w : World Cloud)
    (userId : string) (fileSize : Z) (file : MulterFile) :
  users (db w) !! userId = None ->
  UsersService.isAdmin userId w =
    (Thrown (BadRequestException "User not found"), w) /\
  UsersService.checkUserStorageQuota userId fileSize w =
    (Thrown (BadRequestException "User not found"), w) /\
  UsersService.updateUserStorageUsage userId fileSize w =
    (Thrown (BadRequestException "User not found"), w) /\
  FilesService.uploadFile storageService file userId w =
    (Thrown (BadRequestException "User not found"), w) /\
  StatsService.getDailyUsageStats userId w =
    (Thrown (BadRequestException "User not found"), w).
Proof.
  intros Hu.
  assert (Hq : forall size, UsersService.checkUserStorageQuota userId size w =
                 (Thrown (BadRequestException "User not found"), w)).
  { intros size.
    unfold UsersService.checkUserStorageQuota, bind, Prisma.user_findUnique, bind,
      getDb, ret. simpl. rewrite Hu. reflexivity. }
  assert (Ha : UsersService.isAdmin userId w =
                 (Thrown (BadRequestException "User not found"), w)).
  { unfold UsersService.isAdmin, bind, Prisma.user_findUnique, bind, getDb, ret.
    simpl. rewrite Hu. reflexivity. }
  split; [exact Ha|]. split; [apply Hq|]. split; [|split].
  - unfold UsersService.updateUserStorageUsage, bind, Prisma.user_findUnique, bind,
      getDb, ret. simpl. rewrite Hu. reflexivity.
  - unfold FilesService.uploadFile, bind at 1. rewrite Hq. reflexivity.
  - unfold StatsService.getDailyUsageStats, bind at 1. rewrite Ha. reflexivity.
Qed.

Lemma unknown_user_is_a_bad_request_witness :
  users (db InMemoryCloud.aliceInJanuary) !! "u9" = None /\
  FilesService.uploadFile InMemoryCloud.storageService InMemoryCloud.report "u9"
    InMemoryCloud.aliceInJanuary =
    (Thrown (BadRequestException "User not found"), InMemoryCloud.aliceInJanuary).
Proof.
  split; [reflexivity|].
  apply (unknown_user_is_a_bad_request InMemoryCloud.storageService
           InMemoryCloud.aliceInJanuary "u9" 0 InMemoryCloud.report eq_refl).
Defined.

(* ===================================================================== *)
(** * The sums of the daily ledger *)
(* ===================================================================== *)

Module LedgerSumFacts.
Import LedgerSums UsersService.

Lemma bookedOn_app (userId : string) (day : Z) (l1 l2 : list UsageHistory) :
  bookedOn userId day (l1 ++ l2)%list = bookedOn userId day l1 + bookedOn userId day l2.
Proof.
  unfold bookedOn. rewrite List.filter_app, map_app, fold_right_app.
  induction (map usageBytes (List.filter _ l1)) as [|x xs IH]; simpl; lia.
Qed.

Lemma bookedOn_cons (userId : string) (day : Z) (r : UsageHistory)
    (rows : list UsageHistory) :
  bookedOn userId day (r :: rows) =
  (if String.eqb (uh_userId r) userId && (JsDate.Day (date r) =? day)
   then usageBytes r else 0) + bookedOn userId day rows.
Proof.
  unfold bookedOn. simpl.
  destruct (String.eqb (uh_userId r) userId && (JsDate.Day (date r) =? day));
    simpl; lia.
Qed.

(** An update by an id no row has changes nothing. *)
Lemma increment_absent (id : string) (fileSize : Z) (rows : list UsageHistory) :
  ~ In id (map uh_id rows) ->
  map (fun r => if String.eqb (uh_id r) id then incrementUsageBytes fileSize r else r)
    rows = rows.
Proof.
  induction rows as [|x rows IH]; intros Hn; [reflexivity|].
  simpl in *. destruct (String.eqb_spec (uh_id x) id) as [He | Hne].
  - exfalso. apply Hn. left. exact He.
  - f_equal. apply IH. intros Hin. apply Hn. right. exact Hin.
Qed.

(** With unique ids, an update by id adds the delta to the sum of the
    day of the row updated, and to no other. *)
Lemma bookedOn_increment (userId : string) (day : Z) (fileSize : Z)
    (r : UsageHistory) (rows : list UsageHistory) :
  List.NoDup (map uh_id rows) -> In r rows ->
  bookedOn userId day
    (map (fun x => if String.eqb (uh_id x) (uh_id r)
                   then incrementUsageBytes fileSize x else x) rows) =
  bookedOn userId day rows +
  (if String.eqb (uh_userId r) userId && (JsDate.Day (date r) =? day)
   then fileSize else 0).
Proof.
  induction rows as [|x rows IH]; intros Hnd Hin; [destruct Hin|].
  simpl in Hnd. apply List.NoDup_cons_iff in Hnd as (Hx & Hnd).
  simpl map. rewrite !bookedOn_cons.
  destruct (String.eqb_spec (uh_id x) (uh_id r)) as [He | Hne].
  - assert (x = r) as ->.
    { destruct Hin as [Heq | Hin]; [exact Heq|].
      exfalso. apply Hx. rewrite He. apply in_map. exact Hin. }
    rewrite increment_absent by exact Hx. simpl.
    destruct (String.eqb (uh_userId r) userId && (JsDate.Day (date r) =? day)); lia.
  - destruct Hin as [Heq | Hin]; [subst x; contradiction|].
    rewrite IH by assumption. lia.
Qed.

End LedgerSumFacts.

(** X6.  A usage update for an existing user returns and books its delta
    once: with unique row ids in the usage history, the sum of the
    entries of that user for the day of the update's last clock reading
    grows by exactly the delta, whether the day's row was there or had
    to be created, and the sums of every other user and day stay as they
    were. *)
Theorem usage_update_books_the_delta_once {Cloud : Type}
    (w : World Cloud) (userId : string) (u : User) (fileSize : Z) :
  users (db w) !! userId = Some u ->
  NoDup (map uh_id (usageHistory (db w))) ->
  let out := UsersService.updateUserStorageUsage userId fileSize w in
  let today := JsDate.Day (clock w (pred (clockReads (snd out)))) in
  fst out = Returned tt /\
  LedgerSums.bookedOn userId today (usageHistory (db (snd out))) =
    LedgerSums.bookedOn userId today (usageHistory (db w)) + fileSize /\
  forall (other : string) (day : Z),
    (other, day) <> (userId, today) ->
    LedgerSums.bookedOn other day (usageHistory (db (snd out))) =
    LedgerSums.bookedOn other day (usageHistory (db w)).
Proof.
  intros Hu Hnd out today. subst out today.
  apply NoDup_ListNoDup in Hnd.
  destruct (QuotaCallers.updateUserStorageUsage_run userId fileSize u w Hu)
    as (w1 & u1 & Hrun & Hu1 & ->).
  destruct (UsageFacts.check_step userId u w Hu)
    as (w1' & u1' & Hrun' & _ & _ & _ & _ & Hh & _ & _ & _ & _ & Hc & _).
  rewrite Hrun in Hrun'. injection Hrun' as <-.
  rewrite <- Hh in *. rewrite <- Hc. clear Hh Hc Hrun Hu.
  split; [apply QuotaCallers.recordAfterRollover_returns|].
  unfold Rollover.recordAfterRollover. cbv zeta.
  set (now := clock w1 (clockReads w1)).
  destruct (find _ _) as [r|] eqn:Hfind.
  - apply find_some in Hfind as (Hin & Hrow).
    apply LedgerFacts.isTodaysRow_spec in Hrow as (Hru & Hrd).
    unfold Prisma.usageHistory_update, bind. simpl.
    assert (He : existsb (fun x => String.eqb (uh_id x) (uh_id r))
                   (usageHistory (db w1)) = true).
    { apply existsb_exists. exists r. split; [exact Hin | apply String.eqb_refl]. }
    rewrite He. simpl. fold now.
    split.
    + rewrite LedgerSumFacts.bookedOn_increment by assumption.
      rewrite Hru, Hrd, String.eqb_refl, Z.eqb_refl. reflexivity.
    + intros other day Hne.
      rewrite LedgerSumFacts.bookedOn_increment by assumption.
      rewrite Hru, Hrd.
      destruct (String.eqb_spec userId other) as [-> | Ho]; simpl; [|lia].
      destruct (Z.eqb_spec (JsDate.Day now) day) as [Hd | Hd]; [congruence | lia].
  - unfold Prisma.usageHistory_create, bind. simpl. fold now.
    split.
    + rewrite LedgerSumFacts.bookedOn_app, LedgerSumFacts.bookedOn_cons. simpl.
      rewrite LedgerFacts.Day_setHours0, String.eqb_refl, Z.eqb_refl.
      unfold LedgerSums.bookedOn. simpl. lia.
    + intros other day Hne.
      rewrite LedgerSumFacts.bookedOn_app, LedgerSumFacts.bookedOn_cons. simpl.
      rewrite LedgerFacts.Day_setHours0.
      change (LedgerSums.bookedOn other day []) with 0.
      destruct (String.eqb_spec userId other) as [-> | Ho]; simpl; [|lia].
      destruct (Z.eqb_spec (JsDate.Day now) day) as [Hd | Hd]; [congruence | lia].
Qed.

Lemma usage_update_books_the_delta_once_witness :
  let w := InMemoryCloud.office in
  let out := UsersService.updateUserStorageUsage "u1" 250 w in
  users (db w) !! "u1" = Some InMemoryCloud.alice /\
  NoDup (map uh_id (usageHistory (db w))) /\
  LedgerSums.bookedOn "u1" (JsDate.Day InMemoryCloud.mid_january_2025)
    (usageHistory (db w)) = 600 /\
  LedgerSums.bookedOn "u1" (JsDate.Day InMemoryCloud.mid_january_2025)
    (usageHistory (db (snd out))) = 600 + 250.
Proof.
  intros w out.
  assert (Hnd : NoDup (map uh_id (usageHistory (db w)))).
  { apply NoDup_ListNoDup. simpl. constructor; [intros []|constructor]. }
  split; [reflexivity|]. split; [exact Hnd|]. split; [vm_compute; reflexivity|].
  pose proof (usage_update_books_the_delta_once w "u1" InMemoryCloud.alice 250
                eq_refl Hnd) as (_ & H & _).
  change (JsDate.Day _) with (JsDate.Day InMemoryCloud.mid_january_2025) in H.
  fold out in H. rewrite H. vm_compute. reflexivity.
Defined.

(* ===================================================================== *)
(** * UsersService.resetMonthlyUsage *)
(* ===================================================================== *)

Module ResetAllFacts.
Import UsersService UsersReset Accounts.

Section WithCloud.
Context {Cloud : Type}.

(** The loop checks every row it was given once, each at a clock reading
    it made, and touches no other row. *)
Lemma forEachUser_checks (rows : list User) :
  forall w : World Cloud,
    List.NoDup (map user_id rows) ->
    (forall r, In r rows -> users (db w) !! user_id r = Some r) ->
    exists w' : World Cloud,
      forEachUser rows
        (fun user => checkAndResetQuotaIfNeeded (user_id user)
                       (nextQuotaResetDate user)) w = (Returned tt, w') /\
      clock w' = clock w /\ (clockReads w <= clockReads w')%nat /\
      files (db w') = files (db w) /\ usageHistory (db w') = usageHistory (db w) /\
      calls w' = calls w /\ cloud w' = cloud w /\
      (forall id, ~ In id (map user_id rows) ->
         users (db w') !! id = users (db w) !! id) /\
      (forall r, In r rows ->
         exists (u' : User) (n : nat),
           users (db w') !! user_id r = Some u' /\
           (clockReads w <= n < clockReads w')%nat /\
           checkedAt (clock w n) r u').
Proof.
  induction rows as [|r rest IH]; intros w Hnd Hrows.
  - exists w. simpl. repeat split; try lia; try (intros ? []).
  - simpl in Hnd. apply List.NoDup_cons_iff in Hnd as (Hr & Hnd).
    pose proof (Hrows r (or_introl eq_refl)) as Hu.
    destruct (UsageFacts.check_step (user_id r) r w Hu)
      as (w1 & u1 & Hrun & Hus & Hchk & _ & Hf & Hh & Hca & Hcl & _ & _ & Hck & _ & Hrd).
    destruct (IH w1 Hnd) as (w' & Hloop & Hck' & Hrd' & Hf' & Hh' & Hca' & Hcl' & Hout & Hin).
    { intros r' Hr'. rewrite Hus, lookup_insert_ne; [apply Hrows; right; exact Hr'|].
      intros He. apply Hr. rewrite He. apply in_map. exact Hr'. }
    exists w'. simpl. unfold bind at 1. rewrite Hrun.
    split; [exact Hloop|].
    split; [congruence|]. split; [lia|]. split; [congruence|]. split; [congruence|].
    split; [congruence|]. split; [congruence|]. split.
    + intros id Hid. rewrite Hout by (intros Hi; apply Hid; right; exact Hi).
      rewrite Hus. apply lookup_insert_ne. intros He. apply Hid. left. exact He.
    + intros r' [<- | Hr'].
      * exists u1, (clockReads w). rewrite (Hout _ Hr), Hus, lookup_insert_eq.
        split; [reflexivity|]. split; [lia | exact Hchk].
      * destruct (Hin r' Hr') as (u' & n & Hu' & Hn & Hc).
        exists u', n. rewrite <- Hck. split; [exact Hu'|]. split; [lia | exact Hc].
Qed.

Lemma fmap_is_map {A B : Type} (f : A -> B) (l : list A) : f <$> l = map f l.
Proof. induction l as [|x l IH]; [reflexivity|]. simpl. rewrite <- IH. reflexivity. Qed.

(** The rows [findMany] returns, for a table keyed by id. *)
Lemma rows_of_table (us : gmap string User) :
  keyedById us ->
  let rows := map snd (map_to_list us) in
  List.NoDup (map user_id rows) /\
  (forall r, In r rows <-> us !! user_id r = Some r) /\
  (forall id u, us !! id = Some u -> user_id u = id).
Proof.
  intros Hk rows. subst rows.
  assert (Hids : map user_id (map snd (map_to_list us)) = map fst (map_to_list us)).
  { rewrite List.map_map. apply List.map_ext_in. intros [k u] Hin. simpl.
    apply (Hk k u). apply elem_of_map_to_list, list_elem_of_In. exact Hin. }
  split; [|split].
  - rewrite Hids, <- fmap_is_map. apply NoDup_ListNoDup, (NoDup_fst_map_to_list us).
  - intros r. split.
    + intros Hin. apply in_map_iff in Hin as ([k u] & <- & Hin). simpl.
      apply list_elem_of_In, elem_of_map_to_list in Hin.
      rewrite (Hk k u Hin). exact Hin.
    + intros Hr. apply in_map_iff. exists (user_id r, r). split; [reflexivity|].
      apply list_elem_of_In, elem_of_map_to_list. exact Hr.
  - exact Hk.
Qed.

End WithCloud.
End ResetAllFacts.

(** X7.  On a user table keyed by id, [resetMonthlyUsage] returns and
    runs the reset-check on every user, each at a clock reading the call
    made after its first: a user whose cycle is over at that reading gets
    usage 0 and a reset instant after the reading, every other user
    keeps their row.  No user appears or disappears, and the file
    records, the usage history, the back ends and the call log are as
    before. *)
Theorem resetMonthlyUsage_checks_every_user {Cloud : Type} (w : World Cloud) :
  Accounts.keyedById (users (db w)) ->
  let out := UsersReset.resetMonthlyUsage w in
  fst out = Returned tt /\
  files (db (snd out)) = files (db w) /\
  usageHistory (db (snd out)) = usageHistory (db w) /\
  calls (snd out) = calls w /\ cloud (snd out) = cloud w /\
  forall id : string,
    match users (db w) !! id with
    | None => users (db (snd out)) !! id = None
    | Some u =>
        exists (u' : User) (n : nat),
          users (db (snd out)) !! id = Some u' /\
          (clockReads w < n < clockReads (snd out))%nat /\
          Accounts.checkedAt (clock w n) u u'
    end.
Proof.
  intros Hk out.
  destruct (ResetAllFacts.rows_of_table (users (db w)) Hk) as (Hnd & Hrows & Hkey).
  destruct (ResetAllFacts.forEachUser_checks (map snd (map_to_list (users (db w))))
              (tick w) Hnd)
    as (w' & Hloop & Hck & Hrd & Hf & Hh & Hca & Hcl & Hout & Hin).
  { intros r Hr. apply Hrows. exact Hr. }
  assert (Hrun : out = (Returned tt, w')).
  { subst out. unfold UsersReset.resetMonthlyUsage, bind at 1. simpl.
    unfold bind at 1. simpl. exact Hloop. }
  rewrite Hrun. simpl in *.
  split; [reflexivity|]. repeat (split; [assumption|]).
  intros id. destruct (users (db w) !! id) as [u|] eqn:Hu.
  - pose proof (Hkey id u Hu) as Hid. subst id.
    destruct (Hin u (proj2 (Hrows u) Hu)) as (u' & n & Hu' & Hn & Hc).
    exists u', n. split; [exact Hu'|]. split; [lia | exact Hc].
  - rewrite Hout; [exact Hu|].
    intros Hi. apply in_map_iff in Hi as (r & <- & Hr).
    apply Hrows in Hr. congruence.
Qed.

Lemma resetMonthlyUsage_checks_every_user_witness :
  let w := InMemoryCloud.world InMemoryCloud.threeUsers InMemoryCloud.allUp
             (fun _ => InMemoryCloud.mid_march_2025) in
  Accounts.keyedById (users (db w)) /\
  fst (UsersReset.resetMonthlyUsage w) = Returned tt /\
  exists u' n,
    users (db (snd (UsersReset.resetMonthlyUsage w))) !! "u1" = Some u' /\
    Accounts.checkedAt (clock w n) InMemoryCloud.alice u'.
Proof.
  intros w.
  assert (Hk : Accounts.keyedById (users (db w))).
  { apply (bool_decide_unpack _). vm_compute. exact I. }
  split; [exact Hk|].
  destruct (resetMonthlyUsage_checks_every_user w Hk) as (Hr & _ & _ & _ & _ & Hall).
  split; [exact Hr|].
  specialize (Hall "u1"). change (users (db w) !! "u1") with (Some InMemoryCloud.alice) in Hall.
  destruct Hall as (u' & n & Hu & _ & Hc). exists u', n. split; assumption.
Defined.

(* ===================================================================== *)
(** * Ordered queries *)
(* ===================================================================== *)

Module OrderFacts.
Import Ordering.

Section Insertion.
Context {A : Type}.
Variable sortKey : A -> Z.
Variable insert : A -> list A -> list A.
Hypothesis insert_nil : forall r, insert r [] = [r].
Hypothesis insert_cons : forall r x rest,
  insert r (x :: rest) =
  if sortKey x <? sortKey r then r :: x :: rest else x :: insert r rest.

Abbreviation descending := (Ordering.descending sortKey).

Lemma insert_In (r x : A) (l : list A) : In x (insert r l) <-> x = r \/ In x l.
Proof.
  induction l as [|y l IH]; [rewrite insert_nil; simpl; intuition|].
  rewrite insert_cons. destruct (sortKey y <? sortKey r); simpl in *; intuition.
Qed.

Lemma insert_length (r : A) (l : list A) : length (insert r l) = S (length l).
Proof.
  induction l as [|y l IH]; [rewrite insert_nil; reflexivity|].
  rewrite insert_cons. destruct (sortKey y <? sortKey r); simpl; congruence.
Qed.

Lemma insert_sorted (r : A) (l : list A) :
  StronglySorted descending l -> StronglySorted descending (insert r l).
Proof.
  induction l as [|y l IH]; intros Hs.
  - rewrite insert_nil. repeat constructor.
  - rewrite insert_cons. apply StronglySorted_inv in Hs as (Hs & Hy).
    destruct (Z.ltb_spec (sortKey y) (sortKey r)) as [Hlt | Hge].
    + constructor; [constructor; assumption|].
      constructor; [unfold Ordering.descending; lia|].
      eapply Forall_impl; [exact Hy|]. unfold Ordering.descending. intros; simpl in *; lia.
    + constructor; [apply IH; exact Hs|].
      apply Forall_forall. intros x Hx. apply list_elem_of_In, insert_In in Hx.
      destruct Hx as [-> | Hx]; [exact Hge|].
      rewrite Forall_forall in Hy. apply Hy, list_elem_of_In. exact Hx.
Qed.

Lemma sort_In (x : A) (l : list A) : In x (fold_right insert [] l) <-> In x l.
Proof.
  induction l as [|y l IH]; [reflexivity|].
  simpl. rewrite insert_In, IH. intuition.
Qed.

Lemma sort_length (l : list A) : length (fold_right insert [] l) = length l.
Proof.
  induction l as [|y l IH]; [reflexivity|]. simpl. rewrite insert_length. congruence.
Qed.

Lemma sort_sorted (l : list A) : StronglySorted descending (fold_right insert [] l).
Proof.
  induction l as [|y l IH]; [constructor|]. simpl. apply insert_sorted. exact IH.
Qed.

(** Sorting moves the elements and neither drops nor repeats one. *)
Lemma insert_Permutation (r : A) (l : list A) : Permutation (insert r l) (r :: l).
Proof.
  induction l as [|y l IH]; [rewrite insert_nil; reflexivity|].
  rewrite insert_cons. destruct (sortKey y <? sortKey r); [reflexivity|].
  rewrite IH. apply perm_swap.
Qed.

Lemma sort_Permutation (l : list A) : Permutation (fold_right insert [] l) l.
Proof.
  induction l as [|y l IH]; [reflexivity|].
  simpl. rewrite insert_Permutation, IH. reflexivity.
Qed.

End Insertion.

(** A join that keeps the sort key keeps the order. *)
Lemma omap_sorted {A B : Type} (keyA : A -> Z) (keyB : B -> Z) (f : A -> option B)
    (l : list A) :
  (forall a b, f a = Some b -> keyB b = keyA a) ->
  StronglySorted (descending keyA) l ->
  StronglySorted (descending keyB) (omap f l).
Proof.
  intros Hkey. induction l as [|x l IH]; intros Hs; [constructor|].
  apply StronglySorted_inv in Hs as (Hs & Hx). simpl.
  destruct (f x) as [y|] eqn:Hy; [|apply IH; exact Hs].
  constructor; [apply IH; exact Hs|].
  apply Forall_forall. intros b Hb. apply list_elem_of_omap in Hb as (a & Ha & Hfa).
  rewrite Forall_forall in Hx. specialize (Hx a Ha).
  unfold descending in *. rewrite (Hkey _ _ Hy), (Hkey _ _ Hfa). exact Hx.
Qed.

Lemma map_sorted {A B : Type} (keyA : A -> Z) (keyB : B -> Z) (f : A -> B)
    (l : list A) :
  (forall a, keyB (f a) = keyA a) ->
  StronglySorted (descending keyA) l ->
  StronglySorted (descending keyB) (map f l).
Proof.
  intros Hkey. induction l as [|x l IH]; intros Hs; [constructor|].
  apply StronglySorted_inv in Hs as (Hs & Hx). simpl.
  constructor; [apply IH; exact Hs|].
  apply Forall_forall. intros b Hb. apply list_elem_of_In, in_map_iff in Hb as (a & <- & Ha).
  rewrite Forall_forall in Hx. specialize (Hx a (proj2 (list_elem_of_In _ _) Ha)).
  unfold descending in *. rewrite !Hkey. exact Hx.
Qed.

Lemma orderByUsageDesc_In (x : UsageHistory) (rows : list UsageHistory) :
  In x (Prisma.orderByUsageDesc rows) <-> In x rows.
Proof. apply (sort_In usageBytes Prisma.insertDesc); reflexivity. Qed.

Lemma orderByUsageDesc_sorted (rows : list UsageHistory) :
  StronglySorted (descending usageBytes) (Prisma.orderByUsageDesc rows).
Proof. apply (sort_sorted usageBytes Prisma.insertDesc); reflexivity. Qed.

Lemma orderByUsageDesc_Permutation (rows : list UsageHistory) :
  Permutation (Prisma.orderByUsageDesc rows) rows.
Proof. apply (sort_Permutation usageBytes Prisma.insertDesc); reflexivity. Qed.

(** The window of the report is the calendar day of the reading. *)
Lemma todays_window (now : Z) (r : UsageHistory) :
  (JsDate.setHours0 now <=? date r) &&
  (date r <? JsDate.setHours0 now + 24 * 60 * 60 * 1000) = true <->
  JsDate.Day (date r) = JsDate.Day now.
Proof.
  unfold JsDate.setHours0, JsDate.Day, JsDate.msPerDay.
  rewrite andb_true_iff, Z.leb_le, Z.ltb_lt.
  split; [intros (H1 & H2) | intros Hd; split]; JsDateFacts.zdiv.
Qed.

End OrderFacts.

(** X8.  The usage report never throws and reads the clock once.  Its
    lines are in descending order of bytes, every line has a positive
    number of bytes, and the lines are exactly the entries of the usage
    history dated on the calendar day of the reading with more than 0
    bytes, each joined with its user's name: the report is a
    rearrangement of the lines of those entries, one line for each entry
    and none twice.  An administrator gets these lines from
    [StatsService] in the same order. *)
Theorem daily_usage_report_lists_todays_positive_entries {Cloud : Type}
    (w : World Cloud) :
  let now := clock w (clockReads w) in
  exists stats : list (string * Z),
    UsersService.getDailyUsageStats w = (Returned stats, tick w) /\
    StronglySorted (Ordering.descending snd) stats /\
    Forall (fun s => 0 < snd s) stats /\
    Permutation stats
      (omap (Listings.reportLine (users (db w)))
         (List.filter (Listings.reportable now) (usageHistory (db w)))) /\
    (forall (name : string) (bytes : Z),
       In (name, bytes) stats <->
       exists (r : UsageHistory) (u : User),
         In r (usageHistory (db w)) /\ JsDate.Day (date r) = JsDate.Day now /\
         0 < usageBytes r /\ users (db w) !! uh_userId r = Some u /\
         name = username u /\ bytes = usageBytes r) /\
    (forall (userId : string) (u : User),
       users (db w) !! userId = Some u -> isAdmin u = true ->
       exists report,
         StatsService.getDailyUsageStats userId w = (Returned report, tick w) /\
         map (fun s => (stat_username s, stat_usageBytes s)) report = stats /\
         Forall (fun s => usageMB s = (stat_usageBytes s, 1024 * 1024)) report).
Proof.
  intros now.
  set (where_ := fun r : UsageHistory =>
         (JsDate.setHours0 now <=? date r) &&
         (date r <? JsDate.setHours0 now + 24 * 60 * 60 * 1000) &&
         (0 <? usageBytes r)).
  set (join := fun r : UsageHistory =>
         match users (db w) !! uh_userId r with
         | Some u => Some (username u, usageBytes r)
         | None => None
         end).
  set (sorted := Prisma.orderByUsageDesc (List.filter where_ (usageHistory (db w)))).
  assert (Hwhere : forall r, where_ r = true <->
            JsDate.Day (date r) = JsDate.Day now /\ 0 < usageBytes r).
  { intros r. unfold where_. rewrite andb_true_iff, OrderFacts.todays_window, Z.ltb_lt.
    reflexivity. }
  assert (Hsorted : forall r, In r sorted <->
            In r (usageHistory (db w)) /\ JsDate.Day (date r) = JsDate.Day now /\
            0 < usageBytes r).
  { intros r. unfold sorted. rewrite OrderFacts.orderByUsageDesc_In, filter_In, Hwhere.
    reflexivity. }
  assert (Hin : forall name bytes, In (name, bytes) (omap join sorted) <->
            exists r u, In r (usageHistory (db w)) /\
              JsDate.Day (date r) = JsDate.Day now /\ 0 < usageBytes r /\
              users (db w) !! uh_userId r = Some u /\
              name = username u /\ bytes = usageBytes r).
  { intros name bytes. rewrite <- list_elem_of_In, list_elem_of_omap. split.
    - intros (r & Hr & Hj). apply list_elem_of_In, Hsorted in Hr as (Hr & Hd & Hp).
      unfold join in Hj. destruct (users (db w) !! uh_userId r) as [u|] eqn:Hu;
        [|discriminate].
      injection Hj as <- <-. exists r, u. repeat split; assumption.
    - intros (r & u & Hr & Hd & Hp & Hu & -> & ->). exists r. split.
      + apply list_elem_of_In, Hsorted. auto.
      + unfold join. rewrite Hu. reflexivity. }
  exists (omap join sorted).
  assert (Hrun : UsersService.getDailyUsageStats w = (Returned (omap join sorted), tick w))
    by reflexivity.
  assert (Hsame : forall r, where_ r = Listings.reportable now r).
  { intros r. apply eq_true_iff_eq. rewrite Hwhere. unfold Listings.reportable.
    rewrite andb_true_iff, Z.eqb_eq, Z.ltb_lt. reflexivity. }
  split; [exact Hrun|]. split; [|split; [|split; [|split; [exact Hin|]]]].
  3:{ unfold sorted. rewrite OrderFacts.orderByUsageDesc_Permutation.
      rewrite (List.filter_ext _ _ Hsame). reflexivity. }
  - apply (OrderFacts.omap_sorted usageBytes snd join).
    + intros r [name bytes]. unfold join.
      destruct (users (db w) !! uh_userId r); [|discriminate].
      intros [= <- <-]. reflexivity.
    + apply OrderFacts.orderByUsageDesc_sorted.
  - apply Forall_forall. intros [name bytes] Hs.
    apply list_elem_of_In, Hin in Hs as (r & u & _ & _ & Hp & _ & _ & ->). exact Hp.
  - intros userId u Hu Ha.
    destruct (StatsFacts.stats_run userId w) as (rows & Hrows & Hstats).
    rewrite Hrun in Hrows. injection Hrows as <-.
    rewrite Hu, Ha in Hstats. eexists. split; [exact Hstats|]. split.
    + rewrite List.map_map. simpl. clear. induction (omap join sorted) as [|[n b] l IH];
        [reflexivity|]. simpl. f_equal. exact IH.
    + apply Forall_forall. intros s Hs.
      apply list_elem_of_In, in_map_iff in Hs as (x & <- & _). reflexivity.
Qed.

(* ===================================================================== *)
(** * Strings and paths *)
(* ===================================================================== *)

Module PathFacts.
Import JsString Paths.

Lemma append_nil_r (s : string) : (s ++ "")%string = s.
Proof.
  induction s as [|c s IH]; [reflexivity|].
  change (String c s ++ "")%string with (String c (s ++ "")%string).
  rewrite IH. reflexivity.
Qed.

Lemma append_assoc (a b c : string) : ((a ++ b) ++ c)%string = (a ++ (b ++ c))%string.
Proof.
  induction a as [|x a IH]; [reflexivity|].
  change (String x (a ++ b) ++ c = String x (a ++ (b ++ c)))%string.
  change (String x ((a ++ b) ++ c) = String x (a ++ (b ++ c)))%string.
  rewrite IH. reflexivity.
Qed.

Lemma includes_app (c : Ascii.ascii) (a b : string) :
  includes c (a ++ b) = includes c a || includes c b.
Proof.
  induction a as [|x a IH]; [reflexivity|].
  change (includes c (String x (a ++ b)) =
          (Ascii.eqb x c || includes c a) || includes c b).
  simpl. rewrite IH. apply orb_assoc.
Qed.

Lemma lastSegmentFrom_no_separator (sep : Ascii.ascii) (s : string) :
  forall acc, includes sep acc = false ->
              includes sep (lastSegmentFrom sep acc s) = false.
Proof.
  induction s as [|c s IH]; intros acc Hacc; [exact Hacc|].
  simpl. destruct (Ascii.eqb c sep) eqn:Hc.
  - apply IH. reflexivity.
  - apply IH. rewrite includes_app, Hacc. simpl. rewrite Hc. reflexivity.
Qed.

Lemma lastSegmentFrom_suffix (sep : Ascii.ascii) (s : string) :
  forall acc, exists dir,
    (acc ++ s)%string = (dir ++ lastSegmentFrom sep acc s)%string /\
    (dir = "" \/ exists d, dir = (d ++ String sep "")%string).
Proof.
  induction s as [|c s IH]; intros acc.
  - exists "". simpl. split; [apply append_nil_r | left; reflexivity].
  - simpl. destruct (Ascii.eqb c sep) eqn:Hc.
    + apply Ascii.eqb_eq in Hc. subst c.
      destruct (IH "") as (dir & Hdir & Hend).
      change ("" ++ s)%string with s in Hdir.
      exists (acc ++ String sep dir)%string. split.
      * rewrite append_assoc.
        change (String sep dir ++ lastSegmentFrom sep "" s)%string
          with (String sep (dir ++ lastSegmentFrom sep "" s)%string).
        rewrite <- Hdir. reflexivity.
      * right. destruct Hend as [-> | (d & ->)].
        -- exists acc. reflexivity.
        -- exists (acc ++ String sep d)%string. rewrite append_assoc. reflexivity.
    + destruct (IH (acc ++ String c "")%string) as (dir & Hdir & Hend).
      exists dir. split; [|exact Hend]. rewrite <- Hdir, append_assoc. reflexivity.
Qed.

(** A key splits at its last slash. *)
Lemma splitPop_splits (key : string) :
  exists dir, splitsAt key dir (splitPop "/"%char key).
Proof.
  destruct (lastSegmentFrom_suffix "/"%char key "") as (dir & Hdir & Hend).
  change ("" ++ key)%string with key in Hdir.
  exists dir. unfold splitsAt, splitPop. split; [exact Hdir|].
  split; [apply lastSegmentFrom_no_separator; reflexivity | exact Hend].
Qed.

(** The split is the only one: the last segment of a key is determined. *)
Lemma splitsAt_unique (key dir last dir' last' : string) :
  splitsAt key dir last -> splitsAt key dir' last' -> dir = dir' /\ last = last'.
Proof.
  unfold splitsAt. revert key dir'.
  induction dir as [|c dir IH]; intros key dir' (Hk & Hno & Hend) (Hk' & Hno' & Hend').
  - change ("" ++ last)%string with last in Hk. rewrite Hk in Hk'.
    destruct dir' as [|c' dir']; [split; [reflexivity | exact Hk']|].
    exfalso. destruct Hend' as [Hd | (d & Hd)]; [discriminate Hd|].
    rewrite Hk', Hd, append_assoc, includes_app, includes_app in Hno.
    simpl in Hno. rewrite orb_true_r in Hno. discriminate Hno.
  - assert (Hinner : forall x t,
              (String x t = "" \/ exists d, String x t = (d ++ "/")%string) ->
              t = "" \/ exists d, t = (d ++ "/")%string).
    { intros x t [Hd | (d & Hd)]; [discriminate Hd|].
      destruct d as [|y d]; [left | right; exists d].
      - change ("" ++ "/")%string with "/" in Hd. injection Hd as _ Ht. exact Ht.
      - change (String x t = String y (d ++ "/"))%string in Hd.
        injection Hd as _ Ht. exact Ht. }
    destruct dir' as [|c' dir'].
    + exfalso. change ("" ++ last')%string with last' in Hk'. rewrite Hk' in Hk.
      destruct Hend as [Hd | (d & Hd)]; [discriminate Hd|].
      rewrite Hk, Hd, append_assoc, includes_app, includes_app in Hno'.
      simpl in Hno'. rewrite orb_true_r in Hno'. discriminate Hno'.
    + rewrite Hk in Hk'.
      change (String c (dir ++ last) = String c' (dir' ++ last'))%string in Hk'.
      injection Hk' as Hc Hrest. subst c'.
      destruct (IH (dir ++ last)%string dir') as (Hdir & Hlast).
      * split; [reflexivity|]. split; [exact Hno|]. apply (Hinner c), Hend.
      * split; [exact Hrest|]. split; [exact Hno'|]. apply (Hinner c), Hend'.
      * rewrite Hdir. split; [reflexivity | exact Hlast].
Qed.

Lemma orElse_not_empty (a b : string) : b <> "" -> orElse a b <> "".
Proof. intros Hb. destruct a; [exact Hb | discriminate]. Qed.

(** The name and the content type the adapters compute for a download. *)
Lemma download_fields (key : string) (contentType : string) (body : Buffer) (n : Z) :
  namedAfter key
    (mkFileDownloadResult body (orElse contentType "application/octet-stream") n
       (orElse (splitPop "/"%char key) "download")).
Proof.
  unfold namedAfter. simpl.
  split; [apply orElse_not_empty; discriminate|].
  destruct (splitPop_splits key) as (dir & Hsplit).
  exists dir, (splitPop "/"%char key). split; [exact Hsplit | reflexivity].
Qed.

Lemma toLowerCase_aws : toLowerCase "aws" = "aws".
Proof. reflexivity. Qed.

Lemma toLowerCase_gcp : toLowerCase "gcp" = "gcp".
Proof. reflexivity. Qed.

End PathFacts.

(** X9.  Whenever a download through the S3 adapter, the GCS adapter or
    the in-memory provider of the test suite returns, the content type
    it reports is not empty ('application/octet-stream' stands in for a
    missing one) and the file name is the text of the key after its last
    slash, all of the key when it has no slash, or 'download' when
    nothing follows the last slash.  A key has one such last segment
    only, so the name is determined by the key; it is never empty and
    holds no slash. *)
Theorem download_reports_name_and_content_type {Cloud : Type}
    (s3Client : AwsS3Provider.S3Client Cloud)
    (storage : GcpStorageProvider.StorageClient Cloud)
    (bucketName key : string) (c : Cloud)
    (getStore : Mocks.MockCloud -> Mocks.MockStore) (mc : Mocks.MockCloud) :
  (forall r c', AwsS3Provider.downloadFile s3Client bucketName key c = (Returned r, c') ->
                Paths.namedAfter key r) /\
  (forall r c', GcpStorageProvider.downloadFile storage bucketName key c = (Returned r, c') ->
                Paths.namedAfter key r) /\
  (forall r mc', Mocks.downloadFile getStore key mc = (Returned r, mc') ->
                 Paths.namedAfter key r) /\
  (forall r r', Paths.namedAfter key r -> Paths.namedAfter key r' ->
                fileName r = fileName r') /\
  (forall r, Paths.namedAfter key r ->
             fileName r <> "" /\ Paths.includes "/"%char (fileName r) = false).
Proof.
  split; [|split; [|split; [|split]]].
  - intros r c'. unfold AwsS3Provider.downloadFile.
    destruct (AwsS3Provider.send s3Client _ c) as [[response|e] c1]; [|discriminate].
    intros [= <- _]. apply PathFacts.download_fields.
  - intros r c'. unfold GcpStorageProvider.downloadFile.
    destruct (GcpStorageProvider.getMetadata storage _ _ c) as [[metadata|e] c1];
      [|discriminate].
    intros [= <- _]. apply PathFacts.download_fields.
  - intros r mc'. unfold Mocks.downloadFile.
    destruct (Mocks.mock_files (getStore mc) !! key) as [file|]; [|discriminate].
    intros [= <- _]. apply PathFacts.download_fields.
  - intros r r' (_ & dir & last & Hs & ->) (_ & dir' & last' & Hs' & ->).
    destruct (PathFacts.splitsAt_unique key dir last dir' last' Hs Hs') as (_ & ->).
    reflexivity.
  - intros r (_ & dir & last & (_ & Hno & _) & ->).
    destruct last; [split; [discriminate | reflexivity]|].
    split; [discriminate | exact Hno].
Qed.

(* ===================================================================== *)
(** * StorageService with the two adapters *)
(* ===================================================================== *)

Module ResolveFacts.
Import Failover.

Section WithCloud.
Context {Cloud : Type}.

Lemma replays_app_inv (c c2 : Cloud) (l1 l2 : list (Call Cloud)) :
  replays c (l1 ++ l2)%list c2 ->
  exists c1, replays c l1 c1 /\ replays c1 l2 c2.
Proof.
  revert c. induction l1 as [|x l1 IH]; intros c H.
  - exists c. split; [reflexivity | exact H].
  - simpl in H. destruct H as (c' & Hx & H).
    destruct (IH c' H) as (c1 & H1 & H2).
    exists c1. split; [exists c'; split; assumption | exact H2].
Qed.

(** A provider name resolves as its lower-case form does. *)
Lemma getProviderByName_cases (this : StorageService.t Cloud) (name : string) :
  StorageService.getProviderByName this name =
  if String.eqb (JsString.toLowerCase name) "aws"
  then Some (StorageService.awsProvider this)
  else if String.eqb (JsString.toLowerCase name) "gcp"
       then Some (StorageService.gcpProvider this)
       else None.
Proof. reflexivity. Qed.

(** The upload that returned is the last call of the run, made on a
    provider of the list. *)
Lemma upload_returned_by (ps : list (StorageProvider Cloud)) (file : Buffer)
    (key mimetype : string) (w w' : World Cloud) (r : FileUploadResult) :
  StorageService.uploadFileOver ps file key mimetype w = (Returned r, w') ->
  exists (p : StorageProvider Cloud) (before : list (Call Cloud)) (c1 c2 : Cloud),
    In p ps /\
    calls w' = (calls w ++ before ++
                [CallIsAvailable p (Returned true);
                 CallUploadFile p file key mimetype (Returned r)])%list /\
    uploadFile p file key mimetype c1 = (Returned r, c2) /\
    db w' = db w /\ clockReads w' = clockReads w /\ uuidCount w' = uuidCount w.
Proof.
  intros Hrun.
  pose proof (OrchestratorFacts.uploadFileOver_run ps file key mimetype w) as H.
  rewrite Hrun in H.
  destruct H as (Hdb & Hck & Hid & log & Hcalls & Hrep & pre & p & post & attempts &
                 Hps & _ & Hlog).
  subst log.
  apply replays_app_inv in Hrep as (c0 & _ & Hrep).
  destruct Hrep as (c1 & _ & c2 & Hup & _).
  exists p, (concat attempts), c1, c2.
  split; [rewrite Hps; apply in_or_app; right; left; reflexivity|].
  split; [exact Hcalls|]. split; [exact Hup|]. auto.
Qed.

End WithCloud.
End ResolveFacts.

(** X10.  With the S3 and GCS adapters configured, the provider id an
    upload returns resolves, through [getProviderByName], to the adapter
    that took the bytes: the last two calls of the upload are that
    adapter's probe returning true and its upload returning the result,
    the id is the adapter's name ('aws' or 'gcp'), and the key and the
    size of the result are those of the upload. *)
Theorem uploaded_provider_id_resolves_to_its_adapter {Cloud : Type}
    (s3Client : AwsS3Provider.S3Client Cloud)
    (storage : GcpStorageProvider.StorageClient Cloud)
    (s3Bucket region gcsBucket : string)
    (file : Buffer) (path mimetype : string) (w : World Cloud) (r : FileUploadResult) :
  let this := StorageService.new (AwsS3Provider.new s3Client s3Bucket region)
                (GcpStorageProvider.new storage gcsBucket) in
  let out := StorageService.uploadFile this file path mimetype w in
  fst out = Returned r ->
  exists (p : StorageProvider Cloud) (before : list (Call Cloud)),
    StorageService.getProviderByName this (provider r) = Some p /\
    StorageService.getProviderName p = provider r /\
    calls (snd out) =
      (calls w ++ before ++
       [CallIsAvailable p (Returned true);
        CallUploadFile p file path mimetype (Returned r)])%list /\
    key r = path /\ size r = bufferLength file.
Proof.
  intros this out Hr. subst out.
  unfold StorageService.uploadFile in *.
  destruct (StorageService.uploadFileOver (StorageService.providers this) file path
              mimetype w) as [o w'] eqn:Hrun.
  simpl in Hr. subst o. simpl.
  destruct (ResolveFacts.upload_returned_by _ _ _ _ _ _ _ Hrun)
    as (p & before & c1 & c2 & Hin & Hcalls & Hup & _).
  exists p, before.
  destruct Hin as [<- | [<- | []]]; simpl in Hup.
  - destruct (AdapterFacts.aws_upload_tagged _ _ _ _ _ _ _ _ _ Hup) as (Hp & Hk & Hs).
    rewrite Hp. repeat split; assumption.
  - destruct (AdapterFacts.gcp_upload_tagged _ _ _ _ _ _ _ _ Hup) as (Hp & Hk & Hs).
    rewrite Hp. repeat split; assumption.
Qed.

Lemma uploaded_provider_id_resolves_to_its_adapter_witness :
  let w := InMemoryCloud.world InMemoryCloud.emptyDatabase InMemoryCloud.s3Outage
             (fun _ => 0) in
  let out := StorageService.uploadFile InMemoryCloud.storageService InMemoryCloud.hello
               "uploads/u1/b.txt" "text/plain" w in
  exists (r : FileUploadResult) (p : StorageProvider InMemoryCloud.Cloud),
    fst out = Returned r /\ provider r = "gcp" /\
    StorageService.getProviderByName InMemoryCloud.storageService (provider r) =
      Some p /\
    StorageService.getProviderName p = "gcp".
Proof.
  intros w out.
  set (r := mkFileUploadResult "gcp"
              "https://storage.googleapis.com/files/uploads/u1/b.txt"
              "uploads/u1/b.txt" 2).
  assert (Hr : fst out = Returned r) by (vm_compute; reflexivity).
  destruct (uploaded_provider_id_resolves_to_its_adapter InMemoryCloud.s3Client
              InMemoryCloud.storage "files" "us-east-1" "files" InMemoryCloud.hello
              "uploads/u1/b.txt" "text/plain" w r Hr) as (p & _ & Hp & Hn & _).
  exists r, p. split; [exact Hr|]. split; [reflexivity|].
  split; [exact Hp | exact Hn].
Defined.

(** X11.  A download for a recorded provider id other than 'aws' and
    'gcp' in these exact letters: the revision with failover tries the
    adapter the id resolves to, if any (the id is matched without regard
    to case), and then both configured adapters in order, so that an id
    such as 'AWS' has S3 tried twice; the revision without failover
    throws its notice at once, with no provider called, when the id
    resolves to no adapter. *)
Theorem download_with_an_id_in_other_letters {Cloud : Type}
    (aws gcp : StorageProvider Cloud) (path providerId : string) (w : World Cloud) :
  instanceOf aws = AwsS3ProviderClass ->
  instanceOf gcp = GcpStorageProviderClass ->
  providerId <> "aws" -> providerId <> "gcp" ->
  let this := StorageService.new aws gcp in
  let selected :=
    if String.eqb (JsString.toLowerCase providerId) "aws" then [aws]
    else if String.eqb (JsString.toLowerCase providerId) "gcp" then [gcp]
         else [] in
  Failover.FailoverRun (Failover.downloadEntry path) (selected ++ [aws; gcp])%list
    (ServiceUnavailableException "Unable to download file from any storage provider")
    w (StorageService.downloadFile this path providerId w) /\
  (selected = [] ->
   StorageService.downloadFileOrNotify this path providerId w =
   (Thrown (ServiceUnavailableException
              "Storage provider is currently unavailable. The file will be sent to your registered email once service is restored."),
    w)).
Proof.
  intros Ha Hg Hna Hng this selected.
  pose proof (DownloadFacts.downloadFile_run this path providerId w) as Hrun.
  rewrite ResolveFacts.getProviderByName_cases in Hrun.
  assert (Hfilter :
    List.filter
      (fun p => negb (String.eqb (StorageService.getProviderName p) providerId))
      (StorageService.providers this) = [aws; gcp]).
  { simpl. unfold StorageService.getProviderName. rewrite Ha, Hg.
    destruct (String.eqb_spec "aws" providerId) as [He|_]; [congruence|].
    destruct (String.eqb_spec "gcp" providerId) as [He|_]; [congruence|].
    reflexivity. }
  rewrite Hfilter in Hrun. split.
  - subst selected. simpl in Hrun.
    destruct (String.eqb (JsString.toLowerCase providerId) "aws"); [exact Hrun|].
    destruct (String.eqb (JsString.toLowerCase providerId) "gcp"); exact Hrun.
  - intros Hnone. subst selected.
    unfold StorageService.downloadFileOrNotify, bind,
      StorageService.downloadFromSelected.
    rewrite ResolveFacts.getProviderByName_cases.
    destruct (String.eqb (JsString.toLowerCase providerId) "aws"); [discriminate|].
    destruct (String.eqb (JsString.toLowerCase providerId) "gcp"); [discriminate|].
    reflexivity.
Qed.

Lemma download_with_an_id_in_other_letters_witness :
  let w := InMemoryCloud.world InMemoryCloud.emptyDatabase InMemoryCloud.s3Outage
             (fun _ => 0) in
  instanceOf InMemoryCloud.awsProvider = AwsS3ProviderClass /\
  instanceOf InMemoryCloud.gcpProvider = GcpStorageProviderClass /\
  Failover.FailoverRun (Failover.downloadEntry "uploads/u1/a.txt")
    [InMemoryCloud.awsProvider; InMemoryCloud.awsProvider; InMemoryCloud.gcpProvider]
    (ServiceUnavailableException "Unable to download file from any storage provider")
    w (StorageService.downloadFile InMemoryCloud.storageService
         "uploads/u1/a.txt" "AWS" w) /\
  StorageService.downloadFileOrNotify InMemoryCloud.storageService
    "uploads/u1/a.txt" "azure" w =
  (Thrown (ServiceUnavailableException
             "Storage provider is currently unavailable. The file will be sent to your registered email once service is restored."),
   w).
Proof.
  intros w. split; [reflexivity|]. split; [reflexivity|]. split.
  - apply (download_with_an_id_in_other_letters InMemoryCloud.awsProvider
             InMemoryCloud.gcpProvider "uploads/u1/a.txt" "AWS" w eq_refl eq_refl);
      discriminate.
  - apply (download_with_an_id_in_other_letters InMemoryCloud.awsProvider
             InMemoryCloud.gcpProvider "uploads/u1/a.txt" "azure" w eq_refl eq_refl);
      [discriminate | discriminate | reflexivity].
Defined.

(** X12.  With the S3 and GCS adapters configured, the owner's delete of
    a file recorded under 'aws' or 'gcp' (in any letter case) cannot
    fail: whatever the back end does, the adapter's [deleteFile] returns
    a boolean, the orchestrator calls that one adapter once, and
    [FilesService.deleteFile] returns true with the record removed. *)
Theorem owner_delete_returns_whatever_the_back_end_does {Cloud : Type}
    (s3Client : AwsS3Provider.S3Client Cloud)
    (storage : GcpStorageProvider.StorageClient Cloud)
    (s3Bucket region gcsBucket : string)
    (fileId caller : string) (file : FileRecord) (u : User) (w : World Cloud) :
  let aws := AwsS3Provider.new s3Client s3Bucket region in
  let gcp := GcpStorageProvider.new storage gcsBucket in
  let this := StorageService.new aws gcp in
  files (db w) !! fileId = Some file -> userId file = caller ->
  users (db w) !! caller = Some u ->
  JsString.toLowerCase (cloudProvider file) = "aws" \/
  JsString.toLowerCase (cloudProvider file) = "gcp" ->
  exists (w' : World Cloud) (p : StorageProvider Cloud) (b : bool),
    FilesService.deleteFile this fileId caller w = (Returned true, w') /\
    files (db w') = base.delete fileId (files (db w)) /\
    StorageService.getProviderByName this (cloudProvider file) = Some p /\
    calls w' = (calls w ++ [CallDeleteFile p (cloudPath file) (Returned b)])%list.
Proof.
  intros aws gcp this Hf Hown Hu Hprov.
  assert (Hp : exists p, StorageService.getProviderByName this (cloudProvider file) = Some p /\
                         (p = aws \/ p = gcp)).
  { rewrite ResolveFacts.getProviderByName_cases.
    destruct Hprov as [-> | ->]; simpl; eexists; split; eauto. }
  destruct Hp as (p & Hp & Hcase).
  assert (Hdel : exists b c', deleteFile p (cloudPath file) (cloud w) = (Returned b, c')).
  { destruct Hcase as [-> | ->]; simpl.
    - apply (AdapterFacts.aws_probe_and_delete_return s3Client s3Bucket).
    - apply (AdapterFacts.gcp_probe_and_delete_return storage gcsBucket). }
  destruct Hdel as (b & c' & Hdel).
  destruct (DeleteFacts.deleteFile_whatever_the_adapter_returns this fileId caller file
              u p b c' w Hf Hown Hu Hp Hdel) as (w' & Hrun & Hfiles & Hcalls).
  exists w', p, b. auto.
Qed.

Lemma owner_delete_returns_whatever_the_back_end_does_witness :
  files (db InMemoryCloud.officeDuringOutage) !! "f1" = Some InMemoryCloud.aliceFile /\
  users (db InMemoryCloud.officeDuringOutage) !! "u1" = Some InMemoryCloud.alice /\
  InMemoryCloud.s3_reachable (cloud InMemoryCloud.officeDuringOutage) = false /\
  exists w',
    FilesService.deleteFile InMemoryCloud.storageService "f1" "u1"
      InMemoryCloud.officeDuringOutage = (Returned true, w') /\
    files (db w') !! "f1" = None.
Proof.
  split; [reflexivity|]. split; [reflexivity|]. split; [reflexivity|].
  destruct (owner_delete_returns_whatever_the_back_end_does InMemoryCloud.s3Client
              InMemoryCloud.storage "files" "us-east-1" "files" "f1" "u1"
              InMemoryCloud.aliceFile InMemoryCloud.alice
              InMemoryCloud.officeDuringOutage eq_refl eq_refl eq_refl
              (or_introl eq_refl))
    as (w' & p & b & Hrun & Hfiles & _).
  exists w'. split; [exact Hrun|]. rewrite Hfiles. apply lookup_delete_eq.
Defined.

(* ===================================================================== *)
(** * The in-memory providers of the test suite *)
(* ===================================================================== *)

(** X13.  The in-memory provider of the test suite is a store: a
    download after an upload under the same key returns the uploaded
    bytes, their length and their content type; the upload leaves every
    other key and the store of the other mock as they were; deleting the
    key returns true, after which a download throws 'File not found'
    and a second delete returns false. *)
Theorem mock_provider_is_a_store (file : Buffer) (path other mimetype : string)
    (c : Mocks.MockCloud) :
  let aws := Mocks.MockAwsS3Provider in
  let gcp := Mocks.MockGcpStorageProvider in
  let c1 := snd (uploadFile aws file path mimetype c) in
  let c2 := snd (deleteFile aws path c1) in
  downloadFile aws path c1 =
    (Returned (mkFileDownloadResult file
                 (JsString.orElse mimetype "application/octet-stream")
                 (bufferLength file)
                 (JsString.orElse (JsString.splitPop "/"%char path) "download")),
     c1) /\
  (other <> path -> fst (downloadFile aws other c1) = fst (downloadFile aws other c)) /\
  fst (downloadFile gcp other c1) = fst (downloadFile gcp other c) /\
  fst (deleteFile aws path c1) = Returned true /\
  downloadFile aws path c2 =
    (Thrown (JsError ("File not found: " ++ path)%string), c2) /\
  deleteFile aws path c2 = (Returned false, c2).
Proof.
  intros aws gcp c1 c2. subst aws gcp c1 c2. simpl.
  unfold Mocks.downloadFile, Mocks.deleteFile, Mocks.uploadFileAs. simpl.
  rewrite !lookup_insert_eq. simpl. rewrite !lookup_delete_eq.
  split; [reflexivity|]. split; [|split; [|repeat split]].
  - intros Hne. rewrite !lookup_insert_ne by congruence.
    destruct (Mocks.mock_files (Mocks.awsStore c) !! other); reflexivity.
  - destruct (Mocks.mock_files (Mocks.gcpStore c) !! other); reflexivity.
Qed.

Lemma mock_provider_is_a_store_witness :
  let c1 := snd (uploadFile Mocks.MockAwsS3Provider [Byte.x68; Byte.x69]
                   "uploads/t1/a.txt" "text/plain" Mocks.nothingStored) in
  "uploads/t1/b.txt" <> "uploads/t1/a.txt" /\
  fst (downloadFile Mocks.MockAwsS3Provider "uploads/t1/a.txt" c1) =
    Returned (mkFileDownloadResult [Byte.x68; Byte.x69] "text/plain" 2 "a.txt") /\
  fst (downloadFile Mocks.MockAwsS3Provider "uploads/t1/b.txt" c1) =
    Thrown (JsError "File not found: uploads/t1/b.txt").
Proof.
  intros c1.
  destruct (mock_provider_is_a_store [Byte.x68; Byte.x69] "uploads/t1/a.txt"
              "uploads/t1/b.txt" "text/plain" Mocks.nothingStored)
    as (H1 & H2 & _).
  split; [discriminate|]. split.
  - subst c1. rewrite H1. reflexivity.
  - subst c1. rewrite H2 by discriminate. reflexivity.
Defined.

(* ===================================================================== *)
(** * Running the services step by step *)
(* ===================================================================== *)

Module RunFacts.
Import Frames.

Section WithCloud.
Context {Cloud : Type}.
Implicit Types (w : World Cloud).

Lemma bind_returned {A B : Type} (m : M A) (k : A -> M B) w w' (b : B) :
  bind m k w = (Returned b, w') ->
  exists a w1, m w = (Returned a, w1) /\ k a w1 = (Returned b, w').
Proof.
  unfold bind. destruct (m w) as [[a|e] w1]; [|discriminate].
  intros H. exists a, w1. split; [reflexivity | exact H].
Qed.

Lemma bind_thrown {A B : Type} (m : M A) (k : A -> M B) w w' (e : Exn) :
  bind m k w = (Thrown e, w') ->
  m w = (Thrown e, w') \/
  exists a w1, m w = (Returned a, w1) /\ k a w1 = (Thrown e, w').
Proof.
  unfold bind. destruct (m w) as [[a|e0] w1].
  - intros H. right. exists a, w1. split; [reflexivity | exact H].
  - intros [= <- <-]. left. reflexivity.
Qed.

Lemma respects_bind {A B : Type} (S : World Cloud -> World Cloud -> Prop)
    (m : M A) (k : A -> M B) :
  (forall w1 w2 w3, S w1 w2 -> S w2 w3 -> S w1 w3) ->
  respects S m -> (forall a, respects S (k a)) -> respects S (bind m k).
Proof.
  intros Htrans Hm Hk w. unfold bind. specialize (Hm w).
  destruct (m w) as [[a|e] w1]; simpl in *; [|exact Hm].
  eapply Htrans; [exact Hm | apply Hk].
Qed.

Lemma respects_tryCatch {A : Type} (S : World Cloud -> World Cloud -> Prop)
    (m : M A) (handler : Exn -> M A) :
  (forall w1 w2 w3, S w1 w2 -> S w2 w3 -> S w1 w3) ->
  respects S m -> (forall e, respects S (handler e)) -> respects S (tryCatch m handler).
Proof.
  intros Htrans Hm Hh w. unfold tryCatch. specialize (Hm w).
  destruct (m w) as [[a|e] w1]; simpl in *; [exact Hm|].
  eapply Htrans; [exact Hm | apply Hh].
Qed.

(** ** Steps that act on the back ends alone *)

Lemma cloudOnly_refl w : cloudOnly w w.
Proof. repeat split. Qed.

Lemma cloudOnly_trans w1 w2 w3 : cloudOnly w1 w2 -> cloudOnly w2 w3 -> cloudOnly w1 w3.
Proof. unfold cloudOnly. intros H1 H2. intuition congruence. Qed.

Lemma callProvider_cloudOnly {A : Type} (call : Cloud -> Outcome A * Cloud)
    (entry : Outcome A -> Call Cloud) :
  respects cloudOnly (callProvider call entry).
Proof.
  intros w. unfold callProvider. destruct (call (cloud w)) as [r c']. repeat split.
Qed.

Lemma uploadFileOver_cloudOnly (ps : list (StorageProvider Cloud)) (file : Buffer)
    (key mimetype : string) :
  respects cloudOnly (StorageService.uploadFileOver ps file key mimetype).
Proof.
  induction ps as [|p ps IH]; [intros w; apply cloudOnly_refl|].
  simpl. apply respects_bind; [exact cloudOnly_trans| |].
  - unfold StorageService.uploadAttempt.
    apply respects_tryCatch; [exact cloudOnly_trans| |intros e w; apply cloudOnly_refl].
    apply respects_bind; [exact cloudOnly_trans|apply callProvider_cloudOnly|].
    intros [|]; [|intros w; apply cloudOnly_refl].
    apply respects_bind; [exact cloudOnly_trans|apply callProvider_cloudOnly|].
    intros r w. apply cloudOnly_refl.
  - intros [r|]; [intros w; apply cloudOnly_refl | exact IH].
Qed.

Lemma storage_deleteFile_cloudOnly (this : StorageService.t Cloud)
    (key provider : string) :
  respects cloudOnly (StorageService.deleteFile this key provider).
Proof.
  unfold StorageService.deleteFile.
  destruct (StorageService.getProviderByName this provider);
    [apply callProvider_cloudOnly | intros w; apply cloudOnly_refl].
Qed.

Lemma storage_uploadFile_frame (this : StorageService.t Cloud) (file : Buffer)
    (key mimetype : string) w w' (o : Outcome FileUploadResult) :
  StorageService.uploadFile this file key mimetype w = (o, w') -> cloudOnly w w'.
Proof.
  intros H.
  pose proof (uploadFileOver_cloudOnly (StorageService.providers this) file key
                mimetype w) as Hframe.
  unfold StorageService.uploadFile in H. rewrite H in Hframe. exact Hframe.
Qed.

Lemma storage_deleteFile_frame (this : StorageService.t Cloud)
    (key provider : string) w w' (o : Outcome bool) :
  StorageService.deleteFile this key provider w = (o, w') -> cloudOnly w w'.
Proof.
  intros H. pose proof (storage_deleteFile_cloudOnly this key provider w) as Hframe.
  rewrite H in Hframe. exact Hframe.
Qed.

(** ** The database calls *)

Lemma file_create_returned (name originalName : string) (size : Z)
    (mimeType cloudProvider cloudPath owner : string) w w' (rec : FileRecord) :
  Prisma.file_create name originalName size mimeType cloudProvider cloudPath owner w =
    (Returned rec, w') ->
  rec = mkFileRecord (uuids w (uuidCount w)) name originalName size mimeType
          cloudProvider cloudPath owner (clock w (clockReads w)) /\
  files (db w) !! file_id rec = None /\
  files (db w') = <[file_id rec := rec]> (files (db w)) /\
  users (db w') = users (db w) /\ usageHistory (db w') = usageHistory (db w) /\
  clock w' = clock w /\ clockReads w' = clockReads w /\ uuids w' = uuids w /\
  env_API_URL w' = env_API_URL w /\ calls w' = calls w /\ cloud w' = cloud w.
Proof.
  unfold Prisma.file_create, bind, freshId, dbNow, getDb, putDb, ret. simpl.
  destruct (files (db w) !! uuids w (uuidCount w)) eqn:Hf; [discriminate|].
  intros [= <- <-]. simpl. repeat split. exact Hf.
Qed.

Lemma file_create_thrown (name originalName : string) (size : Z)
    (mimeType cloudProvider cloudPath owner : string) w w' (e : Exn) :
  Prisma.file_create name originalName size mimeType cloudProvider cloudPath owner w =
    (Thrown e, w') ->
  e = JsError "Unique constraint failed on the fields: (`id`)".
Proof.
  unfold Prisma.file_create, bind, freshId, dbNow, getDb, putDb, ret. simpl.
  destruct (files (db w) !! uuids w (uuidCount w)); [|discriminate].
  intros [= <- _]. reflexivity.
Qed.

Lemma file_delete_returned (id : string) w w' :
  Prisma.file_delete id w = (Returned tt, w') ->
  files (db w') = base.delete id (files (db w)) /\
  users (db w') = users (db w) /\ usageHistory (db w') = usageHistory (db w) /\
  clock w' = clock w /\ clockReads w' = clockReads w /\ uuids w' = uuids w /\
  env_API_URL w' = env_API_URL w /\ calls w' = calls w /\ cloud w' = cloud w.
Proof.
  unfold Prisma.file_delete, bind, getDb, putDb. simpl.
  destruct (files (db w) !! id); [|discriminate].
  intros [= <-]. simpl. repeat split.
Qed.

Lemma findOwnedFile_returned (fileId caller : string) w w' (file : FileRecord) :
  FilesService.findOwnedFile fileId caller w = (Returned file, w') ->
  w' = w /\ files (db w) !! fileId = Some file /\ userId file = caller.
Proof.
  unfold FilesService.findOwnedFile, bind, Prisma.file_findUnique, bind, getDb, ret.
  simpl. destruct (files (db w) !! fileId) as [f|]; [|discriminate].
  destruct (String.eqb_spec (userId f) caller) as [He|Hne]; simpl; [|discriminate].
  intros [= <- <-]. auto.
Qed.

(** ** The usage update *)

(** What the recording leaves of the world beyond the two tables it
    writes. *)
Lemma recordAfterRollover_frame (userId : string) (fileSize : Z) (u1 : User) w1 :
  let w2 := snd (Rollover.recordAfterRollover userId fileSize u1 w1) in
  clock w2 = clock w1 /\ uuids w2 = uuids w1 /\ env_API_URL w2 = env_API_URL w1 /\
  clockReads w2 = S (clockReads w1).
Proof.
  unfold Rollover.recordAfterRollover. cbv zeta.
  destruct (find _ _) as [r|].
  - unfold Prisma.usageHistory_update, bind. simpl.
    destruct (existsb _ _); simpl; repeat split.
  - unfold Prisma.usageHistory_create, bind. simpl. repeat split.
Qed.

(** A usage update either finds no user and throws at once, or returns
    with the user's row incremented after its rollover. *)
Lemma updateUserStorageUsage_cases (userId : string) (fileSize : Z) w :
  (users (db w) !! userId = None /\
   UsersService.updateUserStorageUsage userId fileSize w =
     (Thrown (BadRequestException "User not found"), w)) \/
  exists (u u1 : User) (w1 w' : World Cloud),
    users (db w) !! userId = Some u /\
    UsersService.checkAndResetQuotaIfNeeded userId (nextQuotaResetDate u) w =
      (Returned tt, w1) /\
    users (db w1) = <[userId := u1]> (users (db w)) /\
    Accounts.checkedAt (clock w (clockReads w)) u u1 /\
    UsersService.updateUserStorageUsage userId fileSize w = (Returned tt, w') /\
    users (db w') = <[userId := UsersService.incrementUsage fileSize u1]> (users (db w)) /\
    files (db w') = files (db w) /\ calls w' = calls w /\ cloud w' = cloud w /\
    clock w' = clock w /\ uuids w' = uuids w /\ env_API_URL w' = env_API_URL w.
Proof.
  destruct (users (db w) !! userId) as [u|] eqn:Hu.
  - right.
    destruct (QuotaCallers.updateUserStorageUsage_run userId fileSize u w Hu)
      as (w1 & u1 & Hrun & Hu1 & Hup).
    destruct (UsageFacts.check_step userId u w Hu)
      as (w1' & u1' & Hrun' & Hus & Hchk & _ & Hf & _ & Hca & Hcl & _ & Hid & Hck & Henv & _).
    rewrite Hrun in Hrun'. injection Hrun' as <-.
    assert (u1' = u1) as -> by (rewrite Hus, lookup_insert_eq in Hu1; congruence).
    pose proof (QuotaCallers.recordAfterRollover_returns userId fileSize u1 w1) as Hret.
    destruct (QuotaCallers.recordAfterRollover_effect userId fileSize u1 w1)
      as (Hus2 & Hf2 & Hca2 & Hcl2).
    destruct (recordAfterRollover_frame userId fileSize u1 w1) as (Hck2 & Hid2 & Henv2 & _).
    exists u, u1, w1, (snd (Rollover.recordAfterRollover userId fileSize u1 w1)).
    split; [reflexivity|]. split; [exact Hrun|]. split; [exact Hus|].
    split; [exact Hchk|]. split.
    { rewrite Hup. destruct (Rollover.recordAfterRollover _ _ _ _) as [[[]|e] w2];
        [reflexivity | discriminate Hret]. }
    rewrite Hus2, Hus, insert_insert_eq.
    repeat split; congruence.
  - left. split; [reflexivity|].
    unfold UsersService.updateUserStorageUsage, bind, Prisma.user_findUnique, bind,
      getDb, ret. simpl. rewrite Hu. reflexivity.
Qed.

(** The quota check either finds no user and throws at once, or
    returns. *)
Lemma checkUserStorageQuota_cases (userId : string) (fileSize : Z) w :
  (users (db w) !! userId = None /\
   UsersService.checkUserStorageQuota userId fileSize w =
     (Thrown (BadRequestException "User not found"), w)) \/
  exists (u u1 : User) (w1 : World Cloud),
    users (db w) !! userId = Some u /\
    UsersService.checkAndResetQuotaIfNeeded userId (nextQuotaResetDate u) w =
      (Returned tt, w1) /\
    users (db w1) = <[userId := u1]> (users (db w)) /\
    Accounts.checkedAt (clock w (clockReads w)) u u1 /\
    UsersService.checkUserStorageQuota userId fileSize w =
      (Returned (JsNumber.add (JsNumber.ofBigInt (monthlyUsage u1)) fileSize <=?
                 JsNumber.ofBigInt (maxStorageCapacity u)), w1) /\
    files (db w1) = files (db w) /\ usageHistory (db w1) = usageHistory (db w) /\
    calls w1 = calls w /\ cloud w1 = cloud w /\ uuidCount w1 = uuidCount w /\
    clock w1 = clock w /\ uuids w1 = uuids w /\ env_API_URL w1 = env_API_URL w.
Proof.
  destruct (users (db w) !! userId) as [u|] eqn:Hu.
  - right.
    destruct (QuotaCallers.checkUserStorageQuota_run userId fileSize u w Hu)
      as (w1 & u1 & Hrun & Hu1 & Hq).
    destruct (UsageFacts.check_step userId u w Hu)
      as (w1' & u1' & Hrun' & Hus & Hchk & _ & Hf & Hh & Hca & Hcl & Hn & Hid & Hck & Henv & _).
    rewrite Hrun in Hrun'. injection Hrun' as <-.
    assert (u1' = u1) as -> by (rewrite Hus, lookup_insert_eq in Hu1; congruence).
    exists u, u1, w1. repeat split; assumption.
  - left. split; [reflexivity|].
    unfold UsersService.checkUserStorageQuota, bind, Prisma.user_findUnique, bind,
      getDb, ret. simpl. rewrite Hu. reflexivity.
Qed.

End WithCloud.
End RunFacts.

(* ===================================================================== *)
(** * FilesService: what an upload and a delete leave *)
(* ===================================================================== *)

Module FileRunFacts.
Import Frames RunFacts.

Section WithCloud.
Context {Cloud : Type}.
Variable storageService : StorageService.t Cloud.
Implicit Types (w : World Cloud).

(** An upload that returns went through all its steps. *)
Lemma uploadFile_returned (file : MulterFile) (userId : string) w w'
    (dto : FileResponseDto) :
  FilesService.uploadFile storageService file userId w = (Returned dto, w') ->
  let uniqueFilename :=
    (uuids w (uuidCount w) ++ "." ++
     JsString.splitPop "."%char (originalname file))%string in
  let cloudPath := ("uploads/" ++ userId ++ "/" ++ uniqueFilename)%string in
  exists (u u1 u2 : User) (r : FileUploadResult) (p : StorageProvider Cloud)
         (before : list (Call Cloud)) (n : nat),
    users (db w) !! userId = Some u /\
    Accounts.checkedAt (clock w (clockReads w)) u u1 /\
    (JsNumber.add (JsNumber.ofBigInt (monthlyUsage u1)) (mf_size file) <=?
       JsNumber.ofBigInt (maxStorageCapacity u)) = true /\
    (clockReads w < n)%nat /\
    Accounts.checkedAt (clock w n) u1 u2 /\
    users (db w') =
      <[userId := UsersService.incrementUsage (mf_size file) u2]> (users (db w)) /\
    dto = mkFileResponseDto (uuids w (S (uuidCount w))) uniqueFilename
            (originalname file) (mf_size file) (clock w n) (location r) /\
    files (db w) !! dto_id dto = None /\
    files (db w') =
      <[dto_id dto :=
          mkFileRecord (dto_id dto) uniqueFilename (originalname file) (mf_size file)
            (mf_mimetype file) (provider r) (key r) userId (clock w n)]>
        (files (db w)) /\
    In p (StorageService.providers storageService) /\
    calls w' =
      (calls w ++ before ++
       [CallIsAvailable p (Returned true);
        CallUploadFile p (buffer file) cloudPath (mf_mimetype file) (Returned r)])%list /\
    clock w' = clock w /\ uuids w' = uuids w /\ env_API_URL w' = env_API_URL w.
Proof.
  intros H uniqueFilename cloudPath.
  unfold FilesService.uploadFile in H.
  apply bind_returned in H as (b & w1 & Hq & H).
  destruct (checkUserStorageQuota_cases userId (mf_size file) w)
    as [(_ & Hthrow) | (u & u1 & w1' & Hu & _ & Hus & Hchk & Hq' & Hf1 & _ & Hca1 & _ &
                         Hn1 & Hck1 & Hid1 & Henv1)];
    [rewrite Hthrow in Hq; discriminate|].
  rewrite Hq' in Hq. injection Hq as <- <-.
  destruct (JsNumber.add (JsNumber.ofBigInt (monthlyUsage u1)) (mf_size file) <=?
            JsNumber.ofBigInt (maxStorageCapacity u))
    eqn:Hle; [|discriminate H].
  simpl negb in H. cbv iota in H.
  apply bind_returned in H as (uuid & w2 & Hfresh & H).
  unfold freshId in Hfresh. injection Hfresh as <- <-.
  apply bind_returned in H as (r & w3 & Hup & H).
  apply bind_returned in H as (rec & w4 & Hcr & H).
  apply bind_returned in H as ([] & w5 & Hupd & H).
  unfold ret in H. injection H as <- <-.
  destruct (storage_uploadFile_frame _ _ _ _ _ _ _ Hup)
    as (Hdb3 & Hck3 & Hrd3 & Hid3 & Hn3 & Henv3).
  simpl in Hdb3, Hck3, Hrd3, Hid3, Hn3, Henv3.
  unfold StorageService.uploadFile in Hup.
  destruct (ResolveFacts.upload_returned_by _ _ _ _ _ _ _ Hup)
    as (p & before & _ & _ & Hin & Hcalls3 & _).
  simpl in Hcalls3.
  apply file_create_returned in Hcr
    as (Hrec & Hnone & Hf4 & Hus4 & _ & Hck4 & Hrd4 & Hid4 & Henv4 & Hca4 & _).
  destruct (updateUserStorageUsage_cases userId (mf_size file) w4)
    as [(_ & Hthrow) | (u' & u2 & w4' & w5' & Hu4 & _ & _ & Hchk2 & Hupd' & Hus5 & Hf5 &
                         Hca5 & _ & Hck5 & Hid5 & Henv5)];
    [rewrite Hthrow in Hupd; discriminate|].
  rewrite Hupd' in Hupd. injection Hupd as <-.
  assert (u' = u1) as ->.
  { rewrite Hus4, Hdb3, Hus, lookup_insert_eq in Hu4. congruence. }
  rewrite Hid1, Hn1 in *.
  assert (Hfile_id : file_id rec = uuids w (S (uuidCount w))).
  { rewrite Hrec. simpl. rewrite Hid3, Hn3. reflexivity. }
  exists u, u1, u2, r, p, before, (clockReads w1').
  split; [exact Hu|]. split; [exact Hchk|]. split; [exact Hle|].
  split.
  { destruct (UsageFacts.check_step userId u w Hu)
      as (wa & ua & Hra & _ & _ & _ & _ & _ & _ & _ & _ & _ & _ & _ & Hlt).
    destruct (QuotaCallers.checkUserStorageQuota_run userId (mf_size file) u w Hu)
      as (wb & ub & Hrb & _ & Hqb).
    rewrite Hq' in Hqb. injection Hqb as _ <-.
    rewrite Hra in Hrb. injection Hrb as <-. exact Hlt. }
  split.
  { rewrite <- Hck1, <- Hck3, <- Hck4, <- Hrd3, <- Hrd4. exact Hchk2. }
  split.
  { rewrite Hus5, Hus4, Hdb3, Hus. apply insert_insert_eq. }
  assert (Hdto :
    mkFileResponseDto (file_id rec) (name rec) (originalName rec) (file_size rec)
      (uploadedAt rec) (location r) =
    mkFileResponseDto (uuids w (S (uuidCount w))) uniqueFilename (originalname file)
      (mf_size file) (clock w (clockReads w1')) (location r)).
  { rewrite Hfile_id. rewrite Hrec. simpl.
    rewrite Hck3, Hrd3, Hck1. reflexivity. }
  split; [exact Hdto|].
  rewrite Hdto. simpl dto_id.
  split; [rewrite <- Hfile_id, <- Hf1, <- Hdb3; exact Hnone|].
  split.
  { rewrite Hf5, Hf4, Hdb3, Hf1, Hfile_id. f_equal.
    rewrite Hrec. simpl. rewrite Hid3, Hn3, Hck3, Hrd3, Hck1. reflexivity. }
  split; [exact Hin|].
  split; [rewrite Hca5, Hca4, Hcalls3, Hca1; reflexivity|].
  repeat split; congruence.
Qed.

(** A delete that returns went through all its steps. *)
Lemma deleteFile_returned (fileId caller : string) w w' (b : bool) :
  FilesService.deleteFile storageService fileId caller w = (Returned b, w') ->
  exists (file : FileRecord) (u u1 : User) (n : nat),
    b = true /\
    files (db w) !! fileId = Some file /\ userId file = caller /\
    files (db w') = base.delete fileId (files (db w)) /\
    users (db w) !! caller = Some u /\
    (clockReads w <= n)%nat /\ Accounts.checkedAt (clock w n) u u1 /\
    users (db w') =
      <[caller := UsersService.incrementUsage (file_size file * -1) u1]>
        (users (db w)) /\
    clock w' = clock w /\ uuids w' = uuids w /\ env_API_URL w' = env_API_URL w.
Proof.
  intros H. unfold FilesService.deleteFile in H.
  apply bind_returned in H as (file & w1 & Hfind & H).
  apply findOwnedFile_returned in Hfind as (-> & Hf & Hown).
  apply bind_returned in H as (stored & w2 & Hdel & H).
  destruct (storage_deleteFile_frame _ _ _ _ _ _ Hdel)
    as (Hdb2 & Hck2 & Hrd2 & Hid2 & Hn2 & Henv2).
  apply bind_returned in H as ([] & w3 & Hrm & H).
  apply file_delete_returned in Hrm
    as (Hf3 & Hus3 & _ & Hck3 & Hrd3 & Hid3 & Henv3 & _).
  apply bind_returned in H as ([] & w4 & Hupd & H).
  unfold ret in H. injection H as <- <-.
  destruct (updateUserStorageUsage_cases caller (file_size file * -1) w3)
    as [(_ & Hthrow) | (u & u1 & w3' & w4' & Hu & _ & _ & Hchk & Hupd' & Hus4 & Hf4 &
                         _ & _ & Hck4 & Hid4 & Henv4)];
    [rewrite Hthrow in Hupd; discriminate|].
  rewrite Hupd' in Hupd. injection Hupd as <-.
  exists file, u, u1, (clockReads w3).
  split; [reflexivity|]. split; [exact Hf|]. split; [exact Hown|].
  split; [rewrite Hf4, Hf3, Hdb2; reflexivity|].
  split; [rewrite <- Hdb2, <- Hus3; exact Hu|].
  split; [rewrite Hrd3, Hrd2; lia|].
  split; [rewrite <- Hck2, <- Hck3; exact Hchk|].
  split; [rewrite Hus4, Hus3, Hdb2; reflexivity|].
  repeat split; congruence.
Qed.

End WithCloud.
End FileRunFacts.

(** X14.  A successful upload within the quota cycle (no reset is due at
    any reading of the clock) leaves exactly one new file record and the
    usage raised by the size of the file; when the user's usage and
    capacity are safe integers, the file fitted the quota.  The
    record has a fresh id, the caller as owner, the client's name, size
    and content type, and the provider id and key of the result some
    configured provider returned for the upload under
    'uploads/<user>/<uuid>.<extension>', that provider's upload being the
    last call made; the answer carries the record's id, names, size and
    time and the location the provider gave. *)
Theorem successful_upload_records_file_and_usage {Cloud : Type}
    (storageService : StorageService.t Cloud) (file : MulterFile)
    (userId : string) (u : User) (w : World Cloud) (dto : FileResponseDto) :
  users (db w) !! userId = Some u ->
  (forall n, UsersService.resetIsDue (nextQuotaResetDate u) (clock w n) = false) ->
  let out := FilesService.uploadFile storageService file userId w in
  fst out = Returned dto ->
  exists (r : FileUploadResult) (p : StorageProvider Cloud) (before : list (Call Cloud)),
    (JsNumber.isSafeInteger (monthlyUsage u) ->
     JsNumber.isSafeInteger (maxStorageCapacity u) ->
     monthlyUsage u + mf_size file <= maxStorageCapacity u) /\
    users (db (snd out)) =
      <[userId := UsersService.incrementUsage (mf_size file) u]> (users (db w)) /\
    files (db w) !! dto_id dto = None /\
    files (db (snd out)) =
      <[dto_id dto :=
          mkFileRecord (dto_id dto) (dto_name dto) (originalname file) (mf_size file)
            (mf_mimetype file) (provider r) (key r) userId (dto_uploadedAt dto)]>
        (files (db w)) /\
    dto_originalName dto = originalname file /\ dto_size dto = mf_size file /\
    url dto = location r /\
    In p (StorageService.providers storageService) /\
    calls (snd out) =
      (calls w ++ before ++
       [CallIsAvailable p (Returned true);
        CallUploadFile p (buffer file)
          ("uploads/" ++ userId ++ "/" ++ dto_name dto)%string
          (mf_mimetype file) (Returned r)])%list.
Proof.
  intros Hu Hnever out Hret. subst out.
  destruct (FilesService.uploadFile storageService file userId w) as [o w'] eqn:Hrun.
  simpl in Hret. subst o. simpl.
  destruct (FileRunFacts.uploadFile_returned storageService file userId w w' dto Hrun)
    as (u0 & u1 & u2 & r & p & before & n & Hu0 & Hc1 & Hle & _ & Hc2 & Hus & Hdto &
        Hnone & Hfiles & Hin & Hcalls & _).
  rewrite Hu in Hu0. injection Hu0 as <-.
  unfold Accounts.checkedAt in Hc1. rewrite Hnever in Hc1. subst u1.
  unfold Accounts.checkedAt in Hc2. rewrite Hnever in Hc2. subst u2.
  exists r, p, before. rewrite Hdto in *. simpl in *.
  split; [|repeat split; assumption].
  intros Hsafe Hcap.
  rewrite (JsNumberFacts.safe_comparison _ _ _ Hsafe Hcap) in Hle.
  apply Z.leb_le. exact Hle.
Qed.

Lemma successful_upload_records_file_and_usage_witness :
  let w := InMemoryCloud.aliceInJanuary in
  let out := FilesService.uploadFile InMemoryCloud.storageService InMemoryCloud.report
               "u1" w in
  users (db w) !! "u1" = Some InMemoryCloud.alice /\
  (forall n, UsersService.resetIsDue (nextQuotaResetDate InMemoryCloud.alice)
               (clock w n) = false) /\
  (exists dto, fst out = Returned dto) /\
  users (db (snd out)) =
    <[ "u1" := UsersService.incrementUsage 400 InMemoryCloud.alice ]> (users (db w)).
Proof.
  intros w out.
  set (dto := mkFileResponseDto "uuid-1" "uuid-0.pdf" "report.pdf" 400
                InMemoryCloud.mid_january_2025
                "https://files.s3.us-east-1.amazonaws.com/uploads/u1/uuid-0.pdf").
  assert (Hret : fst out = Returned dto) by (vm_compute; reflexivity).
  assert (Hnever : forall n, UsersService.resetIsDue
                               (nextQuotaResetDate InMemoryCloud.alice)
                               (clock w n) = false)
    by (intros n; vm_compute; reflexivity).
  split; [reflexivity|]. split; [exact Hnever|].
  split; [exists dto; exact Hret|].
  destruct (successful_upload_records_file_and_usage InMemoryCloud.storageService
              InMemoryCloud.report "u1" InMemoryCloud.alice w dto eq_refl Hnever Hret)
    as (r & p & before & _ & Hus & _).
  exact Hus.
Defined.

(** X15.  When an upload ends in [ServiceUnavailableException], it is
    the orchestrator's 'All storage providers are unavailable': the user
    exists, every configured provider was tried in order and failed, and
    no record was created and no usage booked.  The database is as the rollover of the quota check left it,
    and unchanged when no reset was due. *)
Theorem upload_without_a_provider_changes_no_record {Cloud : Type}
    (storageService : StorageService.t Cloud) (file : MulterFile)
    (userId : string) (w : World Cloud) (message : string) :
  let out := FilesService.uploadFile storageService file userId w in
  let cloudPath :=
    ("uploads/" ++ userId ++ "/" ++ uuids w (uuidCount w) ++ "." ++
     JsString.splitPop "."%char (originalname file))%string in
  fst out = Thrown (ServiceUnavailableException message) ->
  message = "All storage providers are unavailable" /\
  exists u : User,
    users (db w) !! userId = Some u /\
    db (snd out) =
      db (snd (UsersService.checkAndResetQuotaIfNeeded userId
                 (nextQuotaResetDate u) w)) /\
    files (db (snd out)) = files (db w) /\
    usageHistory (db (snd out)) = usageHistory (db w) /\
    (UsersService.resetIsDue (nextQuotaResetDate u) (clock w (clockReads w)) = false ->
     db (snd out) = db w) /\
    exists attempts : list (list (Call Cloud)),
      Forall2 (Failover.FailedAttempt
                 (Failover.uploadEntry (buffer file) cloudPath (mf_mimetype file)))
        (StorageService.providers storageService) attempts /\
      calls (snd out) = (calls w ++ concat attempts)%list.
Proof.
  intros out cloudPath Hthrown. subst out.
  destruct (FilesService.uploadFile storageService file userId w) as [o w'] eqn:Hrun.
  simpl in Hthrown. subst o. simpl.
  unfold FilesService.uploadFile in Hrun.
  destruct (RunFacts.checkUserStorageQuota_cases userId (mf_size file) w)
    as [(_ & Hq) | (u & u1 & w1 & Hu & Hchk & _ & _ & Hq & Hf1 & Hh1 & Hca1 & _ &
                    Hn1 & _ & Hid1 & _)].
  { apply RunFacts.bind_thrown in Hrun as [Hrun | (b & w1 & Hrun & _)];
      rewrite Hq in Hrun; discriminate. }
  apply RunFacts.bind_thrown in Hrun as [Hrun | (b & w1' & Hrun & H)];
    [rewrite Hq in Hrun; discriminate|].
  rewrite Hq in Hrun. injection Hrun as <- <-.
  destruct (JsNumber.add (JsNumber.ofBigInt (monthlyUsage u1)) (mf_size file) <=?
            JsNumber.ofBigInt (maxStorageCapacity u));
    [|discriminate H].
  simpl negb in H. cbv iota in H.
  apply RunFacts.bind_thrown in H as [H | (uuid & w2 & Hfresh & H)]; [discriminate H|].
  unfold freshId in Hfresh. injection Hfresh as <- <-.
  apply RunFacts.bind_thrown in H as [Hup | (r & w3 & _ & H)].
  - destruct (RunFacts.storage_uploadFile_frame _ _ _ _ _ _ _ Hup) as (Hdb & _).
    simpl in Hdb.
    pose proof (OrchestratorFacts.uploadFileOver_run
                  (StorageService.providers storageService) (buffer file)
                  ("uploads/" ++ userId ++ "/" ++ uuids w1 (uuidCount w1) ++ "." ++
                   JsString.splitPop "."%char (originalname file))%string
                  (mf_mimetype file)
                  (mkWorld (db w1) (cloud w1) (clock w1) (clockReads w1) (uuids w1)
                     (S (uuidCount w1)) (env_API_URL w1) (calls w1))) as Hfail.
    unfold StorageService.uploadFile in Hup. rewrite Hup in Hfail.
    destruct Hfail as (_ & _ & _ & log & Hcalls & _ & He & attempts & Hatt & ->).
    injection He as ->. simpl in Hcalls.
    split; [reflexivity|]. exists u.
    split; [exact Hu|]. split; [rewrite Hchk; exact Hdb|].
    split; [rewrite Hdb; exact Hf1|]. split; [rewrite Hdb; exact Hh1|].
    split.
    + intros Hnot. rewrite Hdb.
      rewrite (QuotaFacts.checkAndReset_not_due userId _ w Hnot) in Hchk.
      injection Hchk as <-. reflexivity.
    + exists attempts. subst cloudPath. rewrite <- Hid1, <- Hn1, <- Hca1.
      split; [exact Hatt | exact Hcalls].
  - apply RunFacts.bind_thrown in H as [Hcr | (rec & w4 & Hcr & H)].
    + apply RunFacts.file_create_thrown in Hcr. discriminate Hcr.
    + apply RunFacts.bind_thrown in H as [Hupd | (x & w5 & _ & H)]; [|discriminate H].
      destruct (RunFacts.updateUserStorageUsage_cases userId (mf_size file) w4)
        as [(_ & Hthrow) | (_ & _ & _ & w5 & _ & _ & _ & _ & Hret & _)];
        rewrite Hupd in *; discriminate.
Qed.

Lemma upload_without_a_provider_changes_no_record_witness :
  let w := InMemoryCloud.world InMemoryCloud.aliceOnly
             (InMemoryCloud.mkCloud ∅ false ∅ false)
             (fun _ => InMemoryCloud.mid_january_2025) in
  let out := FilesService.uploadFile InMemoryCloud.storageService InMemoryCloud.report
               "u1" w in
  fst out = Thrown (ServiceUnavailableException "All storage providers are unavailable") /\
  db (snd out) = db w.
Proof.
  intros w out.
  assert (Hthrown : fst out = Thrown (ServiceUnavailableException
                                        "All storage providers are unavailable"))
    by (vm_compute; reflexivity).
  split; [exact Hthrown|].
  destruct (upload_without_a_provider_changes_no_record InMemoryCloud.storageService
              InMemoryCloud.report "u1" w _ Hthrown)
    as (_ & u & Hu & _ & _ & _ & Hsame & _).
  apply Hsame.
  change (users (db w) !! "u1") with (Some InMemoryCloud.alice) in Hu.
  injection Hu as <-. vm_compute. reflexivity.
Defined.

(** X16.  A delete that returns returns true and has removed the record:
    from then on the metadata read, the download and a second delete of
    that id throw [NotFoundException] ('File not found') for every
    caller, the former owner included, and change nothing. *)
Theorem deleted_file_is_gone_for_everyone {Cloud : Type}
    (storageService : StorageService.t Cloud)
    (storageService_downloadFile :
       StorageService.t Cloud -> string -> string -> M FileDownloadResult)
    (fileId caller : string) (w : World Cloud) (b : bool) :
  let out := FilesService.deleteFile storageService fileId caller w in
  fst out = Returned b ->
  b = true /\
  files (db (snd out)) = base.delete fileId (files (db w)) /\
  forall anyone : string,
    FilesService.getFile fileId anyone (snd out) =
      (Thrown (NotFoundException "File not found"), snd out) /\
    FilesService.getFileForDownload storageService storageService_downloadFile
      fileId anyone (snd out) =
      (Thrown (NotFoundException "File not found"), snd out) /\
    FilesService.deleteFile storageService fileId anyone (snd out) =
      (Thrown (NotFoundException "File not found"), snd out).
Proof.
  intros out Hret. subst out.
  destruct (FilesService.deleteFile storageService fileId caller w) as [o w'] eqn:Hrun.
  simpl in Hret. subst o. simpl.
  destruct (FileRunFacts.deleteFile_returned storageService fileId caller w w' b Hrun)
    as (file & u & u1 & n & -> & _ & _ & Hfiles & _).
  split; [reflexivity|]. split; [exact Hfiles|].
  intros anyone.
  assert (Hgone : FilesService.findOwnedFile fileId anyone w' =
                    (Thrown (NotFoundException "File not found"), w')).
  { apply OwnershipFacts.findOwnedFile_not_found. left.
    rewrite Hfiles. apply lookup_delete_eq. }
  unfold FilesService.getFile, FilesService.getFileForDownload, FilesService.deleteFile.
  unfold bind at 1. rewrite Hgone.
  split; [reflexivity|]. split; unfold bind at 1; rewrite Hgone; reflexivity.
Qed.

Lemma deleted_file_is_gone_for_everyone_witness :
  let out := FilesService.deleteFile InMemoryCloud.storageService "f1" "u1"
               InMemoryCloud.office in
  fst out = Returned true /\
  FilesService.getFile "f1" "u1" (snd out) =
    (Thrown (NotFoundException "File not found"), snd out).
Proof.
  intros out.
  assert (Hret : fst out = Returned true) by (vm_compute; reflexivity).
  split; [exact Hret|].
  destruct (deleted_file_is_gone_for_everyone InMemoryCloud.storageService
              StorageService.downloadFile "f1" "u1" InMemoryCloud.office true Hret)
    as (_ & _ & Hall).
  apply (Hall "u1").
Defined.

(** X17.  The answer of a successful upload can be read back: a metadata
    read of its id by the uploader returns the same id, stored name,
    original name, size and upload time, with the download address of
    the API as url, and changes nothing; for any other caller the read
    throws [NotFoundException]. *)
Theorem uploaded_file_can_be_read_back {Cloud : Type}
    (storageService : StorageService.t Cloud) (file : MulterFile)
    (userId : string) (w : World Cloud) (dto : FileResponseDto) :
  let out := FilesService.uploadFile storageService file userId w in
  fst out = Returned dto ->
  FilesService.getFile (dto_id dto) userId (snd out) =
    (Returned (mkFileResponseDto (dto_id dto) (dto_name dto) (dto_originalName dto)
                 (dto_size dto) (dto_uploadedAt dto)
                 (env_API_URL w ++ "/files/download/" ++ dto_id dto)%string),
     snd out) /\
  dto_originalName dto = originalname file /\ dto_size dto = mf_size file /\
  forall other : string,
    other <> userId ->
    FilesService.getFile (dto_id dto) other (snd out) =
      (Thrown (NotFoundException "File not found"), snd out).
Proof.
  intros out Hret. subst out.
  destruct (FilesService.uploadFile storageService file userId w) as [o w'] eqn:Hrun.
  simpl in Hret. subst o. simpl.
  destruct (FileRunFacts.uploadFile_returned storageService file userId w w' dto Hrun)
    as (u0 & u1 & u2 & r & p & before & n & _ & _ & _ & _ & _ & _ & Hdto &
        _ & Hfiles & _ & _ & _ & _ & Henv).
  set (rec := mkFileRecord (dto_id dto)
                (uuids w (uuidCount w) ++ "." ++
                 JsString.splitPop "."%char (originalname file))%string
                (originalname file) (mf_size file) (mf_mimetype file)
                (provider r) (key r) userId (clock w n)) in *.
  assert (Hrec : files (db w') !! dto_id dto = Some rec)
    by (rewrite Hfiles; apply lookup_insert_eq).
  split; [|split; [rewrite Hdto; reflexivity|split; [rewrite Hdto; reflexivity|]]].
  - unfold FilesService.getFile, bind at 1.
    rewrite (OwnershipFacts.findOwnedFile_owner _ userId rec w' Hrec eq_refl).
    unfold bind, getApiUrl, ret. simpl. rewrite Henv, Hdto. reflexivity.
  - intros other Hne.
    unfold FilesService.getFile, bind at 1.
    rewrite OwnershipFacts.findOwnedFile_not_found; [reflexivity|].
    right. exists rec. split; [exact Hrec|]. simpl. congruence.
Qed.

Lemma uploaded_file_can_be_read_back_witness :
  let w := InMemoryCloud.aliceInJanuary in
  let out := FilesService.uploadFile InMemoryCloud.storageService InMemoryCloud.report
               "u1" w in
  exists dto,
    fst out = Returned dto /\
    FilesService.getFile (dto_id dto) "u1" (snd out) =
      (Returned (mkFileResponseDto "uuid-1" "uuid-0.pdf" "report.pdf" 400
                   InMemoryCloud.mid_january_2025
                   "http://localhost:3000/files/download/uuid-1"),
       snd out).
Proof.
  intros w out.
  set (dto := mkFileResponseDto "uuid-1" "uuid-0.pdf" "report.pdf" 400
                InMemoryCloud.mid_january_2025
                "https://files.s3.us-east-1.amazonaws.com/uploads/u1/uuid-0.pdf").
  assert (Hret : fst out = Returned dto) by (vm_compute; reflexivity).
  exists dto. split; [exact Hret|].
  destruct (uploaded_file_can_be_read_back InMemoryCloud.storageService
              InMemoryCloud.report "u1" w dto Hret) as (Hget & _).
  exact Hget.
Defined.

(** X18.  Within the quota cycle (no reset is due at any reading of the
    clock), a successful upload followed by a successful delete of the
    uploaded file by the same user leaves the user table and the file
    records exactly as they were before the upload: the usage is back to
    its old value and the catalogue holds the same records. *)
Theorem upload_then_delete_restores_usage_and_catalogue {Cloud : Type}
    (storageService : StorageService.t Cloud) (file : MulterFile)
    (userId : string) (u : User) (w : World Cloud) (dto : FileResponseDto) (b : bool) :
  users (db w) !! userId = Some u ->
  (forall n, UsersService.resetIsDue (nextQuotaResetDate u) (clock w n) = false) ->
  let uploaded := FilesService.uploadFile storageService file userId w in
  fst uploaded = Returned dto ->
  let deleted := FilesService.deleteFile storageService (dto_id dto) userId
                   (snd uploaded) in
  fst deleted = Returned b ->
  b = true /\
  users (db (snd deleted)) = users (db w) /\
  files (db (snd deleted)) = files (db w).
Proof.
  intros Hu Hnever uploaded Hup deleted Hdel. subst uploaded deleted.
  destruct (FilesService.uploadFile storageService file userId w) as [o w1] eqn:Hrun1.
  simpl in *. subst o.
  destruct (FilesService.deleteFile storageService (dto_id dto) userId w1)
    as [o w2] eqn:Hrun2.
  simpl in *. subst o.
  destruct (FileRunFacts.uploadFile_returned storageService file userId w w1 dto Hrun1)
    as (u0 & u1 & u2 & r & p & before & n & Hu0 & Hc1 & _ & _ & Hc2 & Hus1 & _ &
        Hnone & Hfiles1 & _ & _ & Hck1 & _).
  rewrite Hu in Hu0. injection Hu0 as <-.
  unfold Accounts.checkedAt in Hc1. rewrite Hnever in Hc1. subst u1.
  unfold Accounts.checkedAt in Hc2. rewrite Hnever in Hc2. subst u2.
  destruct (FileRunFacts.deleteFile_returned storageService (dto_id dto) userId w1 w2 b
              Hrun2)
    as (rec & u1 & u2 & m & -> & Hrec & _ & Hfiles2 & Hu1 & _ & Hc3 & Hus2 & _).
  rewrite Hfiles1, lookup_insert_eq in Hrec. injection Hrec as <-.
  rewrite Hus1, lookup_insert_eq in Hu1. injection Hu1 as <-.
  unfold Accounts.checkedAt in Hc3. rewrite Hck1 in Hc3. simpl in Hc3.
  rewrite Hnever in Hc3. subst u2.
  split; [reflexivity|]. split.
  - rewrite Hus2, Hus1, insert_insert_eq. simpl.
    apply insert_id. rewrite Hu. f_equal.
    destruct u as [i nm ad us nx cap]. unfold UsersService.incrementUsage. simpl.
    f_equal. lia.
  - rewrite Hfiles2, Hfiles1. apply delete_insert_id. exact Hnone.
Qed.

Lemma upload_then_delete_restores_usage_and_catalogue_witness :
  let w := InMemoryCloud.aliceInJanuary in
  let uploaded := FilesService.uploadFile InMemoryCloud.storageService
                    InMemoryCloud.report "u1" w in
  let deleted := FilesService.deleteFile InMemoryCloud.storageService "uuid-1" "u1"
                   (snd uploaded) in
  users (db w) !! "u1" = Some InMemoryCloud.alice /\
  fst deleted = Returned true /\
  users (db (snd deleted)) = users (db w) /\
  files (db (snd deleted)) = files (db w).
Proof.
  intros w uploaded deleted.
  set (dto := mkFileResponseDto "uuid-1" "uuid-0.pdf" "report.pdf" 400
                InMemoryCloud.mid_january_2025
                "https://files.s3.us-east-1.amazonaws.com/uploads/u1/uuid-0.pdf").
  assert (Hup : fst uploaded = Returned dto) by (vm_compute; reflexivity).
  assert (Hdel : fst deleted = Returned true) by (vm_compute; reflexivity).
  assert (Hnever : forall n, UsersService.resetIsDue
                               (nextQuotaResetDate InMemoryCloud.alice)
                               (clock w n) = false)
    by (intros n; vm_compute; reflexivity).
  split; [reflexivity|]. split; [exact Hdel|].
  apply (upload_then_delete_restores_usage_and_catalogue InMemoryCloud.storageService
           InMemoryCloud.report "u1" InMemoryCloud.alice w dto true eq_refl Hnever
           Hup Hdel).
Defined.

(* ===================================================================== *)
(** * FilesService.getUserFiles *)
(* ===================================================================== *)

Module ListingFacts.
Import FilesListing.

Lemma orderByUploadedAtDesc_In (x : FileRecord) (rows : list FileRecord) :
  In x (orderByUploadedAtDesc rows) <-> In x rows.
Proof. apply (OrderFacts.sort_In uploadedAt insertNewest); reflexivity. Qed.

Lemma orderByUploadedAtDesc_sorted (rows : list FileRecord) :
  StronglySorted (Ordering.descending uploadedAt) (orderByUploadedAtDesc rows).
Proof. apply (OrderFacts.sort_sorted uploadedAt insertNewest); reflexivity. Qed.

Lemma orderByUploadedAtDesc_Permutation (rows : list FileRecord) :
  Permutation (orderByUploadedAtDesc rows) rows.
Proof. apply (OrderFacts.sort_Permutation uploadedAt insertNewest); reflexivity. Qed.

(** The rows of a table are its values. *)
Lemma In_rows {A : Type} (m : gmap string A) (x : A) :
  In x (map snd (map_to_list m)) <-> exists k, m !! k = Some x.
Proof.
  rewrite in_map_iff. split.
  - intros ([k y] & <- & Hin). exists k.
    apply elem_of_map_to_list, list_elem_of_In. exact Hin.
  - intros (k & Hk). exists (k, x). split; [reflexivity|].
    apply list_elem_of_In, elem_of_map_to_list. exact Hk.
Qed.

(** A selection of rows with distinct ids has distinct ids. *)
Lemma NoDup_map_filter {A B : Type} (f : A -> B) (p : A -> bool) (l : list A) :
  List.NoDup (map f l) -> List.NoDup (map f (List.filter p l)).
Proof.
  induction l as [|x l IH]; intros Hl; [constructor|].
  simpl in Hl. apply List.NoDup_cons_iff in Hl as (Hx & Hl). simpl.
  destruct (p x); [|apply IH; exact Hl].
  simpl. apply List.NoDup_cons_iff. split; [|apply IH; exact Hl].
  intros Hin. apply Hx. apply in_map_iff in Hin as (y & Hy & Hin).
  apply in_map_iff. exists y. split; [exact Hy|]. apply filter_In in Hin. tauto.
Qed.

Lemma ids_of_rows (table : gmap string FileRecord) :
  map_Forall (fun k file => file_id file = k) table ->
  map file_id (Listings.rows table) = map fst (map_to_list table).
Proof.
  intros Hkeyed. unfold Listings.rows. rewrite List.map_map.
  apply map_ext_in. intros [k file] Hin. simpl.
  apply (Hkeyed k file). apply elem_of_map_to_list, list_elem_of_In. exact Hin.
Qed.

Lemma owned_ids_NoDup (caller : string) (table : gmap string FileRecord) :
  map_Forall (fun k file => file_id file = k) table ->
  List.NoDup (map file_id (Listings.ownedFiles caller table)).
Proof.
  intros Hkeyed. unfold Listings.ownedFiles. apply NoDup_map_filter.
  rewrite (ids_of_rows table Hkeyed).
  apply NoDup_ListNoDup. rewrite <- ResetAllFacts.fmap_is_map.
  apply NoDup_fst_map_to_list.
Qed.

End ListingFacts.

(** X19.  The listing never throws and changes nothing.  It holds
    exactly the records whose owner is the caller, each as the answer
    [getFile] builds for it, newest upload first: it is a rearrangement
    of the answers for the caller's records, one for each record and
    none twice, so it is as long as the caller has records; no record of
    another user is ever listed.  When the file table is keyed by record
    id, a metadata read of any listed id by the caller returns the
    listed entry, and no id is listed twice. *)
Theorem getUserFiles_lists_exactly_the_callers_files {Cloud : Type}
    (caller : string) (w : World Cloud) :
  exists dtos : list FileResponseDto,
    FilesListing.getUserFiles caller w = (Returned dtos, w) /\
    StronglySorted (Ordering.descending dto_uploadedAt) dtos /\
    Permutation dtos
      (map (FilesListing.toDto (env_API_URL w))
         (Listings.ownedFiles caller (files (db w)))) /\
    length dtos = length (Listings.ownedFiles caller (files (db w))) /\
    (forall dto : FileResponseDto,
       In dto dtos <->
       exists (k : string) (file : FileRecord),
         files (db w) !! k = Some file /\ userId file = caller /\
         dto = FilesListing.toDto (env_API_URL w) file) /\
    (map_Forall (fun k file => file_id file = k) (files (db w)) ->
     forall dto : FileResponseDto,
       In dto dtos ->
       FilesService.getFile (dto_id dto) caller w = (Returned dto, w)) /\
    (map_Forall (fun k file => file_id file = k) (files (db w)) ->
     NoDup (map dto_id dtos)).
Proof.
  set (mine := FilesListing.orderByUploadedAtDesc
                 (List.filter (FilesListing.ownedBy caller)
                    (map snd (map_to_list (files (db w)))))).
  assert (Hmine : forall file, In file mine <->
            exists k, files (db w) !! k = Some file /\ userId file = caller).
  { intros file. unfold mine.
    rewrite ListingFacts.orderByUploadedAtDesc_In, filter_In, ListingFacts.In_rows.
    unfold FilesListing.ownedBy. rewrite String.eqb_eq. split.
    - intros ((k & Hk) & Ho). exists k. auto.
    - intros (k & Hk & Ho). split; [exists k; exact Hk | exact Ho]. }
  assert (Hin : forall dto, In dto (map (FilesListing.toDto (env_API_URL w)) mine) <->
            exists k file, files (db w) !! k = Some file /\ userId file = caller /\
                           dto = FilesListing.toDto (env_API_URL w) file).
  { intros dto. rewrite in_map_iff. split.
    - intros (file & <- & Hf). apply Hmine in Hf as (k & Hk & Ho).
      exists k, file. auto.
    - intros (k & file & Hk & Ho & ->). exists file. split; [reflexivity|].
      apply Hmine. exists k. auto. }
  exists (map (FilesListing.toDto (env_API_URL w)) mine).
  assert (Hperm : Permutation mine (Listings.ownedFiles caller (files (db w))))
    by apply ListingFacts.orderByUploadedAtDesc_Permutation.
  split; [reflexivity|]. split; [|split; [|split; [|split; [exact Hin|split]]]].
  5:{ intros Hkeyed. apply NoDup_ListNoDup. rewrite List.map_map.
      change (List.NoDup (map file_id mine)).
      apply (Permutation_NoDup (l := map file_id
                                        (Listings.ownedFiles caller (files (db w))))).
      - apply Permutation_map. symmetry. exact Hperm.
      - apply ListingFacts.owned_ids_NoDup. exact Hkeyed. }
  - apply (OrderFacts.map_sorted uploadedAt dto_uploadedAt); [reflexivity|].
    apply ListingFacts.orderByUploadedAtDesc_sorted.
  - apply Permutation_map. exact Hperm.
  - rewrite length_map. apply Permutation_length. exact Hperm.
  - intros Hkeyed dto Hdto. apply Hin in Hdto as (k & file & Hk & Ho & ->).
    pose proof (Hkeyed k file Hk) as Hid. simpl in Hid.
    unfold FilesService.getFile, bind at 1. simpl FilesListing.toDto.
    simpl dto_id. rewrite Hid.
    rewrite (OwnershipFacts.findOwnedFile_owner k caller file w Hk Ho).
    unfold bind, getApiUrl, ret. simpl. unfold FilesListing.toDto. rewrite Hid.
    reflexivity.
Qed.

Lemma getUserFiles_lists_exactly_the_callers_files_witness :
  exists dtos : list FileResponseDto,
    FilesListing.getUserFiles "u1" InMemoryCloud.office =
      (Returned dtos, InMemoryCloud.office) /\
    length dtos = 2%nat /\
    fst (FilesListing.getUserFiles "u2" InMemoryCloud.office) = Returned [].
Proof.
  destruct (getUserFiles_lists_exactly_the_callers_files "u1" InMemoryCloud.office)
    as (dtos & Hrun & _).
  exists dtos. split; [exact Hrun|].
  assert (Hids : length
                   match fst (FilesListing.getUserFiles "u1" InMemoryCloud.office) with
                   | Returned l => l
                   | Thrown _ => []
                   end = 2%nat) by (vm_compute; reflexivity).
  rewrite Hrun in Hids. split; [exact Hids | vm_compute; reflexivity].
Defined.

(* ===================================================================== *)
(** * Sessions: what requests leave alone *)
(* ===================================================================== *)

Module IsolationFacts.
Import Frames RunFacts.

Section WithCloud.
Context {Cloud : Type}.
Implicit Types (w : World Cloud).

Lemma touchesOnly_refl (userId : string) (keep : string -> Prop) w :
  touchesOnly userId keep w w.
Proof. repeat split; auto. Qed.

Lemma touchesOnly_trans (userId : string) (keep : string -> Prop) w1 w2 w3 :
  touchesOnly userId keep w1 w2 -> touchesOnly userId keep w2 w3 ->
  touchesOnly userId keep w1 w3.
Proof.
  intros (Hc1 & Hi1 & He1 & Ho1 & Ha1 & Hf1) (Hc2 & Hi2 & He2 & Ho2 & Ha2 & Hf2).
  split; [congruence|]. split; [congruence|]. split; [congruence|].
  split; [|split].
  - intros other Hne. rewrite Ho2, Ho1 by exact Hne. reflexivity.
  - intros id. rewrite Ha2, Ha1. reflexivity.
  - intros f rec Hk Hf. apply Hf2; [exact Hk|]. apply Hf1; assumption.
Qed.

(** A step that leaves the database and the oracles alone. *)
Lemma touchesOnly_same_db (userId : string) (keep : string -> Prop) w w' :
  db w' = db w -> clock w' = clock w -> uuids w' = uuids w ->
  env_API_URL w' = env_API_URL w -> touchesOnly userId keep w w'.
Proof.
  intros Hdb Hc Hi He. unfold touchesOnly. rewrite Hdb. repeat split; auto.
Qed.

Lemma cloudOnly_touchesOnly (userId : string) (keep : string -> Prop) w w' :
  cloudOnly w w' -> touchesOnly userId keep w w'.
Proof.
  intros (Hdb & Hc & _ & Hi & _ & He). apply touchesOnly_same_db; assumption.
Qed.

(** A step that replaces the row of [userId] by one of the same account
    and leaves the file records alone. *)
Lemma touchesOnly_row (userId : string) (keep : string -> Prop) (u u' : User) w w' :
  users (db w) !! userId = Some u -> accountOf u' = accountOf u ->
  users (db w') = <[userId := u']> (users (db w)) -> files (db w') = files (db w) ->
  clock w' = clock w -> uuids w' = uuids w -> env_API_URL w' = env_API_URL w ->
  touchesOnly userId keep w w'.
Proof.
  intros Hu Hacc Hus Hf Hc Hi He. unfold touchesOnly. rewrite Hus, Hf.
  repeat split; auto.
  - intros other Hne. apply lookup_insert_ne. congruence.
  - intros id. destruct (decide (id = userId)) as [-> | Hne].
    + rewrite lookup_insert_eq, Hu. simpl. rewrite Hacc. reflexivity.
    + rewrite lookup_insert_ne by congruence. reflexivity.
Qed.

Lemma checkedAt_account (now : Z) (u u' : User) :
  Accounts.checkedAt now u u' -> accountOf u' = accountOf u.
Proof.
  unfold Accounts.checkedAt.
  destruct (UsersService.resetIsDue _ _); [intros (next & -> & _) | intros ->];
    reflexivity.
Qed.

Lemma checkUserStorageQuota_touches (userId : string) (keep : string -> Prop)
    (fileSize : Z) :
  respects (Cloud := Cloud) (touchesOnly userId keep) (UsersService.checkUserStorageQuota userId fileSize).
Proof.
  intros w.
  destruct (checkUserStorageQuota_cases userId fileSize w)
    as [(_ & ->) | (u & u1 & w1 & Hu & _ & Hus & Hchk & -> & Hf & _ & _ & _ & _ &
                    Hc & Hi & He)];
    [apply touchesOnly_refl|].
  simpl.
  apply (touchesOnly_row userId keep u u1 w w1 Hu (checkedAt_account _ _ _ Hchk)
           Hus Hf Hc Hi He).
Qed.

Lemma updateUserStorageUsage_touches (userId : string) (keep : string -> Prop)
    (fileSize : Z) :
  respects (Cloud := Cloud) (touchesOnly userId keep)
    (UsersService.updateUserStorageUsage userId fileSize).
Proof.
  intros w.
  destruct (updateUserStorageUsage_cases userId fileSize w)
    as [(_ & ->) | (u & u1 & w1 & w' & Hu & _ & _ & Hchk & -> & Hus & Hf & _ & _ &
                    Hc & Hi & He)];
    [apply touchesOnly_refl|].
  simpl.
  assert (Hacc : accountOf (UsersService.incrementUsage fileSize u1) = accountOf u)
    by (rewrite <- (checkedAt_account _ _ _ Hchk); reflexivity).
  apply (touchesOnly_row userId keep u _ w w' Hu Hacc Hus Hf Hc Hi He).
Qed.

Lemma file_create_touches (userId : string) (name originalName : string) (size : Z)
    (mimeType cloudProvider cloudPath owner : string) :
  respects (Cloud := Cloud) (touchesOnly userId (fun _ => True))
    (Prisma.file_create name originalName size mimeType cloudProvider cloudPath owner).
Proof.
  intros w. unfold Prisma.file_create, bind, freshId, dbNow, getDb, putDb, ret. simpl.
  destruct (files (db w) !! uuids w (uuidCount w)) eqn:Hf; simpl.
  - repeat split; auto.
  - repeat split; auto. intros f rec _ Hrec. simpl.
    rewrite lookup_insert_ne; [exact Hrec | congruence].
Qed.

Lemma file_delete_touches (userId fileId : string) :
  respects (Cloud := Cloud) (touchesOnly userId (fun f => f <> fileId)) (Prisma.file_delete fileId).
Proof.
  intros w. unfold Prisma.file_delete, bind, getDb, putDb. simpl.
  destruct (files (db w) !! fileId) eqn:Hf; simpl.
  - repeat split; auto. intros f' rec Hne Hrec. simpl.
    rewrite lookup_delete_ne; [exact Hrec | congruence].
  - repeat split; auto.
Qed.

Variable storageService : StorageService.t Cloud.

Lemma uploadFile_touches (file : MulterFile) (userId : string) :
  respects (Cloud := Cloud) (touchesOnly userId (fun _ => True))
    (FilesService.uploadFile storageService file userId).
Proof.
  unfold FilesService.uploadFile.
  apply respects_bind; [apply touchesOnly_trans|apply checkUserStorageQuota_touches|].
  intros [|]; simpl; [|intros w; apply touchesOnly_refl].
  apply respects_bind; [apply touchesOnly_trans| |].
  { intros w. apply touchesOnly_same_db; reflexivity. }
  intros uuid.
  apply respects_bind; [apply touchesOnly_trans| |].
  { intros w. apply cloudOnly_touchesOnly.
    apply (uploadFileOver_cloudOnly (StorageService.providers storageService)). }
  intros r.
  apply respects_bind; [apply touchesOnly_trans|apply file_create_touches|].
  intros rec.
  apply respects_bind; [apply touchesOnly_trans|apply updateUserStorageUsage_touches|].
  intros _ w. apply touchesOnly_refl.
Qed.

Lemma deleteFile_touches (fileId userId : string) :
  respects (Cloud := Cloud) (touchesOnly userId (fun f => f <> fileId))
    (FilesService.deleteFile storageService fileId userId).
Proof.
  unfold FilesService.deleteFile.
  apply respects_bind; [apply touchesOnly_trans| |].
  { intros w. destruct (FilesService.findOwnedFile fileId userId w) as [[file|e] w']
      eqn:Hfind.
    - apply findOwnedFile_returned in Hfind as (-> & _). apply touchesOnly_refl.
    - assert (w' = w) as ->; [|apply touchesOnly_refl].
      unfold FilesService.findOwnedFile, bind, Prisma.file_findUnique, bind, getDb,
        ret, throw in Hfind. simpl in Hfind.
      destruct (files (db w) !! fileId) as [f|]; [|congruence].
      destruct (negb _); simpl in Hfind; congruence. }
  intros file.
  apply respects_bind; [apply touchesOnly_trans| |].
  { intros w. apply cloudOnly_touchesOnly. apply storage_deleteFile_cloudOnly. }
  intros stored.
  apply respects_bind; [apply touchesOnly_trans|apply file_delete_touches|].
  intros _.
  apply respects_bind; [apply touchesOnly_trans|apply updateUserStorageUsage_touches|].
  intros _ w. apply touchesOnly_refl.
Qed.

(** One request touches only what its requester may touch. *)
Lemma handle_touches (req : Request) w :
  touchesOnly (requester req) (Sessions.keeps req) w
    (Session.handle storageService w req).
Proof.
  destruct req as [file userId | fileId userId]; simpl.
  - apply uploadFile_touches.
  - apply deleteFile_touches.
Qed.

End WithCloud.
End IsolationFacts.

(** X20.  No sequence of upload and delete requests, failed ones
    included, changes an account: no user appears or disappears, and
    the id, the name, the administrator flag and the storage capacity of
    every user stay as they were. *)
Theorem requests_never_change_an_account {Cloud : Type}
    (storageService : StorageService.t Cloud) (reqs : list Request)
    (w : World Cloud) (id : string) :
  Frames.accountOf <$> users (db (Session.handleAll storageService reqs w)) !! id =
  Frames.accountOf <$> users (db w) !! id.
Proof.
  revert w. induction reqs as [|req reqs IH]; intros w; [reflexivity|].
  unfold Session.handleAll in *. simpl. rewrite IH.
  destruct (IsolationFacts.handle_touches storageService req w)
    as (_ & _ & _ & _ & Hacc & _).
  apply Hacc.
Qed.

(** X21.  Requests made for other users leave a user alone: after any
    sequence of upload and delete requests none of which is made for
    [victim], failed ones included, the row of [victim] (usage and reset
    instant with it) is as it was and every file record [victim] owned
    is still there, unchanged. *)
Theorem requests_of_others_leave_a_user_alone {Cloud : Type}
    (storageService : StorageService.t Cloud) (reqs : list Request)
    (victim : string) (w : World Cloud) :
  Forall (fun req => Frames.requester req <> victim) reqs ->
  let w' := Session.handleAll storageService reqs w in
  users (db w') !! victim = users (db w) !! victim /\
  forall (f : string) (rec : FileRecord),
    files (db w) !! f = Some rec -> userId rec = victim ->
    files (db w') !! f = Some rec.
Proof.
  intros Hreqs. revert w.
  induction Hreqs as [|req reqs Hreq _ IH]; intros w; [simpl; auto|].
  unfold Session.handleAll in *. simpl.
  destruct (IH (Session.handle storageService w req)) as (IHu & IHf).
  destruct (IsolationFacts.handle_touches storageService req w)
    as (_ & _ & _ & Hothers & _ & Hfiles).
  split.
  - rewrite IHu. apply Hothers. congruence.
  - intros f rec Hf Hown. apply IHf; [|exact Hown].
    destruct req as [file userId | fileId userId]; simpl in *.
    + apply Hfiles; [exact I | exact Hf].
    + destruct (String.eqb_spec f fileId) as [-> | Hne].
      * unfold FilesService.deleteFile, bind at 1.
        rewrite OwnershipFacts.findOwnedFile_not_found; [exact Hf|].
        right. exists rec. split; [exact Hf | congruence].
      * apply Hfiles; [exact Hne | exact Hf].
Qed.

Lemma requests_of_others_leave_a_user_alone_witness :
  let reqs := [UploadRequest InMemoryCloud.report "u2"; DeleteRequest "f1" "u2"] in
  let w' := Session.handleAll InMemoryCloud.storageService reqs InMemoryCloud.office in
  Forall (fun req => Frames.requester req <> "u1") reqs /\
  users (db w') !! "u1" = Some InMemoryCloud.alice /\
  files (db w') !! "f1" = Some InMemoryCloud.aliceFile /\
  monthlyUsage <$> users (db w') !! "u2" = Some 400.
Proof.
  intros reqs w'.
  assert (Hreqs : Forall (fun req => Frames.requester req <> "u1") reqs)
    by (repeat constructor; discriminate).
  destruct (requests_of_others_leave_a_user_alone InMemoryCloud.storageService reqs
              "u1" InMemoryCloud.office Hreqs) as (Hu & Hf).
  split; [exact Hreqs|]. split; [exact Hu|].
  split; [apply (Hf "f1" InMemoryCloud.aliceFile); reflexivity|].
  vm_compute. reflexivity.
Defined.

(* ===================================================================== *)
(** * The daily ledger under uploads *)
(* ===================================================================== *)

Module NonNegativeFacts.
Import DailyLedger RunFacts Sessions.

Section WithCloud.
Context {Cloud : Type}.
Implicit Types (w : World Cloud).

Lemma preserves_history {A : Type} (m : M A) :
  (forall w, usageHistory (db (snd (m w))) = usageHistory (db w)) ->
  preserves (Cloud := Cloud) nonNegative m.
Proof. intros H w Hw. unfold nonNegative. rewrite H. exact Hw. Qed.

Lemma recordAfterRollover_nonNegative (userId : string) (fileSize : Z) (u1 : User) w1 :
  0 <= fileSize -> nonNegative w1 ->
  nonNegative (snd (Rollover.recordAfterRollover userId fileSize u1 w1)).
Proof.
  intros Hsize Hw. unfold nonNegative, neverNegative in *.
  unfold Rollover.recordAfterRollover. cbv zeta.
  destruct (find _ _) as [r|].
  - unfold Prisma.usageHistory_update, bind. simpl.
    destruct (existsb _ _); simpl; [|exact Hw].
    apply Forall_forall. intros x Hx.
    apply list_elem_of_In, in_map_iff in Hx as (y & <- & Hy).
    rewrite Forall_forall in Hw. specialize (Hw y (proj2 (list_elem_of_In _ _) Hy)).
    destruct (String.eqb (uh_id y) (uh_id r)); simpl; lia.
  - unfold Prisma.usageHistory_create, bind. simpl.
    apply Forall_app. split; [exact Hw|]. repeat constructor. simpl. exact Hsize.
Qed.

Lemma updateUserStorageUsage_nonNegative (userId : string) (fileSize : Z) :
  0 <= fileSize ->
  preserves (Cloud := Cloud) nonNegative
    (UsersService.updateUserStorageUsage userId fileSize).
Proof.
  intros Hsize w Hw.
  destruct (users (db w) !! userId) as [u|] eqn:Hu.
  - destruct (QuotaCallers.updateUserStorageUsage_run userId fileSize u w Hu)
      as (w1 & u1 & Hrun & _ & ->).
    destruct (UsageFacts.check_step userId u w Hu)
      as (w1' & _ & Hrun' & _ & _ & _ & _ & Hh & _).
    rewrite Hrun in Hrun'. injection Hrun' as <-.
    apply recordAfterRollover_nonNegative; [exact Hsize|].
    unfold nonNegative. rewrite Hh. exact Hw.
  - destruct (updateUserStorageUsage_cases userId fileSize w)
      as [(_ & ->) | (u & _ & _ & _ & Hu' & _)]; [exact Hw | congruence].
Qed.

Lemma checkUserStorageQuota_nonNegative (userId : string) (fileSize : Z) :
  preserves (Cloud := Cloud) nonNegative
    (UsersService.checkUserStorageQuota userId fileSize).
Proof.
  apply preserves_history. intros w.
  destruct (checkUserStorageQuota_cases userId fileSize w)
    as [(_ & ->) | (u & u1 & w1 & _ & _ & _ & _ & -> & _ & Hh & _)];
    [reflexivity | exact Hh].
Qed.

Variable storageService : StorageService.t Cloud.

Lemma uploadFile_nonNegative (file : MulterFile) (userId : string) :
  0 <= mf_size file ->
  preserves (Cloud := Cloud) nonNegative
    (FilesService.uploadFile storageService file userId).
Proof.
  intros Hsize. unfold FilesService.uploadFile.
  apply LedgerFacts.preserves_bind; [apply checkUserStorageQuota_nonNegative|].
  intros [|]; simpl; [|intros w Hw; exact Hw].
  apply LedgerFacts.preserves_bind; [apply preserves_history; reflexivity|].
  intros uuid.
  apply LedgerFacts.preserves_bind.
  { apply preserves_history. intros w.
    destruct (uploadFileOver_cloudOnly (StorageService.providers storageService)
                (buffer file)
                ("uploads/" ++ userId ++ "/" ++ uuid ++ "." ++
                 JsString.splitPop "."%char (originalname file))%string
                (mf_mimetype file) w) as (Hdb & _).
    unfold StorageService.uploadFile. rewrite Hdb. reflexivity. }
  intros r.
  apply LedgerFacts.preserves_bind.
  { apply preserves_history. intros w.
    unfold Prisma.file_create, bind, freshId, dbNow, getDb, putDb, ret. simpl.
    destruct (files (db w) !! uuids w (uuidCount w)); reflexivity. }
  intros rec.
  apply LedgerFacts.preserves_bind;
    [apply updateUserStorageUsage_nonNegative; exact Hsize|].
  intros _ w Hw. exact Hw.
Qed.

End WithCloud.
End NonNegativeFacts.

(** X22.  Uploads alone never make a ledger entry negative: if no entry
    of the usage history is negative, none is after any sequence of
    upload requests of files of a size no less than 0, failed uploads
    included. *)
Theorem uploads_keep_the_ledger_non_negative {Cloud : Type}
    (storageService : StorageService.t Cloud) (reqs : list Request)
    (w : World Cloud) :
  Sessions.uploadsOnly reqs ->
  DailyLedger.neverNegative (usageHistory (db w)) ->
  DailyLedger.neverNegative
    (usageHistory (db (Session.handleAll storageService reqs w))).
Proof.
  intros Hreqs. revert w.
  induction Hreqs as [|req reqs Hreq _ IH]; intros w Hw; [exact Hw|].
  unfold Session.handleAll in *. simpl. apply IH.
  destruct req as [file userId | fileId userId]; [|destruct Hreq].
  apply (NonNegativeFacts.uploadFile_nonNegative storageService file userId Hreq w Hw).
Qed.

Lemma uploads_keep_the_ledger_non_negative_witness :
  let reqs := [UploadRequest InMemoryCloud.report "u1";
               UploadRequest InMemoryCloud.report "u2"] in
  let w' := Session.handleAll InMemoryCloud.storageService reqs InMemoryCloud.office in
  Sessions.uploadsOnly reqs /\
  DailyLedger.neverNegative (usageHistory (db InMemoryCloud.office)) /\
  DailyLedger.neverNegative (usageHistory (db w')) /\
  map usageBytes (usageHistory (db w')) = [1000; 400].
Proof.
  intros reqs w'.
  assert (Hreqs : Sessions.uploadsOnly reqs)
    by (repeat constructor; vm_compute; discriminate).
  assert (Hw : DailyLedger.neverNegative (usageHistory (db InMemoryCloud.office)))
    by (repeat constructor; vm_compute; discriminate).
  split; [exact Hreqs|]. split; [exact Hw|].
  split; [|vm_compute; reflexivity].
  apply (uploads_keep_the_ledger_non_negative InMemoryCloud.storageService reqs
           InMemoryCloud.office Hreqs Hw).
Defined.

(* ===================================================================== *)
(** * Upload and download through the in-memory providers *)
(* ===================================================================== *)

Module MockRunFacts.
Import Mocks.

(** The orchestrator over the two mocks stores every upload in the
    first. *)
Lemma mock_upload_run (file : Buffer) (path mimetype : string) (w : World MockCloud) :
  let service := StorageService.new MockAwsS3Provider MockGcpStorageProvider in
  exists w' : World MockCloud,
    StorageService.uploadFile service file path mimetype w =
      (Returned (mkFileUploadResult "aws" ("mock://storage/" ++ path)%string path
                   (bufferLength file)), w') /\
    mock_files (awsStore (cloud w')) !! path = Some file /\
    mock_mimetypes (awsStore (cloud w')) !! path = Some mimetype.
Proof.
  eexists. split; [reflexivity|]. simpl. rewrite !lookup_insert_eq. auto.
Qed.

(** Both revisions of the download read an object the first mock holds. *)
Lemma mock_download_run (file : Buffer) (path mimetype : string) (w : World MockCloud) :
  let service := StorageService.new MockAwsS3Provider MockGcpStorageProvider in
  mock_files (awsStore (cloud w)) !! path = Some file ->
  mock_mimetypes (awsStore (cloud w)) !! path = Some mimetype ->
  let r := mkFileDownloadResult file
             (JsString.orElse mimetype "application/octet-stream") (bufferLength file)
             (JsString.orElse (JsString.splitPop "/"%char path) "download") in
  fst (StorageService.downloadFile service path "aws" w) = Returned r /\
  fst (StorageService.downloadFileOrNotify service path "aws" w) = Returned r.
Proof.
  intros service Hf Hm r.
  unfold StorageService.downloadFile, StorageService.downloadFileOrNotify, bind,
    StorageService.downloadFromSelected, StorageService.downloadAttempt, tryCatch, bind,
    StorageService.askIsAvailable, StorageService.askDownloadFile, callProvider.
  simpl. unfold Mocks.downloadFile. rewrite Hf, Hm. simpl. split; reflexivity.
Qed.

End MockRunFacts.

(** X23.  Through the in-memory providers of the test suite, a file that
    was uploaded is downloaded as it was: after a successful upload, the
    uploader's download of the returned id gives back, under either
    revision of the storage service, the uploaded bytes and their
    length, the content type of the upload ('application/octet-stream'
    for an empty one) and the client's original name; the record names
    'aws', the first provider. *)
Theorem mock_upload_then_download_returns_the_bytes (file : MulterFile)
    (uploader : string) (w : World Mocks.MockCloud) (dto : FileResponseDto) :
  let service :=
    StorageService.new Mocks.MockAwsS3Provider Mocks.MockGcpStorageProvider in
  let uploaded := FilesService.uploadFile service file uploader w in
  fst uploaded = Returned dto ->
  let expected :=
    mkFileForDownload (buffer file)
      (JsString.orElse (mf_mimetype file) "application/octet-stream")
      (bufferLength (buffer file)) (originalname file) in
  fst (FilesService.getFileForDownload service StorageService.downloadFile
         (dto_id dto) uploader (snd uploaded)) = Returned expected /\
  fst (FilesService.getFileForDownload service StorageService.downloadFileOrNotify
         (dto_id dto) uploader (snd uploaded)) = Returned expected /\
  cloudProvider <$> files (db (snd uploaded)) !! dto_id dto = Some "aws".
Proof.
  intros service uploaded Hret expected. subst uploaded.
  destruct (FilesService.uploadFile service file uploader w) as [o w'] eqn:Hrun.
  simpl in Hret. subst o. simpl.
  unfold FilesService.uploadFile in Hrun.
  apply RunFacts.bind_returned in Hrun as (b & w1 & _ & H).
  destruct b; [|discriminate H]. simpl negb in H. cbv iota in H.
  apply RunFacts.bind_returned in H as (uuid & w2 & _ & H).
  apply RunFacts.bind_returned in H as (r & w3 & Hup & H).
  apply RunFacts.bind_returned in H as (rec & w4 & Hcr & H).
  apply RunFacts.bind_returned in H as ([] & w5 & Hupd & H).
  unfold ret in H. injection H as <- <-.
  destruct (MockRunFacts.mock_upload_run (buffer file)
              ("uploads/" ++ uploader ++ "/" ++ uuid ++ "." ++
               JsString.splitPop "."%char (originalname file))%string
              (mf_mimetype file) w2) as (w3' & Hup' & Hbytes & Hmime).
  fold service in Hup'. rewrite Hup' in Hup. injection Hup as <- <-.
  apply RunFacts.file_create_returned in Hcr
    as (Hrec & _ & Hf4 & _ & _ & _ & _ & _ & _ & _ & Hcl4).
  destruct (RunFacts.updateUserStorageUsage_cases uploader (mf_size file) w4)
    as [(_ & Hthrow) | (_ & _ & _ & w5' & _ & _ & _ & _ & Hupd' & _ & Hf5 & _ & Hcl5 & _)];
    [rewrite Hthrow in Hupd; discriminate|].
  rewrite Hupd' in Hupd. injection Hupd as <-.
  assert (Hlook : files (db w5') !! file_id rec = Some rec)
    by (rewrite Hf5, Hf4; apply lookup_insert_eq).
  assert (Hown : userId rec = uploader) by (rewrite Hrec; reflexivity).
  rewrite <- Hcl4, <- Hcl5 in Hbytes, Hmime.
  destruct (MockRunFacts.mock_download_run (buffer file) _ (mf_mimetype file) w5'
              Hbytes Hmime) as (Hd1 & Hd2).
  fold service in Hd1, Hd2. simpl dto_id.
  assert (Hpath : cloudPath rec =
            ("uploads/" ++ uploader ++ "/" ++ uuid ++ "." ++
             JsString.splitPop "."%char (originalname file))%string)
    by (rewrite Hrec; reflexivity).
  assert (Hprov : cloudProvider rec = "aws") by (rewrite Hrec; reflexivity).
  assert (Hname : originalName rec = originalname file) by (rewrite Hrec; reflexivity).
  split; [|split].
  - unfold FilesService.getFileForDownload, bind at 1.
    rewrite (OwnershipFacts.findOwnedFile_owner _ uploader rec w5' Hlook Hown).
    unfold bind at 1. rewrite Hpath, Hprov.
    destruct (StorageService.downloadFile service _ "aws" w5') as [o6 w6].
    simpl in Hd1. subst o6. unfold ret. simpl. rewrite Hname. reflexivity.
  - unfold FilesService.getFileForDownload, bind at 1.
    rewrite (OwnershipFacts.findOwnedFile_owner _ uploader rec w5' Hlook Hown).
    unfold bind at 1. rewrite Hpath, Hprov.
    destruct (StorageService.downloadFileOrNotify service _ "aws" w5') as [o6 w6].
    simpl in Hd2. subst o6. unfold ret. simpl. rewrite Hname. reflexivity.
  - rewrite Hlook. simpl. rewrite Hprov. reflexivity.
Qed.

Lemma mock_upload_then_download_returns_the_bytes_witness :
  let service :=
    StorageService.new Mocks.MockAwsS3Provider Mocks.MockGcpStorageProvider in
  let uploaded := FilesService.uploadFile service Mocks.testFile "t1"
                    (Mocks.world Mocks.nothingStored) in
  exists dto,
    fst uploaded = Returned dto /\
    fst (FilesService.getFileForDownload service StorageService.downloadFile
           (dto_id dto) "t1" (snd uploaded)) =
    Returned (mkFileForDownload [Byte.x68; Byte.x69] "text/plain" 2
                "test-fallback-file.txt").
Proof.
  intros service uploaded.
  set (dto := mkFileResponseDto "b" "a.txt" "test-fallback-file.txt" 2
                (JsDate.newDate 2025 0 16 12 0 0 0)
                "mock://storage/uploads/t1/a.txt").
  assert (Hret : fst uploaded = Returned dto) by (vm_compute; reflexivity).
  exists dto. split; [exact Hret|].
  destruct (mock_upload_then_download_returns_the_bytes Mocks.testFile "t1"
              (Mocks.world Mocks.nothingStored) dto Hret) as (Hd & _).
  exact Hd.
Defined.

(* ===================================================================== *)
(** * A user without a reset instant *)
(* ===================================================================== *)

(** X24.  For a user whose row holds no reset instant the reset-check is
    always due: it reads the clock a second time, sets the usage to 0
    and starts the roll-forward from that second reading.  When the
    second reading is later than the first, the loop does not run and
    the stored reset instant is the second reading itself, no month
    added; when both readings are equal, it is one month after them. *)
Theorem check_without_reset_instant_starts_from_now {Cloud : Type}
    (w : World Cloud) (userId : string) (u : User) :
  users (db w) !! userId = Some u -> nextQuotaResetDate u = None ->
  let now := clock w (clockReads w) in
  let again := clock w (S (clockReads w)) in
  let out := UsersService.checkAndResetQuotaIfNeeded userId None w in
  fst out = Returned tt /\ clockReads (snd out) = S (S (clockReads w)) /\
  exists u' : User,
    users (db (snd out)) !! userId = Some u' /\ monthlyUsage u' = 0 /\
    (now < again -> nextQuotaResetDate u' = Some again) /\
    (again = now -> nextQuotaResetDate u' = Some (UsersService.addOneMonth now)).
Proof.
  intros Hu Hnone now again out. subst out.
  assert (Due : UsersService.resetIsDue (nextQuotaResetDate u) now = true)
    by (rewrite Hnone; reflexivity).
  pose proof (QuotaFacts.checkAndReset_due userId u w Hu Due) as Run.
  rewrite Hnone in Run. rewrite Run.
  unfold Rollover.afterReset, Rollover.startOfRoll. rewrite Hnone. simpl.
  split; [reflexivity|]. split; [reflexivity|].
  eexists. split; [apply lookup_insert_eq|]. simpl. split; [reflexivity|].
  fold now again. split.
  - intros Hlater. rewrite CycleBounds.rollForward_not_due by exact Hlater. reflexivity.
  - intros ->. f_equal.
    destruct (CycleFacts.rollForward_spec now now) as (k & -> & Hafter & Hbefore).
    pose proof (CycleFacts.addOneMonth_grows now) as Hgrow.
    assert (Hone : now < Nat.iter 1 UsersService.addOneMonth now)
      by (simpl; unfold JsDate.msPerDay in Hgrow; lia).
    assert (k = 1%nat) as ->; [|reflexivity].
    apply (CycleFacts.first_after_unique now now); try assumption.
    intros j Hj. assert (j = 0%nat) as -> by lia. simpl. lia.
Qed.

Lemma check_without_reset_instant_starts_from_now_witness :
  let carl := mkUser "u4" "carl" false 700 None 1000 in
  let w := InMemoryCloud.world (mkDatabase {["u4" := carl]} ∅ []) InMemoryCloud.allUp
             (fun n => InMemoryCloud.mid_january_2025 + Z.of_nat n) in
  users (db w) !! "u4" = Some carl /\
  exists u' : User,
    users (db (snd (UsersService.checkAndResetQuotaIfNeeded "u4" None w))) !! "u4" =
      Some u' /\
    monthlyUsage u' = 0 /\
    nextQuotaResetDate u' = Some (InMemoryCloud.mid_january_2025 + 1).
Proof.
  intros carl w.
  split; [reflexivity|].
  destruct (check_without_reset_instant_starts_from_now w "u4" carl eq_refl eq_refl)
    as (_ & _ & u' & Hu' & Hzero & Hlater & _).
  exists u'. split; [exact Hu'|]. split; [exact Hzero|].
  apply Hlater. vm_compute. reflexivity.
Defined.

(* ===================================================================== *)
(** * The quota under uploads *)
(* ===================================================================== *)

Module QuotaSafetyFacts.
Import Frames RunFacts Quota.

Section WithCloud.
Context {Cloud : Type}.
Variable storageService : StorageService.t Cloud.
Implicit Types (w : World Cloud).

(** An upload that throws has written nothing to the user table but the
    rollover of its quota check. *)
Lemma uploadFile_thrown_users (file : MulterFile) (userId : string) w w' (e : Exn) :
  FilesService.uploadFile storageService file userId w = (Thrown e, w') ->
  users (db w') = users (db w) \/
  exists u u1 : User,
    users (db w) !! userId = Some u /\
    Accounts.checkedAt (clock w (clockReads w)) u u1 /\
    users (db w') = <[userId := u1]> (users (db w)).
Proof.
  intros Hrun. unfold FilesService.uploadFile in Hrun.
  destruct (checkUserStorageQuota_cases userId (mf_size file) w)
    as [(_ & Hq) | (u & u1 & w1 & Hu & _ & Hus & Hchk & Hq & _)].
  { left. apply bind_thrown in Hrun as [Hrun | (b & w1 & Hrun & _)];
      rewrite Hq in Hrun; [injection Hrun as _ <-; reflexivity | discriminate]. }
  right. exists u, u1. split; [exact Hu|]. split; [exact Hchk|].
  apply bind_thrown in Hrun as [Hrun | (b & w1' & Hrun & H)];
    [rewrite Hq in Hrun; discriminate|].
  rewrite Hq in Hrun. injection Hrun as <- <-.
  destruct (JsNumber.add (JsNumber.ofBigInt (monthlyUsage u1)) (mf_size file) <=?
            JsNumber.ofBigInt (maxStorageCapacity u)).
  2:{ simpl in H. unfold throw in H. injection H as _ <-. exact Hus. }
  simpl negb in H. cbv iota in H.
  apply bind_thrown in H as [H | (uuid & w2 & Hfresh & H)]; [discriminate H|].
  unfold freshId in Hfresh. injection Hfresh as <- <-.
  apply bind_thrown in H as [Hup | (r & w3 & Hup & H)].
  { destruct (storage_uploadFile_frame _ _ _ _ _ _ _ Hup) as (Hdb & _).
    rewrite Hdb. exact Hus. }
  destruct (storage_uploadFile_frame _ _ _ _ _ _ _ Hup) as (Hdb3 & _).
  simpl in Hdb3.
  apply bind_thrown in H as [Hcr | (rec & w4 & Hcr & H)].
  { unfold Prisma.file_create, bind, freshId, dbNow, getDb, putDb, ret, throw in Hcr.
    simpl in Hcr.
    destruct (files (db w3) !! uuids w3 (uuidCount w3)); [|discriminate Hcr].
    injection Hcr as _ <-. simpl. rewrite Hdb3. exact Hus. }
  apply file_create_returned in Hcr as (_ & _ & _ & Hus4 & _).
  apply bind_thrown in H as [Hupd | (x & w5 & _ & H)]; [|discriminate H].
  destruct (updateUserStorageUsage_cases userId (mf_size file) w4)
    as [(Hnone & _) | (_ & _ & _ & w5 & _ & _ & _ & _ & Hret & _)].
  - rewrite Hus4, Hdb3, Hus, lookup_insert_eq in Hnone. discriminate Hnone.
  - rewrite Hupd in Hret. discriminate Hret.
Qed.

(** Replacing a row by one within its quota keeps the table within
    quota. *)
Lemma withinQuota_insert (userId : string) (u' : User) w w' :
  withinQuota w -> users (db w') = <[userId := u']> (users (db w)) ->
  0 <= monthlyUsage u' <= maxStorageCapacity u' -> withinQuota w'.
Proof.
  intros Hw Hus Hu'. unfold withinQuota in *. rewrite Hus.
  apply map_Forall_insert_2; assumption.
Qed.

(** A reset-check leaves a row within its quota within its quota, with
    a usage no greater than before. *)
Lemma checkedAt_within (now : Z) (u u' : User) :
  Accounts.checkedAt now u u' ->
  0 <= monthlyUsage u <= maxStorageCapacity u ->
  0 <= monthlyUsage u' <= monthlyUsage u /\
  maxStorageCapacity u' = maxStorageCapacity u.
Proof.
  unfold Accounts.checkedAt.
  destruct (UsersService.resetIsDue _ _); [intros (next & -> & _) | intros ->];
    simpl; lia.
Qed.

Lemma safeCapacities_insert (userId : string) (u' : User) w w' :
  safeCapacities w -> users (db w') = <[userId := u']> (users (db w)) ->
  JsNumber.isSafeInteger (maxStorageCapacity u') -> safeCapacities w'.
Proof.
  intros Hw Hus Hu'. unfold safeCapacities in *. rewrite Hus.
  apply map_Forall_insert_2; assumption.
Qed.

(** Under a safe capacity, a check that says yes for a row within its
    quota means that the file fits. *)
Lemma fits_when_admitted (u1 : User) (capacity fileSize : Z) :
  0 <= monthlyUsage u1 <= capacity -> JsNumber.isSafeInteger capacity ->
  (JsNumber.add (JsNumber.ofBigInt (monthlyUsage u1)) fileSize <=?
     JsNumber.ofBigInt capacity) = true ->
  monthlyUsage u1 + fileSize <= capacity.
Proof.
  intros Hin Hcap Hle.
  rewrite JsNumberFacts.safe_comparison in Hle; [apply Z.leb_le; exact Hle | | exact Hcap].
  unfold JsNumber.isSafeInteger, JsNumber.MAX_SAFE_INTEGER in *. lia.
Qed.

Lemma uploadFile_withinQuota (file : MulterFile) (userId : string) w :
  0 <= mf_size file -> safeCapacities w -> withinQuota w ->
  safeCapacities (snd (FilesService.uploadFile storageService file userId w)) /\
  withinQuota (snd (FilesService.uploadFile storageService file userId w)).
Proof.
  intros Hsize Hsafe Hw.
  destruct (FilesService.uploadFile storageService file userId w) as [[dto|e] w']
    eqn:Hrun; simpl.
  - destruct (FileRunFacts.uploadFile_returned storageService file userId w w' dto Hrun)
      as (u & u1 & u2 & r & p & before & n & Hu & Hc1 & Hle & _ & Hc2 & Hus & _).
    pose proof (Hw userId u Hu) as Hin. simpl in Hin.
    pose proof (Hsafe userId u Hu) as Hcap. simpl in Hcap.
    destruct (checkedAt_within _ _ _ Hc1 Hin) as (H1 & Hcap1).
    destruct (checkedAt_within _ _ _ Hc2) as (H2 & Hcap2); [lia|].
    assert (Hfits : monthlyUsage u1 + mf_size file <= maxStorageCapacity u)
      by (apply fits_when_admitted; [lia | exact Hcap | exact Hle]).
    split.
    + apply (safeCapacities_insert userId _ w w' Hsafe Hus). simpl.
      rewrite Hcap2, Hcap1. exact Hcap.
    + apply (withinQuota_insert userId _ w w' Hw Hus). simpl. lia.
  - destruct (uploadFile_thrown_users file userId w w' e Hrun)
      as [Hsame | (u & u1 & Hu & Hc1 & Hus)].
    + unfold withinQuota, safeCapacities in *. rewrite Hsame. split; assumption.
    + pose proof (Hw userId u Hu) as Hin. simpl in Hin.
      pose proof (Hsafe userId u Hu) as Hcap. simpl in Hcap.
      destruct (checkedAt_within _ _ _ Hc1 Hin) as (H1 & Hcap1).
      split.
      * apply (safeCapacities_insert userId _ w w' Hsafe Hus). rewrite Hcap1. exact Hcap.
      * apply (withinQuota_insert userId _ w w' Hw Hus). lia.
Qed.

End WithCloud.
End QuotaSafetyFacts.

(** X25.  Uploads never take a user over the quota when the capacities
    are safe integers: if every user's capacity is one and every user's
    usage is between 0 and the capacity, both still hold after any
    sequence of upload requests of files of a size no less than 0,
    whatever the clock does and whether the uploads succeed or fail. *)
Theorem uploads_never_exceed_the_quota {Cloud : Type}
    (storageService : StorageService.t Cloud) (reqs : list Request)
    (w : World Cloud) :
  Sessions.uploadsOnly reqs -> Quota.safeCapacities w -> Quota.withinQuota w ->
  Quota.safeCapacities (Session.handleAll storageService reqs w) /\
  Quota.withinQuota (Session.handleAll storageService reqs w).
Proof.
  intros Hreqs. revert w.
  induction Hreqs as [|req reqs Hreq _ IH]; intros w Hsafe Hw; [split; assumption|].
  unfold Session.handleAll in *. simpl.
  destruct req as [file userId | fileId userId]; [|destruct Hreq].
  destruct (QuotaSafetyFacts.uploadFile_withinQuota storageService file userId w
              Hreq Hsafe Hw) as (Hsafe' & Hw').
  apply IH; assumption.
Qed.

Lemma uploads_never_exceed_the_quota_witness :
  let big := mkMulterFile "big.bin" "application/octet-stream" 401 InMemoryCloud.hello in
  let reqs := [UploadRequest InMemoryCloud.report "u1"; UploadRequest big "u1";
               UploadRequest big "u2"] in
  let w' := Session.handleAll InMemoryCloud.storageService reqs InMemoryCloud.office in
  Sessions.uploadsOnly reqs /\ Quota.safeCapacities InMemoryCloud.office /\
  Quota.withinQuota InMemoryCloud.office /\
  Quota.withinQuota w' /\
  monthlyUsage <$> users (db w') !! "u1" = Some 1000 /\
  monthlyUsage <$> users (db w') !! "u2" = Some 401.
Proof.
  intros big reqs w'.
  assert (Hreqs : Sessions.uploadsOnly reqs)
    by (repeat constructor; vm_compute; discriminate).
  assert (Hsafe : Quota.safeCapacities InMemoryCloud.office).
  { apply (bool_decide_unpack _). vm_compute. exact I. }
  assert (Hw : Quota.withinQuota InMemoryCloud.office).
  { apply (bool_decide_unpack _). vm_compute. exact I. }
  split; [exact Hreqs|]. split; [exact Hsafe|]. split; [exact Hw|].
  split; [|split; vm_compute; reflexivity].
  apply (uploads_never_exceed_the_quota InMemoryCloud.storageService reqs
           InMemoryCloud.office Hreqs Hsafe Hw).
Defined.

(** X26.  Within the quota cycle (no reset is due at any reading of the
    clock), a delete that returns lowers the owner's usage by exactly
    the recorded size of the file, removes that record and no other,
    and leaves the rows of all other users as they were. *)
Theorem successful_delete_lowers_usage_by_the_file_size {Cloud : Type}
    (storageService : StorageService.t Cloud) (fileId caller : string)
    (file : FileRecord) (u : User) (w : World Cloud) (b : bool) :
  files (db w) !! fileId = Some file -> users (db w) !! caller = Some u ->
  (forall n, UsersService.resetIsDue (nextQuotaResetDate u) (clock w n) = false) ->
  let out := FilesService.deleteFile storageService fileId caller w in
  fst out = Returned b ->
  userId file = caller /\
  users (db (snd out)) =
    <[caller := UsersService.incrementUsage (- file_size file) u]> (users (db w)) /\
  monthlyUsage <$> users (db (snd out)) !! caller =
    Some (monthlyUsage u - file_size file) /\
  files (db (snd out)) = base.delete fileId (files (db w)).
Proof.
  intros Hf Hu Hnever out Hret. subst out.
  destruct (FilesService.deleteFile storageService fileId caller w) as [o w'] eqn:Hrun.
  simpl in Hret. subst o. simpl.
  destruct (FileRunFacts.deleteFile_returned storageService fileId caller w w' b Hrun)
    as (file' & u0 & u1 & n & _ & Hf' & Hown & Hfiles & Hu0 & _ & Hchk & Hus & _).
  rewrite Hf in Hf'. injection Hf' as <-.
  rewrite Hu in Hu0. injection Hu0 as <-.
  unfold Accounts.checkedAt in Hchk. rewrite Hnever in Hchk. subst u1.
  replace (file_size file * -1) with (- file_size file) in Hus by lia.
  split; [exact Hown|]. split; [exact Hus|].
  split; [|exact Hfiles].
  rewrite Hus, lookup_insert_eq. simpl. f_equal; lia.
Qed.

Lemma successful_delete_lowers_usage_by_the_file_size_witness :
  let out := FilesService.deleteFile InMemoryCloud.storageService "f1" "u1"
               InMemoryCloud.office in
  files (db InMemoryCloud.office) !! "f1" = Some InMemoryCloud.aliceFile /\
  users (db InMemoryCloud.office) !! "u1" = Some InMemoryCloud.alice /\
  fst out = Returned true /\
  monthlyUsage <$> users (db (snd out)) !! "u1" = Some (600 - 600).
Proof.
  intros out.
  assert (Hret : fst out = Returned true) by (vm_compute; reflexivity).
  split; [reflexivity|]. split; [reflexivity|]. split; [exact Hret|].
  apply (successful_delete_lowers_usage_by_the_file_size InMemoryCloud.storageService
           "f1" "u1" InMemoryCloud.aliceFile InMemoryCloud.alice InMemoryCloud.office
           true eq_refl eq_refl);
    [intros n; vm_compute; reflexivity | exact Hret].
Defined.

(* ===================================================================== *)
(** * Requests that fail *)
(* ===================================================================== *)

Module FailureFacts.
Import RunFacts.

Section WithCloud.
Context {Cloud : Type}.
Implicit Types (w : World Cloud).

Lemma findOwnedFile_thrown (fileId caller : string) w w' (e : Exn) :
  FilesService.findOwnedFile fileId caller w = (Thrown e, w') ->
  w' = w /\ e = NotFoundException "File not found".
Proof.
  unfold FilesService.findOwnedFile, bind, Prisma.file_findUnique, bind, getDb, ret,
    throw. simpl.
  destruct (files (db w) !! fileId) as [f|]; [|intros [= <- <-]; auto].
  destruct (negb _); simpl; [intros [= <- <-]; auto | discriminate].
Qed.

Lemma file_delete_present (id : string) (file : FileRecord) w :
  files (db w) !! id = Some file ->
  exists w', Prisma.file_delete id w = (Returned tt, w').
Proof.
  intros Hf. unfold Prisma.file_delete, bind, getDb, putDb. simpl. rewrite Hf.
  eexists. reflexivity.
Qed.

End WithCloud.
End FailureFacts.

(** X27.  Whatever makes an upload fail, it writes no record and books
    no usage: the file records and the usage history are as before and
    the database is as the rollover of the quota check left it
    (unchanged when no reset was due, or when the user does not exist).
    An upload throws nothing but [BadRequestException] ('User not
    found' or 'Storage quota exceeded (5GB limit)'), the orchestrator's
    [ServiceUnavailableException] and the database's error for an id
    that is already taken. *)
Theorem failed_upload_writes_no_record_and_no_usage {Cloud : Type}
    (storageService : StorageService.t Cloud) (file : MulterFile)
    (userId : string) (w : World Cloud) (e : Exn) :
  let out := FilesService.uploadFile storageService file userId w in
  fst out = Thrown e ->
  files (db (snd out)) = files (db w) /\
  usageHistory (db (snd out)) = usageHistory (db w) /\
  match users (db w) !! userId with
  | None => snd out = w /\ e = BadRequestException "User not found"
  | Some u =>
      db (snd out) =
        db (snd (UsersService.checkAndResetQuotaIfNeeded userId
                   (nextQuotaResetDate u) w)) /\
      (UsersService.resetIsDue (nextQuotaResetDate u) (clock w (clockReads w)) = false ->
       db (snd out) = db w) /\
      (e = BadRequestException "Storage quota exceeded (5GB limit)" \/
       e = ServiceUnavailableException "All storage providers are unavailable" \/
       e = JsError "Unique constraint failed on the fields: (`id`)")
  end.
Proof.
  intros out Hthrown. subst out.
  destruct (FilesService.uploadFile storageService file userId w) as [o w'] eqn:Hrun.
  simpl in Hthrown. subst o. simpl.
  unfold FilesService.uploadFile in Hrun.
  destruct (RunFacts.checkUserStorageQuota_cases userId (mf_size file) w)
    as [(Hnone & Hq) | (u & u1 & w1 & Hu & Hchk & Hus & _ & Hq & Hf1 & Hh1 & _)].
  { rewrite Hnone.
    apply RunFacts.bind_thrown in Hrun as [Hrun | (b & w1 & Hrun & _)];
      rewrite Hq in Hrun; [|discriminate].
    injection Hrun as <- <-. auto. }
  rewrite Hu.
  assert (Hgoal : forall wx : World Cloud, db wx = db w1 ->
            files (db wx) = files (db w) /\
            usageHistory (db wx) = usageHistory (db w) /\
            db wx =
              db (snd (UsersService.checkAndResetQuotaIfNeeded userId
                         (nextQuotaResetDate u) w)) /\
            (UsersService.resetIsDue (nextQuotaResetDate u) (clock w (clockReads w)) =
               false -> db wx = db w)).
  { intros wx Hdb. rewrite Hdb, Hchk. simpl.
    split; [exact Hf1|]. split; [exact Hh1|]. split; [reflexivity|].
    intros Hnot.
    rewrite (QuotaFacts.checkAndReset_not_due userId _ w Hnot) in Hchk.
    injection Hchk as <-. reflexivity. }
  assert (Hdone : forall wx : World Cloud, db wx = db w1 ->
            (e = BadRequestException "Storage quota exceeded (5GB limit)" \/
             e = ServiceUnavailableException "All storage providers are unavailable" \/
             e = JsError "Unique constraint failed on the fields: (`id`)") ->
            files (db wx) = files (db w) /\
            usageHistory (db wx) = usageHistory (db w) /\
            db wx =
              db (snd (UsersService.checkAndResetQuotaIfNeeded userId
                         (nextQuotaResetDate u) w)) /\
            (UsersService.resetIsDue (nextQuotaResetDate u) (clock w (clockReads w)) =
               false -> db wx = db w) /\
            (e = BadRequestException "Storage quota exceeded (5GB limit)" \/
             e = ServiceUnavailableException "All storage providers are unavailable" \/
             e = JsError "Unique constraint failed on the fields: (`id`)")).
  { intros wx Hdb He. destruct (Hgoal wx Hdb) as (H1 & H2 & H3 & H4). auto. }
  apply RunFacts.bind_thrown in Hrun as [Hrun | (b & w1' & Hrun & H)];
    [rewrite Hq in Hrun; discriminate|].
  rewrite Hq in Hrun. injection Hrun as <- <-.
  destruct (JsNumber.add (JsNumber.ofBigInt (monthlyUsage u1)) (mf_size file) <=?
            JsNumber.ofBigInt (maxStorageCapacity u)).
  2:{ simpl in H. unfold throw in H. injection H as <- <-.
      apply Hdone; [reflexivity | left; reflexivity]. }
  simpl negb in H. cbv iota in H.
  apply RunFacts.bind_thrown in H as [H | (uuid & w2 & Hfresh & H)]; [discriminate H|].
  unfold freshId in Hfresh. injection Hfresh as <- <-.
  apply RunFacts.bind_thrown in H as [Hup | (r & w3 & Hup & H)].
  { destruct (RunFacts.storage_uploadFile_frame _ _ _ _ _ _ _ Hup) as (Hdb & _).
    simpl in Hdb.
    pose proof (OrchestratorFacts.uploadFileOver_run
                  (StorageService.providers storageService) (buffer file)
                  ("uploads/" ++ userId ++ "/" ++ uuids w1 (uuidCount w1) ++ "." ++
                   JsString.splitPop "."%char (originalname file))%string
                  (mf_mimetype file)
                  (mkWorld (db w1) (cloud w1) (clock w1) (clockReads w1) (uuids w1)
                     (S (uuidCount w1)) (env_API_URL w1) (calls w1))) as Hfail.
    unfold StorageService.uploadFile in Hup. rewrite Hup in Hfail.
    destruct Hfail as (_ & _ & _ & log & _ & _ & He & _).
    apply Hdone; [exact Hdb | right; left; exact He]. }
  destruct (RunFacts.storage_uploadFile_frame _ _ _ _ _ _ _ Hup) as (Hdb3 & _).
  simpl in Hdb3.
  apply RunFacts.bind_thrown in H as [Hcr | (rec & w4 & Hcr & H)].
  { pose proof (RunFacts.file_create_thrown _ _ _ _ _ _ _ _ _ _ Hcr) as He.
    unfold Prisma.file_create, bind, freshId, dbNow, getDb, putDb, ret, throw in Hcr.
    simpl in Hcr.
    destruct (files (db w3) !! uuids w3 (uuidCount w3)); [|discriminate Hcr].
    injection Hcr as _ <-.
    apply Hdone; [exact Hdb3 | right; right; exact He]. }
  apply RunFacts.file_create_returned in Hcr as (_ & _ & _ & Hus4 & _).
  apply RunFacts.bind_thrown in H as [Hupd | (x & w5 & _ & H)]; [|discriminate H].
  destruct (RunFacts.updateUserStorageUsage_cases userId (mf_size file) w4)
    as [(Hnone & _) | (_ & _ & _ & w5 & _ & _ & _ & _ & Hret & _)].
  - rewrite Hus4, Hdb3, Hus, lookup_insert_eq in Hnone. discriminate Hnone.
  - rewrite Hupd in Hret. discriminate Hret.
Qed.

Lemma failed_upload_writes_no_record_and_no_usage_witness :
  let taken := mkDatabase {["u1" := InMemoryCloud.alice]}
                 {["uuid-1" := InMemoryCloud.aliceFile]} [] in
  let w := InMemoryCloud.world taken InMemoryCloud.allUp
             (fun _ => InMemoryCloud.mid_january_2025) in
  let out := FilesService.uploadFile InMemoryCloud.storageService InMemoryCloud.report
               "u1" w in
  fst out = Thrown (JsError "Unique constraint failed on the fields: (`id`)") /\
  db (snd out) = db w /\
  InMemoryCloud.s3_objects (cloud (snd out)) !! "uploads/u1/uuid-0.pdf" =
    Some (InMemoryCloud.hello, "application/pdf").
Proof.
  intros taken w out.
  assert (Hthrown : fst out =
            Thrown (JsError "Unique constraint failed on the fields: (`id`)"))
    by (vm_compute; reflexivity).
  split; [exact Hthrown|].
  destruct (failed_upload_writes_no_record_and_no_usage InMemoryCloud.storageService
              InMemoryCloud.report "u1" w _ Hthrown) as (_ & _ & Hcase).
  change (users (db w) !! "u1") with (Some InMemoryCloud.alice) in Hcase.
  destruct Hcase as (_ & Hsame & _).
  split; [apply Hsame; vm_compute; reflexivity | vm_compute; reflexivity].
Defined.

(** X28.  A delete that fails for a caller who has a user row has
    changed nothing in the database: either the record is absent or
    somebody else's, the error is [NotFoundException] and nothing
    happened at all, or the caller owns the record and the error is the
    one the storage service's delete threw. *)
Theorem failed_delete_writes_nothing {Cloud : Type}
    (storageService : StorageService.t Cloud) (fileId caller : string)
    (u : User) (w : World Cloud) (e : Exn) :
  users (db w) !! caller = Some u ->
  let out := FilesService.deleteFile storageService fileId caller w in
  fst out = Thrown e ->
  db (snd out) = db w /\
  ((e = NotFoundException "File not found" /\ snd out = w) \/
   exists file : FileRecord,
     files (db w) !! fileId = Some file /\ userId file = caller /\
     StorageService.deleteFile storageService (cloudPath file) (cloudProvider file) w =
       (Thrown e, snd out)).
Proof.
  intros Hu out Hthrown. subst out.
  destruct (FilesService.deleteFile storageService fileId caller w) as [o w'] eqn:Hrun.
  simpl in Hthrown. subst o. simpl.
  unfold FilesService.deleteFile in Hrun.
  apply RunFacts.bind_thrown in Hrun as [Hfind | (file & w1 & Hfind & H)].
  { apply FailureFacts.findOwnedFile_thrown in Hfind as (-> & ->). auto. }
  apply RunFacts.findOwnedFile_returned in Hfind as (-> & Hf & Hown).
  apply RunFacts.bind_thrown in H as [Hdel | (stored & w2 & Hdel & H)].
  { destruct (RunFacts.storage_deleteFile_frame _ _ _ _ _ _ Hdel) as (Hdb & _).
    split; [exact Hdb|]. right. exists file. auto. }
  exfalso.
  destruct (RunFacts.storage_deleteFile_frame _ _ _ _ _ _ Hdel) as (Hdb2 & _).
  apply RunFacts.bind_thrown in H as [Hrm | ([] & w3 & Hrm & H)].
  { destruct (FailureFacts.file_delete_present fileId file w2) as (w3 & Hok);
      [rewrite Hdb2; exact Hf|].
    rewrite Hok in Hrm. discriminate Hrm. }
  apply RunFacts.file_delete_returned in Hrm as (_ & Hus3 & _).
  apply RunFacts.bind_thrown in H as [Hupd | (x & w4 & _ & H)]; [|discriminate H].
  destruct (RunFacts.updateUserStorageUsage_cases caller (file_size file * -1) w3)
    as [(Hnone & _) | (_ & _ & _ & w4 & _ & _ & _ & _ & Hret & _)].
  - rewrite Hus3, Hdb2, Hu in Hnone. discriminate Hnone.
  - rewrite Hupd in Hret. discriminate Hret.
Qed.

Lemma failed_delete_writes_nothing_witness :
  let out := FilesService.deleteFile InMemoryCloud.storageService "f2" "u1"
               InMemoryCloud.office in
  users (db InMemoryCloud.office) !! "u1" = Some InMemoryCloud.alice /\
  fst out = Thrown (JsError "Provider azure not found") /\
  db (snd out) = db InMemoryCloud.office.
Proof.
  intros out.
  assert (Hthrown : fst out = Thrown (JsError "Provider azure not found"))
    by (vm_compute; reflexivity).
  split; [reflexivity|]. split; [exact Hthrown|].
  apply (failed_delete_writes_nothing InMemoryCloud.storageService "f2" "u1"
           InMemoryCloud.alice InMemoryCloud.office _ eq_refl Hthrown).
Defined.

